(* ===== verification/_CoqProject ===== *)
-Q . S2P
Prelude.v
Corpus.v
SortValues.v
Tokenize.v
PyStr.v
PyInt.v
Soup.v
Ranking.v
Bm25.v
Semantic.v
Assets.v
Hybrid.v
Paginate.v
Latest.v
Scraper.v
Portals.v
