(* ===== verification/Prelude.v ===== *)
(** * Search-Engine-Stephy: a verification development of the hybrid retrieval engine

    The repository (src/app.py, src/notebooks/scrape_url.py, src/test.py) is a
    small Flask news search engine for game articles.  Its parts, and how
    they interact:

    - the scraper (src/notebooks/scrape_url.py) builds the corpus offline:
      [main] reads the crawled-URL file, resumes from the URLs already in
      the output CSV, fetches each new URL, parses the page with
      BeautifulSoup, reads its fields with the portal's [scrape_*_article]
      (lines 73-188) and appends one row per article, numbered
      [doc_00001], [doc_00002], ...;
    - at startup [load_assets] (app.py:27-47) fills the global dict
      [ASSETS] with the pickled BM25 index, the corpus DataFrame, the
      embedding matrix and the S-BERT encoder; the [__main__] block
      (app.py:171-178) serves only if that succeeds;
    - the lexical index is queried by [search_bm25] (app.py:49-57) through
      rank_bm25's [get_scores], the semantic index by [search_sbert]
      (app.py:59-70) through the encoder and sklearn's [cosine_similarity];
      both rank with [np.argsort(...)[::-1][:top_k]] and [df.iloc];
    - the hybrid ranker [run_combined_search] (app.py:72-91) tokenizes the
      query, runs both searches, numbers each algorithm's rows with
      [groupby('algorithm').cumcount() + 1] and sorts by the label;
    - the [/search] handler [search_results] (app.py:131-163) paginates the
      merged list with Python slicing; the [/] handler [index]
      (app.py:109-112) shows [get_latest_news] (app.py:93-106).

    Files, in dependency order (each opens with a doc comment of its own):

    - [Prelude] (this file): Python slice semantics ([py_index],
      [py_slice]), the total order on rational scores, pointwise equality
      of score vectors ([=v=]) with its [Equivalence] and [Proper]
      instances, shared list/option/fraction lemmas, the hint database
      [pyslice] and the tactics [qvec_compute], [list_elem_cases], [qconst].
    - [Corpus]: the [Document] row (the scraper's CSV header) and
      [df.iloc[...]] raising [IndexError] ([None]).
    - [SortValues]: pandas' [sort_values(by=key, ascending=False)] as a
      contract (a permutation with non-increasing keys, all that the default
      quicksort promises) packaged as the record [sort_values_impl], with a
      stable and a tie-reversing insertion sort as implementations.
    - [Tokenize] (Module [Tokenize]): [str(raw_query).lower().split()],
      and [str.strip()] used by the scraper's task parser.
    - [PyStr] (Module [PyStr]): [startswith], [in], [split(sep)] and
      [join], the string methods of the portal scrapers.
    - [PyInt] (Module [PyInt]): Python's [str(n)] on integers ([decimal],
      [py_str]) and [int(s)] in base 10 ([py_int]: surrounding whitespace,
      one sign, digits with PEP 515 single underscores), which werkzeug's
      [type=int] calls on the [page] argument.
    - [Soup] (Module [Soup]): the parsed page as a tree of tags, strings
      and comments, and the bs4 operations the scrapers call: CSS
      [select]/[select_one] (compound selectors, descendant combinator),
      [find_all]/[find], [get_text(strip=True)], [decompose].
    - [Ranking]: [np.argsort] as the record [argsort_impl] of an
      implementation and its law, the stable argsort, [top_k_indices] and
      [search_rows], generic in the score type (Section with [Context]).
    - [Bm25] (Module [Bm25]): [get_scores] of rank_bm25 over [Q] (modelled
      from the spec, the library not being part of the repository) and
      [search_bm25].
    - [Semantic] (Module [Semantic]): [search_sbert], generic in the encoder
      and the similarity, and sklearn's [cosine_similarity] over the reals
      (normalisation with the zero-norm convention, dimension check).
    - [Assets] (Module [Assets]): [load_assets] in a state and exception
      monad whose state is [ASSETS] and the printed lines; [startup], the
      [__main__] block, with the outcome of [app.run] as an input; the
      process as a step relation.
    - [Hybrid] (Module [Hybrid]): [run_combined_search] with the two
      searches and [sort_values] as parameters (a Section), and the whole
      engine on a three-document corpus.
    - [Paginate] (Module [Paginate]): [search_results], the page argument
      [get_page] ([request.args.get('page', 1, type=int)]) and
      [page_slice].
    - [Latest] (Module [Latest]): [get_latest_news] and [index].
    - [Scraper] (Module [Scraper]): the task-file parser, the CSV outcomes,
      the id format, the loop as a fold and as a step relation, and [main];
      the fetch is an oracle giving, per URL, the status and, per portal,
      the fields its scraper returns or [None] when it raised.
    - [Portals] (Module [Portals]): the five [scrape_*_article] functions
      with their regular expressions written as functions, the dispatch of
      [main], and [fetch_pages], which builds [main]'s oracle from the
      parsed pages.

    Theorems, by group:
    - merge ([Hybrid]): block structure for every [sort_values] meeting the
      contract, rank order 1..k with the stable sort, ranks k..1 in each
      block with a tie-reversing sort that also meets the contract (a
      divergence from the spec), the labels and the exact rank multisets of
      each block, no fallback when the encoder fails;
    - ranking ([Ranking], [Bm25]): top-k maximality for every argsort
      implementation, tie order under [[::-1]] (a divergence), the hits of
      [search_bm25] scoring at least every document left out, and queries
      without vocabulary scoring 0;
    - pagination ([Paginate]): pages concatenate to the results, size and
      past-the-end bounds, page 0 empty and page -1 not (a divergence); a
      link [?page=str(n)] with [n >= 1] renders the ten results from
      [(n-1)*10] with the least page count, and an argument [int] rejects
      is served as page 1;
    - feed ([Latest]): the feed skips the eleven newest rows, not the four
      its comment names (a divergence);
    - startup ([Assets]): the loaded dict and the printed line, the
      re-raised errors with their messages, the partial state left by a
      failure, the output of a start without the BM25 file (the literal
      [{e}], a finding), and the safety of the process (a serving state
      always has its four assets);
    - scraper ([Scraper]): the invariant of appended rows by rule induction
      on the step relation, liveness of good tasks, the corpus invariants
      after [main] (URLs stay unique, and ids stay unique when the CSV was
      numbered from [doc_00001] with distinct URLs), and, for every input,
      the findings: a task listed twice breaks URL uniqueness, a CSV with
      repeated URLs makes the next id collide, a CSV without a [url]
      column is rewritten, and six-digit ids sort below five-digit ones;
    - pages ([Portals]): the exact condition of Kotakgame's
      [AttributeError], Jagatplay stops at the advertising [div], Detik's
      [IndexError] branch, Indogamers keeps the weekday only (a finding),
      and, end to end, a Gamebrott page that answers 200 ends in the CSV
      with its title.  [PyStr], [PyInt], [Soup] and [Semantic] also prove
      the library facts the models rely on ([join] inverts [split],
      [int(str(z)) = z], the greedy ancestor search, cosine bounds).

    Numbers and fuel.  Python floats are exact rationals [Q] for the BM25
    scores (only their order matters to ranking, merge and pagination) and
    reals [R] for cosine similarities, which need square roots.  Python
    integers (page numbers, [top_k], ids) are [Z] or [N], so negative
    inputs keep Python's meaning and ids do not wrap.  The only fuel is
    [PyInt.digits_go], given [log2 n + 1] rounds, which is enough since a
    number has no more decimal than binary digits; [decimal_fuel_enough]
    proves that any larger fuel gives the same string.

    Not modelled: parsing the HTML bytes ([html.parser]: the tree is the
    input of the scrapers) and the network ([requests.get] is an oracle of
    pages), non-ASCII text (case mapping, Unicode digits, whitespace and
    word characters), the pretrained S-BERT encoder (a parameter), the
    construction of the BM25 index (offline, in a notebook outside src/),
    logging and [time.sleep], Flask's template rendering (a handler's
    answer is the template name and its arguments), the server loop of
    [app.run] and its debug reloader (its outcome is an input of
    [startup]), and the streamlit mock-up src/test.py (pure UI).  Floats
    are exact rationals, so ties that rounding would break or create are
    not modelled. *)

From stdpp Require Import base list sorting.
From Stdlib Require Import ZArith QArith Lqa Lia.
From Stdlib Require Strings.String.
Open Scope nat_scope.

Declare Scope qvec_scope.
Delimit Scope qvec_scope with qvec.

(** ** Python slicing [l[i:j]] with step 1 *)

(** CPython's [PySlice_AdjustIndices] for step 1: a negative bound counts
    from the end and is clipped at 0; a non-negative one is clipped at
    [len(l)]. *)
Definition py_index (n i : Z) : Z :=
  if (i <? 0)%Z then Z.max 0 (i + n) else Z.min i n.

(** [l[i:j]]: the items at normalised positions [s <= p < e]. *)
Definition py_slice {A} (l : list A) (i j : Z) : list A :=
  let n := Z.of_nat (length l) in
  let s := py_index n i in
  let e := py_index n j in
  take (Z.to_nat (e - s)) (drop (Z.to_nat s) l).

(** ** Scores as rationals *)

#[export] Instance Qle_rel_dec : RelDecision Qle :=
  fun x y => match Qlt_le_dec y x with
  | left h => right (Qlt_not_le _ _ h)
  | right h => left h
  end.

#[export] Instance Qle_total : Total Qle.
Proof. intros x y. destruct (Qlt_le_dec x y); [left; lra | right; lra]. Qed.

#[export] Instance Qle_transitive : Transitive Qle.
Proof. intros x y z ? ?; lra. Qed.

#[export] Instance Q_inhabited : Inhabited Q := populate 0%Q.

(** A numpy float vector is compared up to [Qeq] pointwise. *)
Definition qvec_eq (v w : list Q) : Prop := Forall2 Qeq v w.
Infix "=v=" := qvec_eq (at level 70) : qvec_scope.
Open Scope qvec_scope.

(** [v + w] on numpy vectors of the same shape. *)
Definition vadd (v w : list Q) : list Q := zip_with Qplus v w.

(** ** Lemmas on Python slicing *)

Create HintDb pyslice discriminated.
Create Rewrite HintDb pyslice_rw.

Lemma py_index_nonneg n i : (0 <= i)%Z -> py_index n i = Z.min i n.
Proof. intros Hi. unfold py_index. destruct (Z.ltb_spec i 0); lia. Qed.

Lemma py_index_bounds n i : (0 <= n)%Z -> (0 <= py_index n i <= n)%Z.
Proof. intros. unfold py_index. destruct (Z.ltb_spec i 0); lia. Qed.

Section PySlice.
Context {A : Type}.
Implicit Types (l : list A).

(** Clipping both bounds at [length l] does not change a take/drop. *)
Lemma take_drop_clip l a b :
  take (Nat.min b (length l) - Nat.min a (length l)) (drop (Nat.min a (length l)) l)
  = take (b - a) (drop a l).
Proof.
  apply list_eq; intros p. rewrite !lookup_take, !lookup_drop.
  destruct (decide (p < _)), (decide (p < b - a)); try done.
  all: try (symmetry; apply lookup_ge_None_2; lia).
  all: try (apply lookup_ge_None_2; lia).
  f_equal; lia.
Qed.

(** Between non-negative bounds a slice is a [take] of a [drop]. *)
Lemma py_slice_nonneg l i j :
  (0 <= i)%Z -> (0 <= j)%Z ->
  py_slice l i j = take (Z.to_nat j - Z.to_nat i) (drop (Z.to_nat i) l).
Proof.
  intros Hi Hj. unfold py_slice. rewrite !py_index_nonneg by lia.
  rewrite <- take_drop_clip. f_equal; [|f_equal]; lia.
Qed.

Lemma py_slice_prefix l k : (0 <= k)%Z -> py_slice l 0 k = take (Z.to_nat k) l.
Proof. intros. rewrite py_slice_nonneg by lia. simpl. by rewrite Nat.sub_0_r. Qed.

Lemma length_py_slice_nonneg l i j :
  (0 <= i)%Z -> (0 <= j)%Z ->
  length (py_slice l i j) = Nat.min (Z.to_nat j - Z.to_nat i) (length l - Z.to_nat i).
Proof. intros. rewrite py_slice_nonneg, length_take, length_drop by lia. done. Qed.

(** Adjacent slices concatenate. *)
Lemma py_slice_app l i j k :
  (0 <= i <= j)%Z -> (j <= k)%Z ->
  py_slice l i j ++ py_slice l j k = py_slice l i k.
Proof.
  intros Hij Hjk. rewrite !py_slice_nonneg by lia.
  assert (drop (Z.to_nat j) l = drop (Z.to_nat j - Z.to_nat i) (drop (Z.to_nat i) l))
    as -> by (rewrite drop_drop; f_equal; lia).
  rewrite take_take_drop. f_equal; lia.
Qed.

(** A slice starting at or after the end is empty. *)
Lemma py_slice_past_end l i j :
  (0 <= i)%Z -> (Z.of_nat (length l) <= i)%Z -> py_slice l i j = [].
Proof.
  intros. unfold py_slice. rewrite (py_index_nonneg _ i) by lia.
  rewrite drop_ge by lia. apply take_nil.
Qed.

Lemma py_slice_sublist l i j : sublist (py_slice l i j) l.
Proof.
  unfold py_slice. etrans; [apply sublist_take|]. apply sublist_drop.
Qed.

End PySlice.

#[export] Hint Rewrite @py_slice_prefix @py_slice_past_end using lia : pyslice_rw.
#[export] Hint Resolve py_slice_sublist : pyslice.

(** ** Score vectors up to [Qeq] *)

#[export] Instance qvec_eq_equiv : Equivalence qvec_eq.
Proof.
  unfold qvec_eq. split.
  - intros v. induction v; constructor; [reflexivity | done].
  - intros v w H. induction H; constructor; [symmetry | ]; done.
  - intros u v w H1. revert w. induction H1; intros w H2; inversion H2; subst;
      constructor; [etrans |]; eauto.
Qed.

#[export] Instance vadd_proper : Proper (qvec_eq ==> qvec_eq ==> qvec_eq) vadd.
Proof.
  intros v v' Hv w w' Hw. unfold qvec_eq, vadd in *. revert w w' Hw.
  induction Hv as [|x x' v v' Hx Hv IH]; intros w w' Hw; [constructor|].
  inversion Hw; subst; simpl; constructor; [rewrite Hx; by f_equiv | auto].
Qed.

Lemma length_vadd v w : length (vadd v w) = Nat.min (length v) (length w).
Proof. apply length_zip_with. Qed.

(** ** Sortedness *)

Section SortedLemmas.
Context {A : Type}.
Implicit Types (l : list A) (R : relation A).

Lemma Sorted_weaken R1 R2 l :
  (forall x y, R1 x y -> R2 x y) -> Sorted R1 l -> Sorted R2 l.
Proof.
  intros HR. induction 1 as [|x l _ IH Hd]; constructor; [done|].
  destruct Hd; constructor; auto.
Qed.

Lemma StronglySorted_sublist R l1 l2 :
  sublist l1 l2 -> StronglySorted R l2 -> StronglySorted R l1.
Proof.
  induction 1 as [|x l1 l2 Hsub IH|x l1 l2 _ IH]; intros Hs.
  - constructor.
  - apply StronglySorted_inv in Hs as [Hs Hall]. constructor; [by apply IH|].
    apply Forall_forall. intros z Hz. rewrite Forall_forall in Hall.
    eauto using elem_of_sublist.
  - apply StronglySorted_inv in Hs as [Hs _]. by apply IH.
Qed.

Lemma StronglySorted_reverse R `{!Transitive R} l :
  Sorted R l -> StronglySorted (flip R) (reverse l).
Proof.
  intros Hs. apply Sorted_StronglySorted; [|by apply Sorted_reverse].
  intros x y z ? ?; unfold flip in *; by etrans.
Qed.

(** The elements of a prefix of a strongly sorted list precede the rest. *)
Lemma StronglySorted_take_drop R l m x y :
  StronglySorted R l -> x ∈ take m l -> y ∈ drop m l -> R x y.
Proof.
  intros Hs. apply StronglySorted_app_1_elem_of. by rewrite take_drop.
Qed.

(** Positions of a strongly sorted list are ordered by [R]. *)
Lemma StronglySorted_lookup R l p q x y :
  StronglySorted R l -> l !! p = Some x -> l !! q = Some y -> p < q -> R x y.
Proof.
  intros Hs. revert p q. induction Hs as [|z l Hs IH Hall]; intros p q Hp Hq Hpq;
    [done|].
  destruct p as [|p], q as [|q]; simplify_eq/=; try lia.
  - rewrite Forall_forall in Hall. apply Hall. by eapply list_elem_of_lookup_2.
  - apply (IH p q); auto with lia.
Qed.

End SortedLemmas.

Lemma NoDup_reverse {A} (l : list A) : NoDup l -> NoDup (reverse l).
Proof. by rewrite reverse_Permutation. Qed.

(** A slice from the start is a prefix. *)
Lemma py_slice_from_0 {A} (l : list A) k :
  py_slice l 0 k = take (Z.to_nat (py_index (Z.of_nat (length l)) k)) l.
Proof.
  unfold py_slice. rewrite (py_index_nonneg _ 0) by lia.
  replace (Z.min 0 (Z.of_nat (length l))) with 0%Z by lia.
  by rewrite Z.sub_0_r.
Qed.

(** ** Sums of rationals *)

#[export] Instance Qplus_assoc_Qeq : Assoc Qeq Qplus.
Proof. intros x y z. lra. Qed.

#[export] Instance Qplus_comm_Qeq : Comm Qeq Qplus.
Proof. intros x y. lra. Qed.

#[export] Instance Qplus_proper_Qeq x : Proper (Qeq ==> Qeq) (Qplus x).
Proof. intros y z H. rewrite H. reflexivity. Qed.

(** [sum(l)] over rationals. *)
Definition qsum (l : list Q) : Q := foldr Qplus 0%Q l.

Lemma qsum_app l1 l2 : (qsum (l1 ++ l2) == qsum l1 + qsum l2)%Q.
Proof.
  induction l1 as [|x l1 IH]; simpl; [lra|]. unfold qsum in *. simpl. rewrite IH. lra.
Qed.

Lemma qsum_Permutation l1 l2 : l1 ≡ₚ l2 -> (qsum l1 == qsum l2)%Q.
Proof. intros Hp. unfold qsum. by apply (foldr_permutation_proper' Qeq Qplus 0%Q). Qed.

(** Termwise comparison of two sums over the same index list. *)
Lemma qsum_map_le {A} (f g : A -> Q) (l : list A) :
  (forall x, x ∈ l -> (f x <= g x)%Q) -> (qsum (f <$> l) <= qsum (g <$> l))%Q.
Proof.
  induction l as [|x l IH]; intros Hfg; [apply Qle_refl|].
  rewrite !fmap_cons. unfold qsum; cbn [foldr]; fold (qsum (f <$> l)) (qsum (g <$> l)).
  apply Qplus_le_compat; [apply Hfg; constructor|].
  apply IH; intros y Hy; apply Hfg; by constructor.
Qed.

Lemma qsum_map_zero {A} (f : A -> Q) (l : list A) :
  (forall x, x ∈ l -> (f x == 0)%Q) -> (qsum (f <$> l) == 0)%Q.
Proof.
  induction l as [|x l IH]; intros Hf; [reflexivity|].
  rewrite fmap_cons. unfold qsum; cbn [foldr]; fold (qsum (f <$> l)).
  rewrite (Hf x) by constructor. rewrite IH by (intros y Hy; apply Hf; by constructor).
  reflexivity.
Qed.

(** Two vectors are [=v=] when they have the same length and agree at every
    position up to [Qeq]. *)
Lemma qvec_eq_lookup v w :
  length v = length w -> (forall i, i < length v -> (v !!! i == w !!! i)%Q) -> v =v= w.
Proof.
  intros Hl Hi. apply Forall2_same_length_lookup_2; [done|].
  intros i x y Hx Hy. pose proof (lookup_lt_Some _ _ _ Hx).
  specialize (Hi i ltac:(done)).
  by rewrite (list_lookup_total_correct _ _ _ Hx), (list_lookup_total_correct _ _ _ Hy) in Hi.
Qed.

Lemma qvec_eq_lookup_inv v w i : v =v= w -> (v !!! i == w !!! i)%Q.
Proof.
  intros Hvw. revert i. induction Hvw as [|x y v w Hxy _ IH]; intros [|i]; simpl;
    first [done | reflexivity | apply IH].
Qed.

Lemma lookup_total_vadd v w i :
  i < length v -> i < length w -> (vadd v w !!! i = v !!! i + w !!! i)%Q.
Proof.
  revert w i. induction v as [|x v IH]; intros [|y w] [|i] Hv Hw; simpl in *; try lia; auto.
  apply IH; lia.
Qed.

Lemma lookup_total_zip_with {A B C} `{Inhabited A, Inhabited B, Inhabited C}
  (f : A -> B -> C) (l : list A) (k : list B) i :
  i < length l -> i < length k -> zip_with f l k !!! i = f (l !!! i) (k !!! i).
Proof.
  revert k i. induction l as [|x l IH]; intros [|y k] [|i] Hl Hk; simpl in *; try lia; auto.
  apply IH; lia.
Qed.

(** ** Fractions [t / (t + c)] *)

Lemma frac_mono c t1 t2 :
  (0 < c -> 0 <= t1 -> t1 <= t2 -> t1 / (t1 + c) <= t2 / (t2 + c))%Q.
Proof.
  intros Hc H1 H12. apply Qle_shift_div_l; [lra|].
  unfold Qdiv. rewrite <- Qmult_assoc, (Qmult_comm (/ _)), Qmult_assoc.
  apply Qle_shift_div_r; [lra|]. nra.
Qed.

Lemma frac_le_1 c t : (0 < c -> 0 <= t -> t / (t + c) <= 1)%Q.
Proof. intros. apply Qle_shift_div_r; lra. Qed.

Lemma Qdiv_nonneg x y : (0 <= x -> 0 < y -> 0 <= x / y)%Q.
Proof. intros. apply Qle_shift_div_l; lra. Qed.

Lemma Qmult_le_compat_l x y z : (x <= y -> 0 <= z -> z * x <= z * y)%Q.
Proof. intros. rewrite !(Qmult_comm z). by apply Qmult_le_compat_r. Qed.

(** Close [v =v= w] between concrete vectors by evaluation. *)
Ltac qvec_compute := unfold qvec_eq; vm_compute; repeat constructor.

(** Case analysis on [x ∈ [a; b; ...]] for a concrete list. *)
Ltac list_elem_cases H :=
  repeat (apply elem_of_cons in H as [H|H]; [try subst|]);
  try (apply elem_of_nil in H; contradiction).

(** Close a closed arithmetic fact on rationals or naturals. *)
Ltac qconst := first [lra | lia | vm_compute; first [reflexivity | discriminate | intro; discriminate]].

(** ** Boolean filters *)

Lemma list_filter_all_false {A} (f : A -> bool) l :
  Forall (fun x => f x = false) l -> List.filter f l = [].
Proof. induction 1 as [|x l Hx _ IH]; simpl; [done|]. by rewrite Hx. Qed.

Lemma list_filter_all_true {A} (f : A -> bool) l :
  Forall (fun x => f x = true) l -> List.filter f l = l.
Proof. induction 1 as [|x l Hx _ IH]; simpl; [done|]. by rewrite Hx, IH. Qed.

Lemma list_filter_Permutation {A} (f : A -> bool) l1 l2 :
  l1 ≡ₚ l2 -> List.filter f l1 ≡ₚ List.filter f l2.
Proof.
  induction 1 as [|x l1 l2 _ IH|x y l|l1 l2 l3 _ IH1 _ IH2]; simpl.
  - done.
  - destruct (f x); [by rewrite IH | done].
  - destruct (f x), (f y); [apply Permutation_swap | done..].
  - by rewrite IH1.
Qed.

Lemma list_filter_app {A} (f : A -> bool) l1 l2 :
  List.filter f (l1 ++ l2) = List.filter f l1 ++ List.filter f l2.
Proof. induction l1 as [|x l1 IH]; simpl; [done|]. destruct (f x); simpl; by rewrite IH. Qed.

(** A slice from a non-negative start lies in the [drop] at that start. *)
Lemma py_slice_sublist_drop {A} (l : list A) i j :
  (0 <= i)%Z -> sublist (py_slice l i j) (drop (Z.to_nat i) l).
Proof.
  intros Hi. unfold py_slice. rewrite (py_index_nonneg _ i) by done.
  etrans; [apply sublist_take|].
  destruct (decide (Z.to_nat i <= length l)%nat).
  - replace (Z.to_nat (Z.min i (Z.of_nat (length l)))) with (Z.to_nat i) by lia. done.
  - rewrite !drop_ge by lia. done.
Qed.

(** ** Stdlib strings

    Stated with [String.append] so that they rewrite the [++] of
    [string_scope] whether or not stdpp's [strings] (which blocks [simpl]
    on it) is loaded. *)

Lemma string_app_cons c s1 s2 : String.append (String.String c s1) s2 = String.String c (String.append s1 s2).
Proof. done. Qed.

Lemma string_app_nil_r t : String.append t String.EmptyString = t.
Proof. induction t as [|c t IH]; [done|]. rewrite string_app_cons. by rewrite IH. Qed.

Lemma string_app_assoc a b c : String.append a (String.append b c) = String.append (String.append a b) c.
Proof. induction a as [|x a IH]; [done|]. rewrite !string_app_cons. by rewrite IH. Qed.

Lemma string_length_app s1 s2 :
  String.length (String.append s1 s2) = String.length s1 + String.length s2.
Proof. induction s1 as [|x s1 IH]; [done|]. rewrite string_app_cons. simpl. lia. Qed.
