(* ===== verification/Corpus.v ===== *)
(** * Corpus store: the documents of [df_corpus.pkl]

    One row of the DataFrame written by the scraper
    (src/notebooks/scrape_url.py, [header] at line 195) and loaded by
    [load_assets] (src/app.py:33).  The corpus is the list of rows in
    DataFrame order; positions in it are the positions used by both indices
    ([iloc]).  Also: pandas [iloc] with a list of positions, which raises
    [IndexError] when a position is out of range (modelled as [None]). *)

From stdpp Require Import base list strings.
From S2P Require Import Prelude.

Record Document := mkDocument {
  id_dokumen : string;
  sumber : string;
  url : string;
  judul : string;
  konten : string;
  tanggal_terbit : string;
  url_thumbnail : string
}.

#[export] Instance Document_inhabited : Inhabited Document :=
  populate (mkDocument "" "" "" "" "" "" "").

(** [df.iloc[ix]]: the rows at the given positions, in the given order;
    [None] is pandas' [IndexError] ("positional indexers are out-of-bounds"). *)
Definition iloc {D} (df : list D) (ix : list nat) : option (list D) :=
  mapM (fun i => df !! i) ix.

(** The corpus invariant of the spec: no two documents share a [url]. *)
Definition urls_unique (corpus : list Document) : Prop := NoDup (url <$> corpus).

Section Iloc.
Context {D : Type} `{Inhabited D}.
Implicit Types (df : list D) (ix : list nat).

(** [iloc] succeeds exactly when every position is in range, and then
  returns the rows at those positions. *)
Lemma iloc_in_range df ix :
  Forall (fun i => i < length df) ix ->
  iloc df ix = Some ((fun i => df !!! i) <$> ix).
Proof.
  induction 1 as [|i ix Hi _ IH]; [done|].
  unfold iloc in *. simpl. apply lookup_lt_is_Some_2 in Hi as [d Hd].
  rewrite Hd, IH. simpl. by rewrite (list_lookup_total_correct _ _ _ Hd).
Qed.

Lemma iloc_out_of_range df ix i :
  i ∈ ix -> length df <= i -> iloc df ix = None.
Proof.
  intros Hin Hge. unfold iloc. apply mapM_None_2.
  apply Exists_exists. exists i. split; [done|]. by apply lookup_ge_None_2.
Qed.

End Iloc.
