(* ===== verification/SortValues.v ===== *)
(** * pandas [sort_values(by=<column>, ascending=False)] on a string column

    Both [run_combined_search] (src/app.py:87, by ['algorithm']) and
    [get_latest_news] (src/app.py:97-99, by ['timestamp'] or
    ['id_dokumen']) sort a DataFrame by one string column, descending, with
    pandas' default [kind='quicksort'], which is not stable.  All that call
    promises is [is_sort_desc]: the rows are permuted and the keys do not
    increase.  [sort_values_impl] is the record of an implementation and
    that law; [sort_desc_stable] (pandas' [kind='stable']: rows with equal
    keys keep their order) and [sort_desc_unstable] (rows with equal keys
    reversed) are two implementations.  Strings compare as Python [str] on
    ASCII: lexicographically by character code ([String.leb]).

    With only two keys [hi > lo] present, a sorted list is the [hi] block
    followed by the [lo] block ([sorted_two_labels]); the stable sort of a
    [lo] block followed by a [hi] block puts the [hi] block first, each
    block in its original order ([sort_desc_stable_blocks]), and the
    tie-reversing sort puts it first with each block reversed
    ([sort_desc_unstable_blocks]). *)

From Stdlib Require Import String.
From stdpp Require Import base list sorting strings.
From S2P Require Import Prelude.

Section SortValues.
Context {A : Type} (key : A -> string).

(** The contract of [sort_values(by=key, ascending=False)]. *)
Definition key_ge (r1 r2 : A) : Prop := String.leb (key r2) (key r1) = true.

Definition is_sort_desc (rows out : list A) : Prop :=
out ≡ₚ rows /\ Sorted key_ge out.

Record sort_values_impl := {
sort_values_run :> list A -> list A;
sort_values_ok : forall rows, is_sort_desc rows (sort_values_run rows)
}.

(** Insertion placing a row before the first row whose label is not
greater: rows of equal label keep their order (pandas' stable kind). *)
Fixpoint insert_desc (x : A) (l : list A) : list A :=
match l with
| [] => [x]
| y :: l' => if String.leb (key y) (key x) then x :: l else y :: insert_desc x l'
end.

Definition sort_desc_stable (l : list A) : list A := foldr insert_desc [] l.

(** Insertion placing a row after the rows of equal label: equal labels
come out reversed, which the quicksort contract also allows. *)
Fixpoint insert_desc_after (x : A) (l : list A) : list A :=
match l with
| [] => [x]
| y :: l' => if String.leb (key x) (key y) then y :: insert_desc_after x l' else x :: l
end.

Definition sort_desc_unstable (l : list A) : list A :=
foldr insert_desc_after [] l.

(** ** The sort implementations meet the contract *)

Lemma leb_flip a b : String.leb a b = false -> String.leb b a = true.
Proof. intros H. destruct (String.leb_total a b); congruence. Qed.

Lemma leb_trans a b c : String.leb a b = true -> String.leb b c = true -> String.leb a c = true.
Proof.
  intros Hab Hbc. pose proof (@PreOrder_Transitive _ _ (@partial_order_pre _ _ String.le_po) a b c) as H.
  unfold String.le in H. rewrite Hab, Hbc in H. by apply Is_true_true, H.
Qed.

#[export] Instance key_ge_trans : Transitive key_ge.
Proof. intros x y z Hxy Hyz. unfold key_ge in *. by eapply leb_trans. Qed.

(** In a sorted result, an earlier row's key is at least every later one. *)
Lemma is_sort_desc_strongly rows out : is_sort_desc rows out -> StronglySorted key_ge out.
Proof. intros [_ Hs]. by apply Sorted_StronglySorted; [apply _|]. Qed.

Lemma insert_desc_perm x l : insert_desc x l ≡ₚ x :: l.
Proof.
  induction l as [|y l IH]; simpl; [done|].
  destruct (String.leb _ _); [done|]. rewrite IH. apply Permutation_swap.
Qed.

Lemma insert_desc_sorted x l : Sorted key_ge l -> Sorted key_ge (insert_desc x l).
Proof.
  induction 1 as [|y l Hl IH Hy]; simpl; [repeat constructor|].
  destruct (String.leb (key y) (key x)) eqn:E.
  - repeat constructor; done.
  - constructor; [done|]. destruct l as [|z l]; simpl in *.
    + constructor. unfold key_ge. by apply leb_flip.
    + inversion Hy; subst. destruct (String.leb (key z) (key x));
        constructor; unfold key_ge; [by apply leb_flip | done].
Qed.

Lemma insert_desc_after_perm x l : insert_desc_after x l ≡ₚ x :: l.
Proof.
  induction l as [|y l IH]; simpl; [done|].
  destruct (String.leb _ _); [|done]. rewrite IH. apply Permutation_swap.
Qed.

Lemma insert_desc_after_sorted x l : Sorted key_ge l -> Sorted key_ge (insert_desc_after x l).
Proof.
  induction 1 as [|y l Hl IH Hy]; simpl; [repeat constructor|].
  destruct (String.leb (key x) (key y)) eqn:E.
  - constructor; [done|]. destruct l as [|z l]; simpl in *; [by constructor|].
    inversion Hy; subst. destruct (String.leb (key x) (key z)); by constructor.
  - constructor; [by constructor|]. constructor. unfold key_ge. by apply leb_flip.
Qed.

Lemma sort_desc_stable_ok rows : is_sort_desc rows (sort_desc_stable rows).
Proof.
  unfold is_sort_desc, sort_desc_stable. induction rows as [|x rows [Hp Hs]]; simpl; [done|].
  split; [by rewrite insert_desc_perm, Hp | by apply insert_desc_sorted].
Qed.

Lemma sort_desc_unstable_ok rows : is_sort_desc rows (sort_desc_unstable rows).
Proof.
  unfold is_sort_desc, sort_desc_unstable. induction rows as [|x rows [Hp Hs]]; simpl; [done|].
  split; [by rewrite insert_desc_after_perm, Hp | by apply insert_desc_after_sorted].
Qed.

Definition sort_values_stable : sort_values_impl :=
{| sort_values_run := sort_desc_stable; sort_values_ok := sort_desc_stable_ok |}.
Definition sort_values_unstable : sort_values_impl :=
{| sort_values_run := sort_desc_unstable; sort_values_ok := sort_desc_unstable_ok |}.

Lemma leb_refl_a a : String.leb a a = true.
Proof. by destruct (String.leb_total a a). Qed.

(** ** Two labels: a sorted list is the higher block, then the lower one *)

Section TwoLabels.
Context (hi lo : string) (Hhl : String.leb hi lo = false).

Lemma leb_lo_lo : String.leb lo lo = true.
Proof. by destruct (String.leb_total lo lo). Qed.

Definition has_key (a : string) (r : A) : bool := String.eqb (key r) a.

Lemma sorted_lo_tail x l :
  Forall (fun r => key r = hi \/ key r = lo) l ->
  Sorted key_ge (x :: l) -> key x = lo -> Forall (fun r => key r = lo) l.
Proof.
  revert x. induction l as [|y l IH]; intros x Hk Hs Hx; [done|].
  apply Sorted_inv in Hs as [Hs' Hhd]. apply HdRel_inv in Hhd as Hxy.
  apply Forall_cons in Hk as [Hy Hk']. unfold key_ge in Hxy. rewrite Hx in Hxy.
  assert (Hylo : key y = lo) by (destruct Hy as [Hy|Hy]; [rewrite Hy in Hxy; congruence|done]).
  constructor; [done|]. by apply (IH y).
Qed.

Lemma sorted_two_labels l :
  Forall (fun r => key r = hi \/ key r = lo) l -> Sorted key_ge l ->
  l = List.filter (has_key hi) l ++ List.filter (has_key lo) l.
Proof.
  assert (Hne : hi <> lo) by (intros ->; destruct (String.leb_total lo lo); congruence).
  induction l as [|x l IH]; intros Hk Hs; [done|].
  pose proof Hs as Hs0. apply Sorted_inv in Hs as [Hs' _].
  apply Forall_cons in Hk as [Hx Hk']. cbn [List.filter].
  destruct Hx as [Hxh|Hxl].
  - replace (has_key hi x) with true by (unfold has_key; by rewrite Hxh, String.eqb_refl).
    replace (has_key lo x) with false
      by (unfold has_key; rewrite Hxh; symmetry; by apply String.eqb_neq).
    simpl. f_equal. by apply IH.
  - replace (has_key lo x) with true by (unfold has_key; by rewrite Hxl, String.eqb_refl).
    replace (has_key hi x) with false
      by (unfold has_key; rewrite Hxl; symmetry; apply String.eqb_neq; congruence).
    pose proof (sorted_lo_tail x l Hk' Hs0 Hxl) as Hlo.
    rewrite list_filter_all_false, list_filter_all_true; [done| |].
    + eapply Forall_impl; [exact Hlo|]. intros r Hr. unfold has_key. by rewrite Hr, String.eqb_refl.
    + eapply Forall_impl; [exact Hlo|]. intros r Hr. unfold has_key. rewrite Hr.
      apply String.eqb_neq. congruence.
Qed.

(** The stable sort moves the higher block in front, each block in order. *)
Lemma insert_desc_skip x hs l :
  Forall (fun r => key r = hi) hs -> key x = lo ->
  Forall (fun r => key r = lo) l ->
  insert_desc x (hs ++ l) = hs ++ x :: l.
Proof.
  intros Hhs Hx Hl. induction Hhs as [|h hs Hh _ IH]; simpl.
  - destruct l as [|y l]; simpl; [done|]. apply Forall_cons in Hl as [Hy _].
    by rewrite Hy, Hx, leb_lo_lo.
  - by rewrite Hh, Hx, Hhl, IH.
Qed.

Lemma sort_desc_stable_same l a :
  Forall (fun r => key r = a) l -> sort_desc_stable l = l.
Proof.
  unfold sort_desc_stable. induction 1 as [|x l Hx Hl IH]; simpl; [done|]. rewrite IH.
  destruct l as [|y l]; simpl; [done|]. apply Forall_cons in Hl as [Hy _].
  rewrite Hy, Hx. destruct (String.leb_total a a) as [E|E]; by rewrite E.
Qed.

Lemma sort_desc_stable_blocks lo_rows hi_rows :
  Forall (fun r => key r = lo) lo_rows ->
  Forall (fun r => key r = hi) hi_rows ->
  sort_desc_stable (lo_rows ++ hi_rows) = hi_rows ++ lo_rows.
Proof.
  intros Hlo Hhi. unfold sort_desc_stable. rewrite foldr_app.
  fold (sort_desc_stable hi_rows). rewrite (sort_desc_stable_same hi_rows hi Hhi).
  induction Hlo as [|x l Hx Hl IH]; simpl; [by rewrite app_nil_r|].
  rewrite IH. by apply insert_desc_skip.
Qed.


(** The unstable sort also moves the higher block in front, but lists each
    block in reverse. *)
Lemma insert_desc_after_same x l a :
  Forall (fun r => key r = a) l -> key x = a -> insert_desc_after x l = l ++ [x].
Proof.
  intros Hl Hx. induction Hl as [|y l Hy _ IH]; simpl; [done|].
  by rewrite Hy, Hx, (leb_refl_a a), IH.
Qed.

Lemma sort_desc_unstable_same l a :
  Forall (fun r => key r = a) l -> sort_desc_unstable l = reverse l.
Proof.
  unfold sort_desc_unstable. induction 1 as [|x l Hx Hl IH]; simpl; [done|]. rewrite IH, reverse_cons.
  apply (insert_desc_after_same x (reverse l) a); [by apply Forall_reverse|done].
Qed.

Lemma insert_desc_after_skip x hs l :
  Forall (fun r => key r = hi) hs -> key x = lo ->
  Forall (fun r => key r = lo) l ->
  insert_desc_after x (hs ++ l) = hs ++ l ++ [x].
Proof.
  intros Hhs Hx Hl. induction Hhs as [|h hs Hh _ IH]; simpl.
  - by apply (insert_desc_after_same x l lo).
  - by rewrite Hh, Hx, (leb_flip _ _ Hhl), IH.
Qed.

Lemma sort_desc_unstable_blocks lo_rows hi_rows :
  Forall (fun r => key r = lo) lo_rows ->
  Forall (fun r => key r = hi) hi_rows ->
  sort_desc_unstable (lo_rows ++ hi_rows) = reverse hi_rows ++ reverse lo_rows.
Proof.
  intros Hlo Hhi. unfold sort_desc_unstable. rewrite foldr_app.
  fold (sort_desc_unstable hi_rows). rewrite (sort_desc_unstable_same hi_rows hi Hhi).
  induction Hlo as [|x l Hx Hl IH]; simpl; [by rewrite reverse_nil, app_nil_r|].
  rewrite IH, reverse_cons, insert_desc_after_skip; [by rewrite app_assoc|by apply Forall_reverse|done|by apply Forall_reverse].
Qed.


End TwoLabels.

End SortValues.
