(* ===== verification/Tokenize.v ===== *)
(** * Query tokenizer: [str(raw_query).lower().split()]

    [run_combined_search] (src/app.py:73) tokenizes the query for BM25 with
    [str(raw_query).lower().split()].  Strings are modelled as Stdlib
    [string] (sequences of ASCII characters): [lower] maps ['A'..'Z'] to
    ['a'..'z'] and leaves every other character unchanged, and [split()]
    with no argument splits on runs of the characters Python's
    [str.isspace] accepts in ASCII (9-13, 28-31 and 32) and drops empty
    pieces.  Non-ASCII case mapping is out of the model.

    [lstrip], [rstrip] and [strip] are [str.strip()] with no argument,
    which removes the same whitespace at both ends.

    Theorems: the tokens are non-empty, free of whitespace and lower case;
    lowering commutes with splitting; and [split] inverts [" ".join] on
    such tokens (round trip). *)

From stdpp Require Import base list.
From Stdlib Require Import Ascii String Lia.
From S2P Require Import Prelude.
Local Open Scope nat_scope.

Module Tokenize.

(** [c.isspace()] for an ASCII character. *)
Definition is_space (c : ascii) : bool :=
let n := nat_of_ascii c in
((9 <=? n) && (n <=? 13)) || ((28 <=? n) && (n <=? 32)).

Definition is_upper (c : ascii) : bool :=
let n := nat_of_ascii c in (65 <=? n) && (n <=? 90).

(** [c.lower()] on ASCII. *)
Definition lower_char (c : ascii) : ascii :=
if is_upper c then ascii_of_nat (nat_of_ascii c + 32) else c.

(** [s.lower()]. *)
Fixpoint lower (s : string) : string :=
match s with
| EmptyString => EmptyString
| String c s' => String (lower_char c) (lower s')
end.

(** The scan behind [s.split()]: the characters before the first space
  (the pending word) and the words after it. *)
Fixpoint split_aux (s : string) : string * list string :=
match s with
| EmptyString => (EmptyString, [])
| String c s' =>
    let '(w, ws) := split_aux s' in
    if is_space c then (EmptyString, match w with EmptyString => ws | _ => w :: ws end)
    else (String c w, ws)
end.

(** [s.split()]. *)
Definition split (s : string) : list string :=
let '(w, ws) := split_aux s in
match w with EmptyString => ws | _ => w :: ws end.

(** [str(raw_query).lower().split()]. *)
Definition tokenize (raw_query : string) : list string := split (lower raw_query).

(** [" ".join(ws)]. *)
Definition join_space (ws : list string) : string := String.concat " " ws.

(** A string with no whitespace character. *)
Fixpoint no_space (s : string) : bool :=
match s with
| EmptyString => true
| String c s' => negb (is_space c) && no_space s'
end.

(** A string with no upper-case ASCII letter. *)
Fixpoint is_lower (s : string) : bool :=
match s with
| EmptyString => true
| String c s' => negb (is_upper c) && is_lower s'
end.

(** A token [split()] can return. *)
Definition token_ok (t : string) : bool :=
match t with EmptyString => false | _ => no_space t end.

Fixpoint lstrip (s : string) : string :=
  match s with
  | EmptyString => EmptyString
  | String c s' => if is_space c then lstrip s' else s
  end.

(** [s.rstrip()]: the trailing whitespace removed. *)
Fixpoint rstrip (s : string) : string :=
  match s with
  | EmptyString => EmptyString
  | String c s' =>
      match rstrip s' with
      | EmptyString => if is_space c then EmptyString else String c EmptyString
      | r => String c r
      end
  end.

(** [s.strip()]: whitespace removed at both ends. *)
Definition strip (s : string) : string := rstrip (lstrip s).

(** ** Character lemmas *)

Lemma lower_char_not_upper c : is_upper (lower_char c) = false.
Proof.
  unfold lower_char. destruct (is_upper c) eqn:E; [|done].
  unfold is_upper in *. pose proof (nat_ascii_bounded c).
  apply andb_prop in E as [E1 E2]. apply Nat.leb_le in E1, E2.
  rewrite nat_ascii_embedding by lia.
  apply andb_false_intro2, Nat.leb_gt. lia.
Qed.

Lemma is_space_lower_char c : is_space (lower_char c) = is_space c.
Proof.
  unfold lower_char. destruct (is_upper c) eqn:E; [|done].
  unfold is_upper, is_space in *. pose proof (nat_ascii_bounded c).
  apply andb_prop in E as [E1 E2]. apply Nat.leb_le in E1, E2.
  rewrite nat_ascii_embedding by lia.
  destruct (9 <=? nat_of_ascii c + 32) eqn:?, (nat_of_ascii c + 32 <=? 13) eqn:?,
    (28 <=? nat_of_ascii c + 32) eqn:?, (nat_of_ascii c + 32 <=? 32) eqn:?,
    (9 <=? nat_of_ascii c) eqn:?, (nat_of_ascii c <=? 13) eqn:?,
    (28 <=? nat_of_ascii c) eqn:?, (nat_of_ascii c <=? 32) eqn:?;
    simpl; try done; rewrite ?Nat.leb_le, ?Nat.leb_gt in *; lia.
Qed.

(** ** The scan *)

(** The pending word has no space, the finished words are tokens. *)
Lemma split_aux_ok s :
  no_space (split_aux s).1 = true /\ Forall (fun t => token_ok t = true) (split_aux s).2.
Proof.
  induction s as [|c s IH]; simpl; [done|].
  destruct (split_aux s) as [w ws]; simpl in *. destruct IH as [Hw Hws].
  destruct (is_space c) eqn:Hc; simpl.
  - split; [done|]. destruct w; [done|]. by constructor.
  - by rewrite Hc, Hw.
Qed.

Lemma split_aux_lower s :
  split_aux (lower s) = (lower (split_aux s).1, lower <$> (split_aux s).2).
Proof.
  induction s as [|c s IH]; simpl; [done|].
  rewrite IH. destruct (split_aux s) as [w ws]; simpl.
  rewrite is_space_lower_char. destruct (is_space c); [|done].
  destruct w; done.
Qed.

Lemma split_aux_word t s :
  no_space t = true -> split_aux (t ++ s)%string = ((t ++ (split_aux s).1)%string, (split_aux s).2).
Proof.
  induction t as [|c t IH]; simpl; intros Ht; [by destruct (split_aux s)|].
  apply andb_prop in Ht as [Hc Ht]. rewrite (IH Ht).
  apply negb_true_iff in Hc. by rewrite Hc.
Qed.

Lemma lower_is_lower s : is_lower (lower s) = true.
Proof. induction s; simpl; [done|]. by rewrite lower_char_not_upper, IHs. Qed.

Lemma split_aux_is_lower s :
  is_lower s = true ->
  is_lower (split_aux s).1 = true /\ Forall (fun t => is_lower t = true) (split_aux s).2.
Proof.
  induction s as [|c s IH]; simpl; [done|]. intros Hs. apply andb_prop in Hs as [Hc Hs].
  destruct (IH Hs) as [Hw Hws]. destruct (split_aux s) as [w ws]; simpl in *.
  destruct (is_space c); simpl.
  - split; [done|]. destruct w; [done|]. by constructor.
  - by rewrite Hc, Hw.
Qed.

Lemma join_split_aux ts :
  Forall (fun t => token_ok t = true) ts ->
  split_aux (join_space ts) = match ts with [] => (EmptyString, []) | t :: ts' => (t, ts') end.
Proof.
  induction 1 as [|t ts Ht Hts IH]; [done|].
  assert (Hns : no_space t = true) by (destruct t; [discriminate|done]).
  destruct ts as [|t2 ts].
  - unfold join_space; simpl. rewrite <- (string_app_nil_r t) at 1.
    rewrite split_aux_word by done. simpl. by rewrite string_app_nil_r.
  - unfold join_space in *.
    change (String.concat " " (t :: t2 :: ts))
      with (t ++ String " " (String.concat " " (t2 :: ts)))%string.
    rewrite split_aux_word by done. cbn [split_aux]. rewrite IH. cbn -[String.append].
    rewrite string_app_nil_r. inversion Hts as [|? ? Ht2]; subst. by destruct t2.
Qed.

(** ** [strip] *)

Lemma lstrip_length s : String.length (lstrip s) <= String.length s.
Proof. induction s as [|c s IH]; simpl; [lia|]. destruct (is_space c); simpl; lia. Qed.

Lemma lstrip_idem s : lstrip (lstrip s) = lstrip s.
Proof. induction s as [|c s IH]; simpl; [done|]. destruct (is_space c) eqn:E; [done|]. simpl. by rewrite E. Qed.

Lemma rstrip_cons c s :
  rstrip (String c s) =
  match rstrip s with
  | EmptyString => if is_space c then EmptyString else String c EmptyString
  | r => String c r
  end.
Proof. done. Qed.

Lemma rstrip_idem s : rstrip (rstrip s) = rstrip s.
Proof.
  induction s as [|c s IH]; [done|]. rewrite (rstrip_cons c s).
  destruct (rstrip s) as [|d r] eqn:E.
  - destruct (is_space c) eqn:Ec; simpl; [done|]. by rewrite Ec.
  - rewrite rstrip_cons, IH. done.
Qed.

(** A string that starts with a non-space keeps its start under [rstrip]. *)
Lemma lstrip_rstrip s : lstrip s = s -> lstrip (rstrip s) = rstrip s.
Proof.
  destruct s as [|c r]; simpl; [done|]. intros H.
  destruct (is_space c) eqn:Ec.
  - exfalso. pose proof (lstrip_length r).
    apply (f_equal String.length) in H. simpl in H. lia.
  - destruct (rstrip r); simpl; by rewrite Ec.
Qed.

Lemma rstrip_app a b :
  rstrip b <> EmptyString -> rstrip (a ++ b) = (a ++ rstrip b)%string.
Proof.
  intros Hb. induction a as [|c a IH]; simpl; [done|]. rewrite IH.
  destruct (a ++ rstrip b)%string eqn:E; [|done].
  destruct a; simpl in E; [done|discriminate].
Qed.

(** [strip()] leaves nothing to strip. *)
Lemma strip_stripped s :
  lstrip (strip s) = strip s /\ rstrip (strip s) = strip s.
Proof. unfold strip. split; [apply lstrip_rstrip, lstrip_idem|apply rstrip_idem]. Qed.

(** ** Theorems *)

(** Every token of [split()] is non-empty and contains no whitespace. *)
Theorem split_tokens_ok s : Forall (fun t => token_ok t = true) (split s).
Proof.
  unfold split. destruct (split_aux_ok s) as [Hw Hws].
  destruct (split_aux s) as [w ws]; simpl in *. destruct w; [done|]. by constructor.
Qed.

(** The BM25 query tokens are lower case. *)
Theorem tokenize_lower raw_query : Forall (fun t => is_lower t = true) (tokenize raw_query).
Proof.
  unfold tokenize, split. destruct (split_aux_is_lower _ (lower_is_lower raw_query)) as [Hw Hws].
  destruct (split_aux (lower raw_query)) as [w ws]; simpl in *. destruct w; [done|].
  by constructor.
Qed.

(** Lowering then splitting is splitting then lowering each token. *)
Theorem tokenize_split_lower raw_query : tokenize raw_query = lower <$> split raw_query.
Proof.
  unfold tokenize, split. rewrite split_aux_lower.
  destruct (split_aux raw_query) as [w ws]; simpl. by destruct w.
Qed.

(** Round trip: [split()] recovers the tokens joined by single spaces. *)
Theorem split_join_space ts :
  Forall (fun t => token_ok t = true) ts -> split (join_space ts) = ts.
Proof.
  intros Hts. unfold split. rewrite (join_split_aux ts Hts).
  destruct ts as [|t ts]; [done|]. inversion Hts; subst. by destruct t.
Qed.

Lemma split_join_space_witness :
  split (join_space ["game"; "review"]%string) = ["game"; "review"]%string.
Proof. apply split_join_space. repeat constructor. Defined.

End Tokenize.
