(* ===== verification/PyStr.v ===== *)
(** * Python string methods used by the portal scrapers

    [s.startswith(p)], [p in s], [s.split(sep)] with an explicit
    separator and [sep.join(l)], on Stdlib strings (ASCII).  [split_sep]
    scans the string once, left to right, cutting at each occurrence of
    the separator that does not overlap the previous one, as CPython's
    [str.split] does; an empty separator raises [ValueError] in Python and
    is excluded by the theorems.

    Theorems: [join] inverts [split] (round trip), and a string without
    the separator splits into itself alone. *)

From Stdlib Require Import Ascii String Lia.
From stdpp Require Import base list.
From S2P Require Import Prelude.
Local Open Scope nat_scope.

Module PyStr.

(** [s.startswith(p)]. *)
Fixpoint startswith (s p : string) {struct p} : bool :=
  match p with
  | EmptyString => true
  | String c p' =>
      match s with
      | String d s' => Ascii.eqb c d && startswith s' p'
      | EmptyString => false
      end
  end.

(** [p in s]. *)
Fixpoint contains (p s : string) : bool :=
  startswith s p || match s with EmptyString => false | String _ s' => contains p s' end.

(** The scan of [s.split(sep)]: [skip] characters of a separator just cut
  remain to be passed over, [cur] is the piece being read. *)
Fixpoint split_go (sep s : string) (skip : nat) (cur : string) : list string :=
  match s with
  | EmptyString => [cur]
  | String c s' =>
      match skip with
      | S k => split_go sep s' k cur
      | 0 => if startswith s sep then cur :: split_go sep s' (String.length sep - 1) EmptyString
             else split_go sep s' 0 (cur ++ String c EmptyString)
      end
  end.

(** [s.split(sep)]. *)
Definition split_sep (sep s : string) : list string := split_go sep s 0 EmptyString.

(** [sep.join(l)]. *)
Definition join (sep : string) (l : list string) : string := String.concat sep l.

(** ** Lemmas *)

Lemma startswith_app s p : startswith (p ++ s) p = true.
Proof. induction p; simpl; [done|]. by rewrite Ascii.eqb_refl. Qed.

Lemma startswith_spec s p : startswith s p = true <-> exists t, s = (p ++ t)%string.
Proof.
  split.
  - revert s; induction p as [|c p IH]; intros s H; [by exists s|].
    destruct s as [|d s]; [done|]. simpl in H. apply andb_prop in H as [H1 H2].
    apply Ascii.eqb_eq in H1 as ->. destruct (IH s H2) as [t ->]. by exists t.
  - intros [t ->]. apply startswith_app.
Qed.

Lemma split_go_skip sep x t cur :
  split_go sep (x ++ t) (String.length x) cur = split_go sep t 0 cur.
Proof. revert cur; induction x; intros cur; simpl; auto. Qed.

Lemma split_go_nonempty sep s k cur : split_go sep s k cur <> [].
Proof.
  revert k cur; induction s; intros [|k] cur; simpl; try done.
  destruct (startswith _ sep); done.
Qed.

Lemma concat_cons sep x l : l <> [] -> String.concat sep (x :: l) = (x ++ sep ++ String.concat sep l)%string.
Proof. by destruct l. Qed.

(** The scan with nothing to skip gives back [cur] followed by [s]. *)
Lemma join_split_go sep s cur :
  sep <> EmptyString -> String.concat sep (split_go sep s 0 cur) = (cur ++ s)%string.
Proof.
  intros Hsep. remember (String.length s) as n eqn:Hn.
  revert s cur Hn; induction n as [n IH] using lt_wf_ind; intros [|c s] cur Hn; simpl.
  - by rewrite string_app_nil_r.
  - destruct (startswith (String c s) sep) eqn:Hst.
    + apply startswith_spec in Hst as [t Ht].
      destruct sep as [|c' sep']; [done|]. simpl in Ht |- *. injection Ht as <- ->.
      rewrite Nat.sub_0_r, split_go_skip.
      pose proof (split_go_nonempty (String c sep') t 0 "") as Hne.
      destruct (split_go (String c sep') t 0 "") as [|x l] eqn:E; [done|]. rewrite <- E.
      rewrite (IH (String.length t)); [done| |done]. rewrite Hn. simpl. rewrite string_length_app. lia.
    + rewrite (IH (String.length s)); [|simpl in Hn; lia|done]. by rewrite <- string_app_assoc.
Qed.

(** Without an occurrence of the separator the scan reads one piece. *)
Lemma split_go_no_sep sep s cur :
  contains sep s = false -> split_go sep s 0 cur = [(cur ++ s)%string].
Proof.
  revert cur; induction s as [|c s IH]; intros cur Hc; simpl in *.
  - by rewrite string_app_nil_r.
  - apply orb_false_iff in Hc as [H1 H2]. rewrite H1, IH by done. by rewrite <- string_app_assoc.
Qed.

(** ** Theorems *)

(** Round trip: [sep.join(s.split(sep)) == s] for every non-empty
  separator. *)
Theorem join_split_sep sep s : sep <> EmptyString -> join sep (split_sep sep s) = s.
Proof. intros Hsep. unfold join, split_sep. by rewrite join_split_go. Qed.

End PyStr.
