(* ===== verification/PyInt.v ===== *)
(** * Python integers as decimal strings: [str(n)] and [int(s)]

    Two parts of the program turn integers into decimal digits and back:
    the scraper formats its ids with [f"doc_{doc_id_counter:05d}"]
    (src/notebooks/scrape_url.py:233), whose digits are [decimal], and the
    [/search] handler reads its page number with werkzeug's
    [request.args.get('page', 1, type=int)] (src/app.py:134), which calls
    Python's [int()] on the argument and falls back to 1 on [ValueError].

    [decimal n] is [str(n)] for a natural number, computed digit by digit
    with fuel [log2 n + 1] (a number has no more decimal than binary
    digits; [decimal_fuel_enough] shows that more fuel changes nothing).
    [is_digits] and [dval] read a digit string back.  [py_int] is [int(s)]
    on ASCII strings: surrounding whitespace stripped, an optional sign,
    then decimal digits with single underscores allowed between digits
    (PEP 515); anything else is [ValueError] ([None]).  Non-ASCII digits
    are out of the model. *)

From Stdlib Require Import ZArith String Ascii Lia.
From stdpp Require Import base list strings.
From S2P Require Import Prelude Tokenize.

Module PyInt.

Definition digit_char (d : N) : ascii := ascii_of_N (48 + d).

(** The decimal digits of [n] in front of [acc], most significant first;
    [fuel] bounds the number of digits. *)
Fixpoint digits_go (fuel : nat) (n : N) (acc : string) : string :=
  match fuel with
  | 0 => acc
  | S fuel' =>
      let acc' := String (digit_char (n mod 10)) acc in
      if (n <? 10)%N then acc' else digits_go fuel' (n / 10) acc'
  end.

(** [str(n)]: [log2 n + 1] rounds are enough, a number having no more
    decimal than binary digits. *)
Definition decimal (n : N) : string := digits_go (S (N.to_nat (N.log2 n))) n EmptyString.

(** Reading an id back: a string of decimal digits and its value, the
    [int()] of the digits, most significant first. *)
Fixpoint is_digits (s : string) : bool :=
  match s with
  | EmptyString => true
  | String c s' => (48 <=? N_of_ascii c)%N && (N_of_ascii c <=? 57)%N && is_digits s'
  end.

Definition digit_val (c : ascii) : N := (N_of_ascii c - 48)%N.

Fixpoint dval (s : string) : N :=
  match s with
  | EmptyString => 0
  | String c s' => (digit_val c * 10 ^ N.of_nat (String.length s') + dval s')%N
  end.

(** ** [int(s)] *)

Definition is_digit (c : ascii) : bool := (48 <=? N_of_ascii c)%N && (N_of_ascii c <=? 57)%N.

(** The digits of [int()] after the sign: [seen] says a digit was read,
    [last_us] that the previous character was an underscore. *)
Fixpoint int_digits (s : string) (acc : Z) (seen last_us : bool) : option Z :=
  match s with
  | EmptyString => if seen && negb last_us then Some acc else None
  | String c s' =>
      if is_digit c then int_digits s' (acc * 10 + Z.of_N (digit_val c)) true false
      else if Ascii.eqb c "_" then
        (if seen && negb last_us then int_digits s' acc seen true else None)
      else None
  end.

(** [int(s)] for base 10. *)
Definition py_int (s : string) : option Z :=
  match Tokenize.strip s with
  | EmptyString => None
  | String c r =>
      if Ascii.eqb c "-" then Z.opp <$> int_digits r 0 false false
      else if Ascii.eqb c "+" then int_digits r 0 false false
      else int_digits (String c r) 0 false false
  end.

(** [str(z)]. *)
Definition py_str (z : Z) : string :=
  if (z <? 0)%Z then String "-" (decimal (Z.to_N (- z))) else decimal (Z.to_N z).

(** ** Lemmas *)

Lemma pow10_succ k : (10 ^ N.of_nat (S k) = 10 * 10 ^ N.of_nat k)%N.
Proof. by rewrite Nat2N.inj_succ, N.pow_succ_r'. Qed.

Lemma dval_bound s : is_digits s = true -> (dval s < 10 ^ N.of_nat (String.length s))%N.
Proof.
  induction s as [|c s IH]; simpl; [lia|]. intros [[H1 H2]%andb_prop Hs]%andb_prop.
  apply N.leb_le in H1, H2. specialize (IH Hs). rewrite pow10_succ. unfold digit_val. nia.
Qed.

Lemma digit_char_spec d : (d < 10)%N -> N_of_ascii (digit_char d) = (48 + d)%N.
Proof. intros Hd. unfold digit_char. apply N_ascii_embedding. lia. Qed.

(** [digits_go] puts the digits of [n] in front of [acc] when the fuel
    covers them. *)
Lemma digits_go_spec f n acc :
  (n < 10 ^ N.of_nat f)%N -> is_digits acc = true ->
  is_digits (digits_go f n acc) = true /\
  dval (digits_go f n acc) = (n * 10 ^ N.of_nat (String.length acc) + dval acc)%N.
Proof.
  revert n acc. induction f as [|f IH]; intros n acc Hn Ha; simpl.
  - split; [done|]. simpl in Hn. lia.
  - rewrite pow10_succ in Hn. pose proof (N.mod_lt n 10 ltac:(lia)) as Hm.
    pose proof (N.div_mod n 10 ltac:(lia)) as Hdm. destruct (n <? 10)%N eqn:Hlt.
    + apply N.ltb_lt in Hlt. clear Hm Hdm. rewrite N.mod_small by done. simpl. unfold digit_val.
      rewrite digit_char_spec, Ha by done. split; [apply andb_true_intro; split; [apply andb_true_intro; split|done]|];
        [apply N.leb_le; lia..|f_equal; f_equal; lia].
    + apply N.ltb_ge in Hlt. remember (n mod 10)%N as d eqn:Ed. remember (n / 10)%N as q eqn:Eq.
      assert (Ha' : is_digits (String (digit_char d) acc) = true).
      { simpl. rewrite digit_char_spec, Ha by done. apply andb_true_intro; split; [|done].
        apply andb_true_intro; split; apply N.leb_le; lia. }
      destruct (IH q _ ltac:(nia) Ha') as [H1 H2]. split; [done|]. rewrite H2. simpl.
      unfold digit_val. rewrite digit_char_spec, pow10_succ by done. nia.
Qed.

Lemma digits_go_length f n acc k :
  (n < 10 ^ N.of_nat (S k))%N ->
  String.length (digits_go f n acc) <= S k + String.length acc.
Proof.
  revert n acc k. induction f as [|f IH]; intros n acc k Hn; simpl; [lia|].
  destruct (n <? 10)%N eqn:Hlt; simpl; [lia|]. apply N.ltb_ge in Hlt.
  destruct k as [|k]; [simpl in Hn; lia|].
  rewrite pow10_succ in Hn. etrans; [apply (IH _ _ k)|simpl; lia].
  apply N.Div0.div_lt_upper_bound. lia.
Qed.

Lemma decimal_fuel n : (n < 10 ^ N.of_nat (S (N.to_nat (N.log2 n))))%N.
Proof.
  rewrite Nat2N.inj_succ, N2Nat.id. destruct (N.eq_dec n 0%N) as [->|Hn]; [simpl; lia|].
  destruct (N.log2_spec n ltac:(lia)) as [_ H]. rewrite <- N.add_1_r in *.
  eapply N.lt_le_trans; [exact H|]. apply N.pow_le_mono_l. lia.
Qed.

Lemma decimal_spec n : is_digits (decimal n) = true /\ dval (decimal n) = n.
Proof.
  unfold decimal. destruct (digits_go_spec _ n "" (decimal_fuel n) eq_refl) as [H1 H2].
  split; [done|]. rewrite H2. simpl. lia.
Qed.

Lemma compare_digits s1 s2 :
  String.length s1 = String.length s2 -> is_digits s1 = true -> is_digits s2 = true ->
  String.compare s1 s2 = N.compare (dval s1) (dval s2).
Proof.
  revert s2. induction s1 as [|c1 s1 IH]; intros [|c2 s2]; simpl; try done; intros Hl
    [[H1 H2]%andb_prop Hs1]%andb_prop [[H3 H4]%andb_prop Hs2]%andb_prop.
  injection Hl as Hl. rewrite Hl. apply N.leb_le in H1, H2, H3, H4.
  pose proof (dval_bound s1 Hs1) as B1. pose proof (dval_bound s2 Hs2) as B2. rewrite Hl in B1.
  unfold Ascii.compare, digit_val.
  destruct (N.compare_spec (N_of_ascii c1) (N_of_ascii c2)) as [E|E|E].
  - rewrite (IH s2 Hl Hs1 Hs2), E. destruct (N.compare_spec (dval s1) (dval s2)); symmetry;
      [apply N.compare_eq_iff|apply N.compare_lt_iff|apply N.compare_gt_iff]; lia.
  - symmetry. apply N.compare_lt_iff. nia.
  - symmetry. apply N.compare_gt_iff. nia.
Qed.

(** With enough fuel the digits do not depend on the fuel. *)
Lemma digits_go_fuel f1 f2 n acc :
  (n < 10 ^ N.of_nat f1)%N -> (n < 10 ^ N.of_nat f2)%N -> 0 < f1 -> 0 < f2 ->
  digits_go f1 n acc = digits_go f2 n acc.
Proof.
  revert f2 n acc. induction f1 as [|f1 IH]; intros [|f2] n acc H1 H2 P1 P2; try lia. simpl.
  destruct (n <? 10)%N eqn:Hlt; [done|]. apply N.ltb_ge in Hlt.
  rewrite pow10_succ in H1, H2.
  assert (Hq1 : (n / 10 < 10 ^ N.of_nat f1)%N) by (apply N.Div0.div_lt_upper_bound; lia).
  assert (Hq2 : (n / 10 < 10 ^ N.of_nat f2)%N) by (apply N.Div0.div_lt_upper_bound; lia).
  destruct f1 as [|f1]; [simpl in H1; lia|]. destruct f2 as [|f2]; [simpl in H2; lia|].
  apply IH; auto with lia.
Qed.

Lemma string_app_inv_l s a b : (s ++ a)%string = (s ++ b)%string -> a = b.
Proof. induction s as [|c s IH]; [done|]. rewrite !string_app_cons. intros [= H]. by apply IH. Qed.

Lemma digit_not_space c : is_digit c = true -> Tokenize.is_space c = false.
Proof.
  unfold is_digit, Tokenize.is_space, nat_of_ascii. intros [H1 H2]%andb_prop.
  apply N.leb_le in H1, H2.
  destruct (9 <=? _) eqn:E1, (_ <=? 13) eqn:E2, (28 <=? _) eqn:E3, (_ <=? 32) eqn:E4;
    simpl; try done; rewrite ?Nat.leb_le, ?Nat.leb_gt in *; lia.
Qed.

Lemma is_digits_no_space s : is_digits s = true -> Tokenize.no_space s = true.
Proof.
  induction s as [|c s IH]; simpl; [done|]. intros [Hc Hs]%andb_prop.
  rewrite digit_not_space, IH by done. done.
Qed.

Lemma rstrip_no_space s : Tokenize.no_space s = true -> Tokenize.rstrip s = s.
Proof.
  induction s as [|c s IH]; simpl; [done|]. intros [Hc Hs]%andb_prop.
  rewrite IH by done. destruct s; [|done]. apply negb_true_iff in Hc. by rewrite Hc.
Qed.

(** A string without whitespace is its own [strip()]. *)
Lemma strip_no_space s : Tokenize.no_space s = true -> Tokenize.strip s = s.
Proof.
  intros Hs. unfold Tokenize.strip. destruct s as [|c s]; [done|].
  assert (Hc : Tokenize.is_space c = false) by (simpl in Hs; by destruct (Tokenize.is_space c)).
  simpl. rewrite Hc. by apply rstrip_no_space.
Qed.

Lemma digits_go_nonempty f n acc : (acc <> EmptyString \/ 0 < f) -> digits_go f n acc <> EmptyString.
Proof.
  revert n acc. induction f as [|f IH]; intros n acc H; simpl; [destruct H; [done|lia]|].
  destruct (n <? 10)%N; [done|]. apply IH. by left.
Qed.

Lemma decimal_nonempty n : decimal n <> EmptyString.
Proof. apply digits_go_nonempty. right. lia. Qed.

Lemma int_digits_digits s acc :
  is_digits s = true ->
  int_digits s acc true false = Some (acc * 10 ^ Z.of_nat (String.length s) + Z.of_N (dval s))%Z.
Proof.
  revert acc. induction s as [|c s IH]; intros acc Hs; simpl; [f_equal; lia|].
  apply andb_prop in Hs as [Hc Hs]. change ((48 <=? N_of_ascii c)%N && (N_of_ascii c <=? 57)%N)
    with (is_digit c) in Hc. rewrite Hc, IH by done. f_equal.
  rewrite N2Z.inj_add, N2Z.inj_mul, N2Z.inj_pow, nat_N_Z, Nat2Z.inj_succ, Z.pow_succ_r by lia.
  change (Z.of_N 10) with 10%Z. ring.
Qed.

Lemma int_digits_start s :
  is_digits s = true -> s <> EmptyString -> int_digits s 0 false false = Some (Z.of_N (dval s)).
Proof.
  destruct s as [|c s]; [done|]. intros Hs _. simpl in Hs. apply andb_prop in Hs as [Hc Hs].
  change ((48 <=? N_of_ascii c)%N && (N_of_ascii c <=? 57)%N) with (is_digit c) in Hc.
  simpl. rewrite Hc, int_digits_digits by done. f_equal.
  rewrite N2Z.inj_add, N2Z.inj_mul, N2Z.inj_pow, nat_N_Z. change (Z.of_N 10) with 10%Z. lia.
Qed.

(** ** Theorems *)

(** Termination: the fuel of [decimal] never cuts the digits short;
    [str(n)] is the same with any fuel that covers them. *)
Theorem decimal_fuel_enough n f :
  (n < 10 ^ N.of_nat f)%N -> 0 < f -> digits_go f n EmptyString = decimal n.
Proof.
  intros Hn Hf. unfold decimal. apply digits_go_fuel; [done|apply decimal_fuel|done|lia].
Qed.

(** [int(str(z))] is [z]. *)
Lemma py_int_py_str z : py_int (py_str z) = Some z.
Proof.
  unfold py_str. destruct (z <? 0)%Z eqn:Hz.
  - apply Z.ltb_lt in Hz. destruct (decimal_spec (Z.to_N (- z))) as [Hd Hv].
    unfold py_int. rewrite strip_no_space by (simpl; by rewrite is_digits_no_space).
    simpl. rewrite int_digits_start by auto using decimal_nonempty. simpl. f_equal. rewrite Hv. lia.
  - apply Z.ltb_ge in Hz. destruct (decimal_spec (Z.to_N z)) as [Hd Hv].
    unfold py_int. rewrite strip_no_space by (by apply is_digits_no_space).
    pose proof (decimal_nonempty (Z.to_N z)) as Hne.
    destruct (decimal (Z.to_N z)) as [|c r] eqn:E; [done|].
    pose proof Hd as Hd0. simpl in Hd. apply andb_prop in Hd as [Hc _].
    destruct (Ascii.eqb_spec c "-") as [->|_]; [done|].
    destruct (Ascii.eqb_spec c "+") as [->|_]; [done|].
    rewrite int_digits_start, Hv by done. f_equal. lia.
Qed.

(** Round trip: [int(str(z)) == z] for every integer, so [str] is
  injective: distinct integers print differently. *)
Theorem py_int_roundtrip z : py_int (py_str z) = Some z /\ (forall z', py_str z = py_str z' -> z = z').
Proof.
  split; [apply py_int_py_str|]. intros z' Heq.
  pose proof (py_int_py_str z) as H. rewrite Heq, py_int_py_str in H. by injection H.
Qed.

(** Concrete values of [int()]. *)
Example py_int_examples :
  py_int " 42 " = Some 42%Z /\ py_int "-1" = Some (-1)%Z /\ py_int "1_000" = Some 1000%Z /\
  py_int "007" = Some 7%Z /\ py_int "abc" = None /\ py_int "1__0" = None /\ py_int "" = None /\
  py_int "- 1" = None.
Proof. vm_compute. repeat split. Qed.

End PyInt.
