(* ===== verification/Soup.v ===== *)
(** * BeautifulSoup trees, CSS selectors and [get_text]

    The portal scrapers (src/notebooks/scrape_url.py:73-188) read a page
    parsed by [BeautifulSoup(response.content, 'html.parser')].  A parsed
    page is a [Node] tree: tags with their attributes (the parser keeps the
    last value of a repeated attribute) and children, text
    ([NavigableString]) and comments.  Parsing the bytes is not modelled:
    the tree is the input.

    The operations of bs4 the scrapers call:
    - [select] / [select_one] with CSS selectors made of compound selectors
      (a tag name, an [#id], [.class]es, [[attr*=value]] tests) joined by
      the descendant combinator.  A tag matches when its last compound
      matches it and the others match a chain of its ancestors;
      [match_ancestors] finds that chain greedily, nearest ancestor first,
      and [match_ancestors_spec] shows it decides the declarative
      definition [chain_in].  A selector applied to a tag sees the tag as
      the outermost ancestor (the scrapers' scoped selectors are single
      compounds, for which the outer ancestors do not matter);
    - [find_all(name)], [find_all(name, recursive=False)], [find(name)],
      in document order;
    - [get_text(separator, strip=True)]: the plain strings of the subtree,
      each stripped, the empty ones dropped, joined by the separator.
      Comments, and the strings of [script], [style], [template], [rt] and
      [rp] (which bs4 stores as other string classes), are not plain;
    - [decompose()] of the tags a selector finds, as a pruning of the
      tree, and of single positions of the tree ([remove_paths]).

    Theorems: the greedy ancestor search decides [chain_in]; the text
    [get_text(strip=True)] returns is stripped; after decomposing what a
    one-compound selector finds, the selector finds nothing. *)

From Stdlib Require Import Ascii String Lia.
From stdpp Require Import base list.
From S2P Require Import Prelude Tokenize PyStr.
Local Open Scope nat_scope.

Module Soup.

(** The derived induction principle would ignore the children; the one
  used below is [Node_ind']. *)
Local Unset Elimination Schemes.
Inductive Node :=
| Tag (name : string) (attrs : list (string * string)) (children : list Node)
| NavigableString (s : string)
| Comment (s : string).
Local Set Elimination Schemes.

(** Induction over the tree with a hypothesis for every child. *)
Section Node_ind'.
Variable P : Node -> Prop.
Hypothesis HTag : forall name attrs children, Forall P children -> P (Tag name attrs children).
Hypothesis HStr : forall s, P (NavigableString s).
Hypothesis HCom : forall s, P (Comment s).
Fixpoint Node_ind' (n : Node) : P n :=
  match n with
  | Tag name attrs children =>
      HTag name attrs children
        ((fix go (l : list Node) : Forall P l :=
            match l with [] => List.Forall_nil _ | c :: l' => List.Forall_cons _ c l' (Node_ind' c) (go l') end) children)
  | NavigableString s => HStr s
  | Comment s => HCom s
  end.
End Node_ind'.

(** ** Attributes *)

(** [tag.get(k)]: the last value given to [k]. *)
Definition get_attr (k : string) (attrs : list (string * string)) : option string :=
  snd <$> last (List.filter (fun kv => String.eqb kv.1 k) attrs).

(** [tag.has_attr(k)]. *)
Definition has_attr (k : string) (attrs : list (string * string)) : bool :=
  match get_attr k attrs with Some _ => true | None => false end.

(** [tag.get('class', [])]: bs4 splits [class] on whitespace. *)
Definition tag_classes (attrs : list (string * string)) : list string :=
  match get_attr "class" attrs with Some v => Tokenize.split v | None => [] end.

(** The value an attribute selector tests: the class list joined by
  spaces, any other attribute as written. *)
Definition sel_attr_value (a : string) (attrs : list (string * string)) : option string :=
  if String.eqb a "class" then (fun _ => PyStr.join " " (tag_classes attrs)) <$> get_attr a attrs
  else get_attr a attrs.

(** ** Selectors *)

Record Compound := mkCompound {
  c_tag : option string;
  c_id : option string;
  c_classes : list string;
  c_attr_contains : list (string * string)
}.

(** Compounds joined by the descendant combinator, outermost first. *)
Definition Selector := list Compound.

Definition matches_compound (c : Compound) (n : Node) : bool :=
  match n with
  | Tag name attrs _ =>
      match c_tag c with Some t => String.eqb t name | None => true end &&
      match c_id c with
      | Some i => match get_attr "id" attrs with Some x => String.eqb x i | None => false end
      | None => true
      end &&
      forallb (fun k => existsb (String.eqb k) (tag_classes attrs)) (c_classes c) &&
      forallb (fun av => match sel_attr_value av.1 attrs with
                         | Some x => PyStr.contains av.2 x | None => false end) (c_attr_contains c)
  | _ => false
  end.

(** The compounds [rcs] (innermost first) along the ancestors [anc]
  (nearest first), each taken at the nearest ancestor that matches it. *)
Fixpoint match_ancestors (anc : list Node) (rcs : list Compound) {struct anc} : bool :=
  match rcs with
  | [] => true
  | c :: rcs' =>
      match anc with
      | [] => false
      | a :: anc' => if matches_compound c a then match_ancestors anc' rcs' else match_ancestors anc' rcs
      end
  end.

(** A tag with ancestors [anc] matches a selector. *)
Definition matches (sel : Selector) (anc : list Node) (n : Node) : bool :=
  match rev sel with
  | [] => false
  | c :: rcs => matches_compound c n && match_ancestors anc rcs
  end.

(** The declarative reading: [rcs] matches a subsequence of [anc]. *)
Inductive chain_in : list Compound -> list Node -> Prop :=
| chain_nil anc : chain_in [] anc
| chain_here c rcs a anc :
    matches_compound c a = true -> chain_in rcs anc -> chain_in (c :: rcs) (a :: anc)
| chain_skip rcs a anc : chain_in rcs anc -> chain_in rcs (a :: anc).

(** ** Traversal *)

(** [n.descendants] in document order, each with its ancestors up to
  [n], nearest first. *)
Fixpoint descendants_from (anc : list Node) (n : Node) : list (list Node * Node) :=
  match n with
  | Tag _ _ children =>
      List.flat_map (fun c => (n :: anc, c) :: descendants_from (n :: anc) c) children
  | _ => []
  end.

Definition descendants (n : Node) : list (list Node * Node) := descendants_from [] n.

(** [n.select(sel)] and [n.select_one(sel)]. *)
Definition select (sel : Selector) (n : Node) : list Node :=
  snd <$> List.filter (fun p => matches sel p.1 p.2) (descendants n).

Definition select_one (sel : Selector) (n : Node) : option Node := head (select sel n).

Definition is_tag_named (name : string) (n : Node) : bool :=
  match n with Tag t _ _ => String.eqb t name | _ => false end.

(** [n.find_all(name)], [n.find_all(name, recursive=False)], [n.find(name)]. *)
Definition find_all (name : string) (n : Node) : list Node :=
  List.filter (is_tag_named name) (snd <$> descendants n).

Definition find_all_children (name : string) (n : Node) : list Node :=
  match n with Tag _ _ children => List.filter (is_tag_named name) children | _ => [] end.

Definition find (name : string) (n : Node) : option Node := head (find_all name n).

(** ** Text *)

(** Tags whose strings bs4 stores in a class other than [NavigableString]. *)
Definition string_container (name : string) : bool :=
  existsb (String.eqb name) ["script"; "style"; "template"; "rt"; "rp"]%string.

(** The plain strings of a subtree, in document order. *)
Fixpoint plain_strings (n : Node) : list string :=
  match n with
  | Tag name _ children =>
      if string_container name then [] else List.flat_map plain_strings children
  | NavigableString s => [s]
  | Comment _ => []
  end.

(** The strings [get_text] of a tag reads: those of its children. *)
Definition text_strings (n : Node) : list string :=
  match n with
  | Tag _ _ children => List.flat_map plain_strings children
  | _ => []
  end.

Definition nonempty (s : string) : bool := match s with EmptyString => false | _ => true end.

(** [n.get_text(separator=sep, strip=True)]. *)
Definition get_text (sep : string) (n : Node) : string :=
  PyStr.join sep (List.filter nonempty (Tokenize.strip <$> text_strings n)).

(** ** Decomposition *)

(** The tree without the descendants [drop] selects (given their
  ancestors in the original tree): [decompose()] of each of them. *)
Fixpoint prune (drop : list Node -> Node -> bool) (anc : list Node) (n : Node) : Node :=
  match n with
  | Tag name attrs children =>
      Tag name attrs
        (List.flat_map (fun c => if drop (n :: anc) c then [] else [prune drop (n :: anc) c]) children)
  | _ => n
  end.

(** [for e in n.select(sel): e.decompose()]. *)
Definition decompose_select (sel : Selector) (n : Node) : Node := prune (matches sel) [] n.

(** ** Positions in the tree

    [decompose()] of tags found by other means than a selector (a string's
    parent, the last [strong]) removes one position of the tree: a
    position is the list of child indices from the root. *)

(** The descendants with their positions and parents, in document order. *)
Fixpoint descendants_at (path : list nat) (n : Node) : list (list nat * Node * Node) :=
  match n with
  | Tag _ _ children =>
      (fix go (i : nat) (l : list Node) : list (list nat * Node * Node) :=
         match l with
         | [] => []
         | c :: l' => ((path ++ [i], n, c) :: descendants_at (path ++ [i]) c) ++ go (S i) l'
         end) 0 children
  | _ => []
  end.

(** The tree without the subtrees at the positions [R]; a root in [R] is
  emptied, as [decompose()] clears the contents of the tag. *)
Fixpoint remove_below (R : list (list nat)) (path : list nat) (n : Node) : Node :=
  match n with
  | Tag name attrs children =>
      Tag name attrs
        ((fix go (i : nat) (l : list Node) : list Node :=
            match l with
            | [] => []
            | c :: l' =>
                if bool_decide ((path ++ [i]) ∈ R) then go (S i) l'
                else remove_below R (path ++ [i]) c :: go (S i) l'
            end) 0 children)
  | _ => n
  end.

Definition remove_paths (R : list (list nat)) (n : Node) : Node :=
  if bool_decide ([] ∈ R) then
    match n with Tag name attrs _ => Tag name attrs [] | _ => n end
  else remove_below R [] n.

(** Joining non-empty stripped pieces gives a stripped string. *)
Lemma join_stripped sep ps :
  ps <> [] -> Forall (fun p => p <> EmptyString /\ Tokenize.lstrip p = p /\ Tokenize.rstrip p = p) ps ->
  Tokenize.lstrip (PyStr.join sep ps) = PyStr.join sep ps /\
  Tokenize.rstrip (PyStr.join sep ps) = PyStr.join sep ps /\ PyStr.join sep ps <> EmptyString.
Proof.
  intros Hne Hps. induction Hps as [|p ps [Hp [Hl Hr]] Hps IH]; [done|].
  destruct ps as [|q ps]; [done|]. unfold PyStr.join in *. rewrite PyStr.concat_cons by done.
  destruct IH as [IHl [IHr IHne]]; [done|].
  destruct p as [|c p]; [done|].
  assert (Ec : Tokenize.is_space c = false).
  { simpl in Hl. destruct (Tokenize.is_space c); [|done]. exfalso.
    pose proof (Tokenize.lstrip_length p).
    apply (f_equal String.length) in Hl. simpl in Hl. lia. }
  split_and!.
  - simpl. by rewrite Ec.
  - rewrite string_app_assoc, Tokenize.rstrip_app, IHr; [done|by rewrite IHr].
  - done.
Qed.

Lemma Forall_flat_map {A B} (P : B -> Prop) (g : A -> list B) (l : list A) :
  Forall (fun x => Forall P (g x)) l -> Forall P (List.flat_map g l).
Proof. induction 1; simpl; [constructor|]. by apply Forall_app. Qed.

Lemma matches_single c anc m : matches [c] anc m = matches_compound c m.
Proof. unfold matches. simpl. destruct anc; by rewrite andb_true_r. Qed.

Lemma matches_compound_prune c drop anc n : matches_compound c (prune drop anc n) = matches_compound c n.
Proof. by destruct n. Qed.

(** Pruning with a test on the node alone leaves no descendant that
  passes it. *)
Lemma prune_descendants (f : Node -> bool) drop anc anc' n :
  (forall a m, drop a m = f m) -> (forall m m', f (prune drop m' m) = f m) ->
  Forall (fun p => f p.2 = false) (descendants_from anc' (prune drop anc n)).
Proof.
  intros Hd Hf. revert anc anc'. induction n as [name attrs ch IH| |] using Node_ind'; intros anc anc'; simpl;
    [|constructor|constructor].
  set (A := Tag name attrs ch :: anc). set (B := Tag name attrs _ :: anc'). clearbody A B.
  induction IH as [|c ch Hc _ IHl]; simpl; [constructor|].
  rewrite List.flat_map_app. apply Forall_app; split; [|apply IHl].
  rewrite Hd. destruct (f c) eqn:E; simpl; [constructor|].
  constructor; [simpl; by rewrite Hf|]. rewrite app_nil_r. apply Hc.
Qed.

(** ** Theorems *)

Lemma match_ancestors_weaken anc c rcs :
  match_ancestors anc (c :: rcs) = true -> match_ancestors anc rcs = true.
Proof.
  revert c rcs; induction anc as [|a anc IH]; intros c rcs H; [done|]. simpl in H.
  destruct rcs as [|c' rcs']; [done|]. simpl.
  destruct (matches_compound c a), (matches_compound c' a); eauto.
Qed.

(** The greedy search for the ancestors decides the declarative
  definition of a descendant-combinator match. *)
Theorem match_ancestors_spec anc rcs : match_ancestors anc rcs = true <-> chain_in rcs anc.
Proof.
  split.
  - revert rcs; induction anc as [|a anc IH]; intros [|c rcs] H; simpl in H; try (by constructor); try discriminate.
    destruct (matches_compound c a) eqn:E; [apply chain_here|apply chain_skip]; auto.
  - induction 1 as [anc|c rcs a anc Hc _ IH|rcs a anc _ IH]; [by destruct anc|simpl; by rewrite Hc|].
    destruct rcs as [|c rcs]; [done|]. simpl. destruct (matches_compound c a); [|done].
    by eapply match_ancestors_weaken.
Qed.

(** [get_text(strip=True)] has no whitespace at either end, whatever
  the separator. *)
Theorem get_text_stripped sep n : Tokenize.strip (get_text sep n) = get_text sep n.
Proof.
  unfold get_text. set (ps := List.filter nonempty _).
  assert (Hps : Forall (fun p => p <> EmptyString /\ Tokenize.lstrip p = p /\ Tokenize.rstrip p = p) ps).
  { subst ps. induction (text_strings n) as [|s l IH]; simpl; [constructor|].
    destruct (nonempty (Tokenize.strip s)) eqn:E; [|done]. constructor; [|done].
    destruct (Tokenize.strip_stripped s). split_and!; [by destruct (Tokenize.strip s)|done|done]. }
  destruct ps as [|p ps']; [done|]. unfold Tokenize.strip.
  destruct (join_stripped sep (p :: ps')) as [Hl [Hr _]]; [done|done|]. by rewrite Hl, Hr.
Qed.

(** After [for e in n.select(sel): e.decompose()] with a one-compound
  selector, [n.select(sel)] finds nothing. *)
Theorem decompose_select_gone c n : select [c] (decompose_select [c] n) = [].
Proof.
  unfold select, decompose_select, descendants.
  generalize (prune_descendants (matches_compound c) (matches [c]) [] [] n
                (matches_single c) (fun m m' => matches_compound_prune c _ m' m)).
  generalize (descendants_from [] (prune (matches [c]) [] n)) as l. intros l H.
  induction H as [|p l Hp _ IH]; [done|]. simpl. rewrite matches_single, Hp. exact IH.
Qed.

End Soup.
