(* ===== verification/Ranking.v ===== *)
(** * Ranking: [np.argsort(scores)[::-1][:top_k]] and [df.iloc]

    Both [search_bm25] (src/app.py:49-57) and [search_sbert]
    (src/app.py:59-70) rank a dense score vector the same way:
    {v
      ranked_indices = np.argsort(doc_scores)[::-1]
      results = corpus_df.iloc[ranked_indices[:top_k]].copy()
      results['score'] = doc_scores[ranked_indices[:top_k]]
      results['algorithm'] = <label>
    v}
    numpy's default [argsort] (kind='quicksort') is not stable: all it
    promises is a permutation of the positions along which the scores do not
    decrease.  That contract is [is_argsort]; an implementation is a record
    [argsort_impl] of a function with its law, and every theorem about the
    search is proved for any implementation.  [argsort_stable] (numpy's
    kind='stable', ties by ascending position) is one implementation.

    The section is generic in the score type and its total preorder, so it
    serves the BM25 scores and the cosine similarities alike. *)

From stdpp Require Import base list sorting strings.
From Stdlib Require Import ZArith QArith Lia.
From S2P Require Import Prelude Corpus.
Local Open Scope nat_scope.

(** A row of [search_bm25]/[search_sbert]'s result: the corpus row with the
    columns [score] and [algorithm] added. *)
Record Hit (S : Type) := mkHit {
  hit_doc : Document;
  hit_score : S;
  hit_algorithm : string
}.
Arguments mkHit {S} _ _ _.
Arguments hit_doc {S} _.
Arguments hit_score {S} _.
Arguments hit_algorithm {S} _.

Section Ranking.
Context {S : Type} `{Inhabited S} (le : relation S)
      `{!RelDecision le, !Total le, !Transitive le}.

(** Position [i] scores at most position [j]. *)
Definition score_le (v : list S) (i j : nat) : Prop := le (v !!! i) (v !!! j).

(** The contract of [np.argsort(v)] (default kind). *)
Definition is_argsort (v : list S) (idx : list nat) : Prop :=
idx ≡ₚ seq 0 (length v) /\ Sorted (score_le v) idx.

(** An argsort implementation with its law. *)
Record argsort_impl := {
argsort_run :> list S -> list nat;
argsort_ok : forall v, is_argsort v (argsort_run v)
}.

(** numpy's kind='stable': score, then position, ascending. *)
Definition stable_le (v : list S) (i j : nat) : Prop :=
score_le v i j /\ (score_le v j i -> i <= j).

#[local] Instance score_le_dec v : RelDecision (score_le v) :=
  fun i j => decide (le (v !!! i) (v !!! j)).
#[local] Instance stable_le_dec v : RelDecision (stable_le v) :=
  fun i j => _.

Definition argsort_stable (v : list S) : list nat :=
merge_sort (stable_le v) (seq 0 (length v)).

(** [ranked_indices[:top_k]] with [ranked_indices = idx[::-1]]. *)
Definition top_k_indices (idx : list nat) (top_k : Z) : list nat :=
py_slice (reverse idx) 0 top_k.

(** The rows of one search: [iloc] of the corpus at the top positions,
  with their scores and the algorithm label. *)
Definition search_rows (corpus : list Document) (v : list S) (idx : list nat)
  (top_k : Z) (label : string) : option (list (Hit S)) :=
let top := top_k_indices idx top_k in
docs ← iloc corpus top;
Some (zip_with (fun d i => mkHit d (v !!! i) label) docs top).

(** *** The stable argsort is an argsort *)

#[local] Instance stable_le_total v : Total (stable_le v).
Proof.
  intros i j. unfold stable_le, score_le.
  destruct (decide (le (v !!! i) (v !!! j))) as [Hij|Hij],
    (decide (le (v !!! j) (v !!! i))) as [Hji|Hji].
  - destruct (decide (i <= j)); [left | right]; split; auto with lia.
  - left. split; [done | contradiction].
  - right. split; [done | contradiction].
  - by destruct (total le (v !!! i) (v !!! j)).
Qed.

#[local] Instance stable_le_trans v : Transitive (stable_le v).
Proof.
  intros i j k [Hij Hji] [Hjk Hkj]. unfold stable_le, score_le in *.
  split; [by etrans|]. intros Hki.
  assert (j <= k) by (apply Hkj; by etrans).
  assert (i <= j) by (apply Hji; by etrans). lia.
Qed.

#[local] Instance stable_le_antisymm v : AntiSymm eq (stable_le v).
Proof. intros i j [Hij Hji] [Hji' Hij']. specialize (Hji Hji'). specialize (Hij' Hij). lia. Qed.

Lemma argsort_stable_ok v : is_argsort v (argsort_stable v).
Proof.
  split; [apply merge_sort_Permutation|].
  eapply Sorted_weaken; [|apply (Sorted_merge_sort (stable_le v))].
  by intros i j [? _].
Qed.

Definition argsort_stable_impl : argsort_impl :=
{| argsort_run := argsort_stable; argsort_ok := argsort_stable_ok |}.

(** *** Shared lemmas on admissible argsorts *)

Lemma is_argsort_ranked v idx :
  is_argsort v idx -> StronglySorted (flip (score_le v)) (reverse idx).
Proof. intros [_ Hs]. apply StronglySorted_reverse; [|done]. intros i j k; unfold score_le. apply transitivity. Qed.

Lemma is_argsort_elem v idx i : is_argsort v idx -> i ∈ idx <-> i < length v.
Proof. intros [Hp _]. rewrite Hp, elem_of_seq. lia. Qed.

Lemma is_argsort_NoDup v idx : is_argsort v idx -> NoDup idx.
Proof. intros [Hp _]. rewrite Hp. apply NoDup_seq. Qed.

Lemma is_argsort_length v idx : is_argsort v idx -> length idx = length v.
Proof. intros [Hp _]. by rewrite Hp, length_seq. Qed.

Lemma top_k_indices_take v idx k :
  is_argsort v idx ->
  top_k_indices idx k = take (Z.to_nat (py_index (Z.of_nat (length v)) k)) (reverse idx).
Proof.
  intros Ha. unfold top_k_indices. rewrite py_slice_from_0, length_reverse.
  by rewrite (is_argsort_length _ _ Ha).
Qed.

(** *** The search of one algorithm *)

(** Every position of the top-k list is a position of the score vector,
  without repetition. *)
Lemma top_k_positions (A : argsort_impl) v k :
  NoDup (top_k_indices (A v) k) /\
  forall i, i ∈ top_k_indices (A v) k -> i < length v.
Proof.
  pose proof (argsort_ok A v) as Ha. rewrite (top_k_indices_take _ _ _ Ha).
  split.
  - eapply sublist_NoDup; [|apply sublist_take]. apply NoDup_reverse. by eapply is_argsort_NoDup.
  - intros i Hi. apply elem_of_take in Hi as [p [Hp _]].
    pose proof (list_elem_of_lookup_2 _ _ _ Hp) as Hin.
    rewrite elem_of_reverse in Hin. by apply (is_argsort_elem v (A v) i Ha).
Qed.

(** The length of [ranked_indices[:top_k]]: [min(top_k, n)] for a
  non-negative [top_k], [max(0, n + top_k)] for a negative one. *)
Lemma top_k_length (A : argsort_impl) v k :
  length (top_k_indices (A v) k) = Z.to_nat (py_index (Z.of_nat (length v)) k).
Proof.
  pose proof (argsort_ok A v) as Ha. rewrite (top_k_indices_take _ _ _ Ha).
  rewrite length_take, length_reverse, (is_argsort_length _ _ Ha).
  pose proof (py_index_bounds (Z.of_nat (length v)) k). lia.
Qed.

(** The top-k list is in non-increasing score order, whatever the
  argsort implementation. *)
Theorem top_k_sorted (A : argsort_impl) v k :
  StronglySorted (flip (score_le v)) (top_k_indices (A v) k).
Proof.
  eapply StronglySorted_sublist; [apply py_slice_sublist|].
  apply is_argsort_ranked, argsort_ok.
Qed.

(** A position kept scores at least every position left out. *)
Lemma top_k_kept_above (A : argsort_impl) v k i j :
  i ∈ top_k_indices (A v) k -> j < length v -> j ∉ top_k_indices (A v) k ->
  le (v !!! j) (v !!! i).
Proof.
  pose proof (argsort_ok A v) as Ha. rewrite (top_k_indices_take _ _ _ Ha).
  intros Hi Hj Hnot.
  assert (Hr : j ∈ reverse (A v)) by (apply elem_of_reverse, (is_argsort_elem v); done).
  rewrite <- (take_drop (Z.to_nat (py_index (Z.of_nat (length v)) k))) in Hr.
  apply elem_of_app in Hr as [?|Hd]; [done|].
  exact (StronglySorted_take_drop _ _ _ _ _ (is_argsort_ranked _ _ Ha) Hi Hd).
Qed.

(** (C19) The top-k list holds the best scores: a position left out scores
  at most any position kept. *)
Theorem top_k_maximal (A : argsort_impl) v k i j :
  i ∈ top_k_indices (A v) k -> j < length v -> j ∉ top_k_indices (A v) k ->
  le (v !!! j) (v !!! i).
Proof. apply top_k_kept_above. Qed.

(** With pairwise distinct scores every argsort implementation gives
  the same ranking: the result does not depend on numpy's algorithm. *)
Theorem argsort_deterministic (A1 A2 : argsort_impl) v :
  (forall i j, i < length v -> j < length v ->
  score_le v i j -> score_le v j i -> i = j) ->
  A1 v = A2 v.
Proof.
  intros Hd. pose proof (argsort_ok A1 v) as [Hp1 Hs1].
  pose proof (argsort_ok A2 v) as [Hp2 Hs2].
  apply (StronglySorted_unique_strong (score_le v)).
  - intros i j Hi Hj. apply Hd.
    + by apply (is_argsort_elem v (A1 v)); [apply argsort_ok|].
    + by apply (is_argsort_elem v (A2 v)); [apply argsort_ok|].
  - apply Sorted_StronglySorted; [|done]. intros ???; unfold score_le; apply transitivity.
  - apply Sorted_StronglySorted; [|done]. intros ???; unfold score_le; apply transitivity.
  - by rewrite Hp1, Hp2.
Qed.

(** (C20) Ties under the stable argsort come out in DESCENDING position
  order after [[::-1]]: of two equally scored positions the later one
  is ranked first. *)
Theorem stable_ties_descending v k p q i j :
  top_k_indices (argsort_stable v) k !! p = Some i ->
  top_k_indices (argsort_stable v) k !! q = Some j ->
  p < q -> score_le v i j -> j < i.
Proof.
  pose proof (argsort_stable_ok v) as Ha. rewrite (top_k_indices_take _ _ _ Ha).
  rewrite !lookup_take_Some. intros [Hp _] [Hq _] Hpq Hij.
  assert (Hs : StronglySorted (flip (stable_le v)) (reverse (argsort_stable v))).
  { apply StronglySorted_reverse; [apply _|]. apply (Sorted_merge_sort (stable_le v)). }
    destruct (StronglySorted_lookup _ _ _ _ _ _ Hs Hp Hq Hpq) as [_ Hji].
  specialize (Hji Hij).
  assert (i <> j); [|lia].
  intros ->. assert (p = q); [|lia].
  eapply NoDup_lookup; [|done..]. apply NoDup_reverse. by eapply is_argsort_NoDup.
Qed.

(** When the corpus has a row for every score (the positional
  correspondence of the indices), the search returns, in ranked order,
  the rows of the top positions with their scores and the label. *)
Theorem search_rows_ok (A : argsort_impl) corpus v k label :
  length v <= length corpus ->
  search_rows corpus v (A v) k label =
  Some ((fun i => mkHit (corpus !!! i) (v !!! i) label) <$> top_k_indices (A v) k).
Proof.
  intros Hlen. unfold search_rows.
  destruct (top_k_positions A v k) as [_ Hin].
  rewrite iloc_in_range; last (apply Forall_forall; intros i Hi; specialize (Hin i Hi); lia).
  simpl. f_equal. generalize (top_k_indices (A v) k). clear.
  induction l; simpl; by f_equal.
Qed.

(** When the corpus is shorter than the score vector and [top_k]
  reaches every position, [iloc] raises [IndexError]. *)
Theorem search_rows_index_error (A : argsort_impl) corpus v k label :
  length corpus < length v -> (Z.of_nat (length v) <= k)%Z ->
  search_rows corpus v (A v) k label = None.
Proof.
  intros Hlen Hk. unfold search_rows.
  rewrite (iloc_out_of_range _ _ (length corpus)); [done| |lia].
  pose proof (argsort_ok A v) as Ha. rewrite (top_k_indices_take _ _ _ Ha).
  rewrite take_ge.
  - apply elem_of_reverse, (is_argsort_elem v); [done|lia].
  - rewrite length_reverse, (is_argsort_length _ _ Ha), py_index_nonneg; lia.
Qed.

End Ranking.

(** ** Concrete instances: rational scores *)

Definition doc_example (n : string) : Document :=
  mkDocument ("doc_" +:+ n) "Gamebrott" ("https://gamebrott.com/" +:+ n)
    ("judul " +:+ n) "konten" "1 Januari 2025" "N/A".

Definition corpus3 : list Document := doc_example <$> ["00001"; "00002"; "00003"].
Definition scores3 : list Q := [1; 3; 2]%Q.
Definition zeros5 : list Q := [0; 0; 0; 0; 0]%Q.

(** Divergence from the spec: for a query that matches nothing (all
    scores 0) even the stable argsort ranks the LAST documents first. *)
Example stable_zero_scores_top : top_k_indices (argsort_stable Qle zeros5) 3 = [4; 3; 2].
Proof. vm_compute. reflexivity. Qed.

Lemma top_k_maximal_witness :
  (1 ∈ top_k_indices (argsort_stable_impl Qle scores3) 1) /\ 0 < length scores3 /\
  (0 ∉ top_k_indices (argsort_stable_impl Qle scores3) 1) /\
  Qle (scores3 !!! 0) (scores3 !!! 1).
Proof.
  assert (E : top_k_indices (argsort_stable_impl Qle scores3) 1 = [1]) by (vm_compute; reflexivity).
  assert (H1 : 1 ∈ top_k_indices (argsort_stable_impl Qle scores3) 1) by (rewrite E; left).
  assert (H0 : 0 ∉ top_k_indices (argsort_stable_impl Qle scores3) 1)
    by (rewrite E; intros Hin; apply list_elem_of_singleton in Hin; discriminate).
  split; [exact H1|]. split; [simpl; lia|]. split; [exact H0|].
  apply (top_k_maximal Qle (argsort_stable_impl Qle) scores3 1 1 0); [exact H1|simpl; lia|exact H0].
Defined.

Lemma argsort_deterministic_witness :
  argsort_stable_impl Qle scores3 = argsort_stable_impl Qle scores3.
Proof.
  apply (argsort_deterministic Qle (argsort_stable_impl Qle) (argsort_stable_impl Qle) scores3).
  intros i j Hi Hj. unfold score_le. simpl in Hi, Hj.
  destruct i as [|[|[|i]]]; [..|lia]; destruct j as [|[|[|j]]]; try lia;
    vm_compute; intros H1 H2; try reflexivity; exfalso; first [apply H1; reflexivity | apply H2; reflexivity].
Defined.

Lemma stable_ties_descending_witness :
  top_k_indices (argsort_stable Qle zeros5) 3 !! 0 = Some 4 /\
  top_k_indices (argsort_stable Qle zeros5) 3 !! 1 = Some 3 /\
  score_le Qle zeros5 4 3 /\ 3 < 4.
Proof.
  assert (H0 : top_k_indices (argsort_stable Qle zeros5) 3 !! 0 = Some 4) by (vm_compute; reflexivity).
  assert (H1 : top_k_indices (argsort_stable Qle zeros5) 3 !! 1 = Some 3) by (vm_compute; reflexivity).
  assert (Hs : score_le Qle zeros5 4 3) by (vm_compute; discriminate).
  split; [exact H0|]. split; [exact H1|]. split; [exact Hs|].
  exact (stable_ties_descending Qle zeros5 3 0 1 4 3 H0 H1 ltac:(lia) Hs).
Defined.

Lemma search_rows_ok_witness :
  length scores3 <= length corpus3 /\
  search_rows corpus3 scores3 (argsort_stable_impl Qle scores3) 2 "BM25" =
  Some ((fun i => mkHit (corpus3 !!! i) (scores3 !!! i) "BM25")
  <$> top_k_indices (argsort_stable_impl Qle scores3) 2).
Proof.
  assert (Hl : length scores3 <= length corpus3) by (simpl; lia).
  split; [exact Hl|]. exact (search_rows_ok Qle (argsort_stable_impl Qle) corpus3 scores3 2 "BM25" Hl).
Defined.

Lemma search_rows_index_error_witness :
  length (take 2 corpus3) < length scores3 /\
  search_rows (take 2 corpus3) scores3 (argsort_stable_impl Qle scores3) 3 "BM25" = None.
Proof.
  assert (Hl : length (take 2 corpus3) < length scores3) by (simpl; lia).
  split; [exact Hl|].
  exact (search_rows_index_error Qle (argsort_stable_impl Qle) (take 2 corpus3) scores3 3 "BM25"
    Hl ltac:(simpl; lia)).
Defined.

Lemma top_k_sorted_witness :
  StronglySorted (flip (score_le Qle scores3)) (top_k_indices (argsort_stable_impl Qle scores3) 2).
Proof. exact (top_k_sorted Qle (argsort_stable_impl Qle) scores3 2). Defined.

Lemma top_k_length_witness :
  length (top_k_indices (argsort_stable_impl Qle scores3) (-1)) = 2.
Proof. exact (top_k_length Qle (argsort_stable_impl Qle) scores3 (-1)). Defined.

(** Every row of [search_rows] carries the label it was given. *)
Lemma search_rows_labelled {S} `{Inhabited S} (corpus : list Document) (v : list S) idx top_k label hits :
  search_rows corpus v idx top_k label = Some hits -> Forall (fun h => hit_algorithm h = label) hits.
Proof.
  unfold search_rows. destruct (iloc _ _) as [docs|]; simpl; [|done]. intros [= <-].
  generalize (top_k_indices idx top_k). induction docs as [|d docs IH]; intros [|i ix]; simpl;
    constructor; auto.
Qed.
