(* ===== verification/Bm25.v ===== *)
(** * Lexical index: [rank_bm25.BM25Okapi.get_scores] and [search_bm25]

    The lexical index is the pickled [BM25Okapi] object of
    [models/bm25_model.pkl] ([load_assets], src/app.py:30-31).  Its state is
    the record [BM25Okapi]: the per-document term counts [doc_freqs] (a list
    of dicts), the document lengths [doc_len], the average length [avgdl],
    the [idf] dict and the parameters [k1], [b].  [get_scores] belongs to the
    rank_bm25 library, not to this repository; it is modelled from the
    spec (4.1) and the library's published loop:
    {v
      score = np.zeros(self.corpus_size)
      for q in query:
          q_freq = np.array([(doc.get(q) or 0) for doc in self.doc_freqs])
          score += (self.idf.get(q) or 0) * (q_freq * (self.k1 + 1) /
                   (q_freq + self.k1 * (1 - self.b + self.b * doc_len / self.avgdl)))
    v}
    [search_bm25] (src/app.py:49-57) is modelled from the source, on top of
    [Ranking.search_rows].

    The workhorse is [get_scores_lookup]: the score of a document is the sum
    over the query tokens of the per-token BM25 term.  The zero-query,
    additivity, order-independence and monotonicity theorems follow from
    it. *)

From stdpp Require Import base list gmap strings sorting.
From Stdlib Require Import ZArith QArith Lqa Lia.
From S2P Require Import Prelude Corpus Ranking.
Local Open Scope Q_scope.

Module Bm25.

(** The attributes of a [BM25Okapi] object read by [get_scores]. *)
Record BM25Okapi := mkBM25Okapi {
corpus_size : nat;
avgdl : Q;
doc_freqs : list (gmap string nat);
idf : gmap string Q;
doc_len : list nat;
k1 : Q;
b : Q
}.

(** The constants of src/app.py:24-25 (never passed to the model). *)
Definition BM25_K1 : Q := 12 # 10.
Definition BM25_B : Q := 75 # 100.

(** The BM25 term of one query token in one document. *)
Definition bm25_term (idf_q k1 b avgdl : Q) (tf dl : nat) : Q :=
idf_q * (inject_Z (Z.of_nat tf) * (k1 + 1) /
         (inject_Z (Z.of_nat tf) + k1 * (1 - b + b * inject_Z (Z.of_nat dl) / avgdl))).

(** [(self.idf.get(q) or 0)] and [(doc.get(q) or 0)]. *)
Definition idf_of (bm : BM25Okapi) (q : string) : Q := default 0 (idf bm !! q).
Definition tf_of (doc : gmap string nat) (q : string) : nat := default 0%nat (doc !! q).

(** The vector added to [score] for one query token. *)
Definition term_scores (bm : BM25Okapi) (q : string) : list Q :=
zip_with (fun doc dl => bm25_term (idf_of bm q) (k1 bm) (b bm) (avgdl bm) (tf_of doc q) dl)
  (doc_freqs bm) (doc_len bm).

Definition get_scores (bm : BM25Okapi) (query : list string) : list Q :=
foldl (fun score q => vadd score (term_scores bm q)) (replicate (corpus_size bm) 0) query.

(** Well-formedness of a loaded index: one entry per document in every
  per-document array, a positive average length, [k1 > 0] and
  [0 <= b < 1] so that every denominator is positive. *)
Definition wf (bm : BM25Okapi) : Prop :=
length (doc_freqs bm) = corpus_size bm /\ length (doc_len bm) = corpus_size bm /\
0 < avgdl bm /\ 0 < k1 bm /\ 0 <= b bm /\ b bm < 1.

(** [search_bm25(query_tokens, top_k)] with a given argsort. *)
Definition search_bm25 (A : argsort_impl Qle) (bm : BM25Okapi) (corpus : list Document)
  (query_tokens : list string) (top_k : Z) : option (list (Hit Q)) :=
let doc_scores := get_scores bm query_tokens in
search_rows corpus doc_scores (A doc_scores) top_k "BM25".

(** The score of document [d]: the per-token terms summed. *)
Definition score_at (bm : BM25Okapi) (query : list string) (d : nat) : Q :=
qsum ((fun q => bm25_term (idf_of bm q) (k1 bm) (b bm) (avgdl bm)
                  (tf_of (doc_freqs bm !!! d) q) (doc_len bm !!! d)) <$> query).

(** ** The BM25 term *)

(** The length-normalised saturation constant [k1 * (1 - b + b*dl/avgdl)]. *)
Definition norm_const (k1 b avgdl : Q) (dl : nat) : Q :=
k1 * (1 - b + b * inject_Z (Z.of_nat dl) / avgdl).

Lemma norm_const_pos k1 b avgdl dl :
  0 < k1 -> 0 <= b -> b < 1 -> 0 < avgdl -> 0 < norm_const k1 b avgdl dl.
Proof.
  intros Hk Hb0 Hb1 Ha. unfold norm_const. apply Qmult_lt_0_compat; [done|].
  assert (0 <= b * inject_Z (Z.of_nat dl) / avgdl); [|lra].
  apply Qdiv_nonneg; [|done]. apply Qmult_le_0_compat; [done|].
  unfold Qle; simpl; lia.
Qed.

Lemma bm25_term_frac idf_q k1 b avgdl tf dl :
  bm25_term idf_q k1 b avgdl tf dl ==
  idf_q * (k1 + 1) * (inject_Z (Z.of_nat tf) /
  (inject_Z (Z.of_nat tf) + norm_const k1 b avgdl dl)).
Proof. unfold bm25_term, norm_const, Qdiv. ring. Qed.

Lemma inject_nat_nonneg (n : nat) : 0 <= inject_Z (Z.of_nat n).
Proof. unfold Qle; simpl; lia. Qed.

Lemma inject_nat_le (m n : nat) : (m <= n)%nat -> inject_Z (Z.of_nat m) <= inject_Z (Z.of_nat n).
Proof. intros. rewrite <- Zle_Qle. lia. Qed.

(** Saturation monotonicity: with a non-negative idf, the BM25 term
  does not decrease when the term frequency grows, the document length
  being fixed. *)
Theorem bm25_term_mono idf_q k1 b avgdl tf1 tf2 dl :
  0 <= idf_q -> 0 < k1 -> 0 <= b -> b < 1 -> 0 < avgdl -> (tf1 <= tf2)%nat ->
  bm25_term idf_q k1 b avgdl tf1 dl <= bm25_term idf_q k1 b avgdl tf2 dl.
Proof.
  intros Hi Hk Hb0 Hb1 Ha Htf. rewrite !bm25_term_frac.
  apply Qmult_le_compat_l; [|apply Qmult_le_0_compat; lra].
  apply frac_mono; auto using norm_const_pos, inject_nat_nonneg, inject_nat_le.
Qed.

(** Saturation bound: one query token adds at most [idf * (k1 + 1)]. *)
Theorem bm25_term_bound idf_q k1 b avgdl tf dl :
  0 <= idf_q -> 0 < k1 -> 0 <= b -> b < 1 -> 0 < avgdl ->
  bm25_term idf_q k1 b avgdl tf dl <= idf_q * (k1 + 1).
Proof.
  intros Hi Hk Hb0 Hb1 Ha. rewrite bm25_term_frac.
  rewrite <- (Qmult_1_r (idf_q * (k1 + 1))) at 2.
  apply Qmult_le_compat_l; [|apply Qmult_le_0_compat; lra].
  apply frac_le_1; auto using norm_const_pos, inject_nat_nonneg.
Qed.

(** ** The score vector *)

Section Scores.
Context (bm : BM25Okapi) (Hwf : wf bm).

Lemma length_term_scores q : length (term_scores bm q) = corpus_size bm.
Proof. destruct Hwf as (H1 & H2 & _). unfold term_scores. rewrite length_zip_with. lia. Qed.

Lemma lookup_term_scores q d :
  (d < corpus_size bm)%nat ->
  term_scores bm q !!! d =
  bm25_term (idf_of bm q) (k1 bm) (b bm) (avgdl bm) (tf_of (doc_freqs bm !!! d) q) (doc_len bm !!! d).
Proof. destruct Hwf as (H1 & H2 & _). intros. unfold term_scores. by rewrite lookup_total_zip_with by lia. Qed.

Lemma length_get_scores_from acc query :
  length acc = corpus_size bm ->
  length (foldl (fun score q => vadd score (term_scores bm q)) acc query) = corpus_size bm.
Proof.
  revert acc. induction query as [|q query IH]; intros acc Hacc; simpl; [done|].
  apply IH. rewrite length_vadd, length_term_scores. lia.
Qed.

(** The loop adds [score_at] to the accumulator, position by position. *)
Lemma lookup_get_scores_from acc query d :
  length acc = corpus_size bm -> (d < corpus_size bm)%nat ->
  foldl (fun score q => vadd score (term_scores bm q)) acc query !!! d ==
  acc !!! d + score_at bm query d.
Proof.
  revert acc. induction query as [|q query IH]; intros acc Hacc Hd; simpl.
  - unfold score_at, qsum; simpl. ring.
  - rewrite IH by (rewrite ?length_vadd, ?length_term_scores; lia).
    rewrite lookup_total_vadd by (rewrite ?length_term_scores; lia).
    rewrite lookup_term_scores by done.
    unfold score_at, qsum. rewrite fmap_cons. cbn [foldr]. ring.
Qed.

Lemma length_get_scores query : length (get_scores bm query) = corpus_size bm.
Proof. apply length_get_scores_from, length_replicate. Qed.

(** The score of document [d] is the sum of its per-token terms. *)
Lemma get_scores_lookup query d :
  (d < corpus_size bm)%nat -> get_scores bm query !!! d == score_at bm query d.
Proof.
  intros Hd. unfold get_scores. rewrite lookup_get_scores_from by (rewrite ?length_replicate; lia).
  rewrite lookup_total_replicate_2 by lia. ring.
Qed.

(** Two queries score the same when they agree at every position. *)
Lemma get_scores_ext query1 query2 :
  (forall d, (d < corpus_size bm)%nat -> score_at bm query1 d == score_at bm query2 d) ->
  get_scores bm query1 =v= get_scores bm query2.
Proof.
  intros Heq. apply qvec_eq_lookup; [by rewrite !length_get_scores|].
  intros d Hd. rewrite length_get_scores in Hd.
  rewrite !get_scores_lookup by done. auto.
Qed.

End Scores.

(** The index with the count of token [t] in document [d] set to [n],
  everything else unchanged. *)
Definition set_tf (bm : BM25Okapi) (d : nat) (t : string) (n : nat) : BM25Okapi :=
{| corpus_size := corpus_size bm; avgdl := avgdl bm;
   doc_freqs := <[d := <[t := n]> (doc_freqs bm !!! d)]> (doc_freqs bm);
   idf := idf bm; doc_len := doc_len bm; k1 := k1 bm; b := b bm |}.

Lemma set_tf_wf bm d t n : wf bm -> wf (set_tf bm d t n).
Proof. intros (H1 & H2 & H3). repeat split; simpl; rewrite ?length_insert; tauto. Qed.

(** A query none of whose tokens is in the vocabulary scores every
  document 0: an all-zero vector, not an error. *)
Theorem get_scores_no_vocab bm query :
  wf bm -> (forall t, t ∈ query -> idf bm !! t = None) ->
  get_scores bm query =v= replicate (corpus_size bm) 0.
Proof.
  intros Hwf Hnone. apply qvec_eq_lookup; [by rewrite length_get_scores, length_replicate|].
  intros d Hd. rewrite length_get_scores in Hd by done.
  rewrite get_scores_lookup, lookup_total_replicate_2 by done.
  apply qsum_map_zero. intros t Ht. unfold idf_of. rewrite Hnone by done.
  unfold bm25_term; simpl. ring.
Qed.

(** Scores are additive in the query: the tokens of a concatenated
  query add their vectors (a duplicated token counts twice). *)
Theorem get_scores_app bm query1 query2 :
  wf bm -> get_scores bm (query1 ++ query2) =v= vadd (get_scores bm query1) (get_scores bm query2).
Proof.
  intros Hwf. apply qvec_eq_lookup.
  - by rewrite length_vadd, !length_get_scores, Nat.min_id.
  - intros d Hd. rewrite length_get_scores in Hd by done.
    rewrite lookup_total_vadd by (rewrite length_get_scores; done).
    rewrite !get_scores_lookup by done. unfold score_at. by rewrite fmap_app, qsum_app.
Qed.

(** The order of the query tokens does not matter. *)
Theorem get_scores_permutation bm query1 query2 :
  wf bm -> query1 ≡ₚ query2 -> get_scores bm query1 =v= get_scores bm query2.
Proof.
  intros Hwf Hp. apply get_scores_ext; [done|]. intros d _.
  unfold score_at. apply qsum_Permutation. by rewrite Hp.
Qed.

(** Monotonicity in term frequency: raising the count of one token in
  one document, its length and every other count fixed, does not lower
  that document's score for a query of non-negative idf. *)
Theorem get_scores_tf_mono bm d t n query :
  wf bm -> (d < corpus_size bm)%nat -> (tf_of (doc_freqs bm !!! d) t <= n)%nat ->
  (forall q, q ∈ query -> 0 <= idf_of bm q) ->
  get_scores bm query !!! d <= get_scores (set_tf bm d t n) query !!! d.
Proof.
  intros Hwf Hd Htf Hidf. pose proof (set_tf_wf bm d t n Hwf) as Hwf'.
  rewrite (get_scores_lookup _ Hwf), (get_scores_lookup _ Hwf') by done.
  unfold score_at. apply qsum_map_le. intros q Hq.
  destruct Hwf as (H1 & H2 & H3 & H4 & H5 & H6).
  unfold set_tf, idf_of; cbn [doc_freqs doc_len idf k1 b avgdl].
  rewrite list_lookup_total_insert_eq by lia.
  unfold tf_of in *. destruct (decide (q = t)) as [->|Hne].
  - rewrite lookup_insert_eq. apply bm25_term_mono; first [apply (Hidf _ Hq) | assumption | lia].
  - rewrite lookup_insert_ne by congruence. apply Qle_refl.
Qed.

(** [search_bm25] returns the corpus rows of the top positions of the
  BM25 vector with their scores, labelled ["BM25"], when the corpus and
  the index have the same number of documents. *)
Theorem search_bm25_ok A bm corpus query_tokens top_k :
  wf bm -> length corpus = corpus_size bm ->
  search_bm25 A bm corpus query_tokens top_k =
  Some ((fun i => mkHit (corpus !!! i) (get_scores bm query_tokens !!! i) "BM25")
  <$> top_k_indices (A (get_scores bm query_tokens)) top_k).
Proof.
  intros Hwf Hlen. unfold search_bm25. apply search_rows_ok.
  rewrite length_get_scores by done. lia.
Qed.


(** (C21) [search_bm25] returns the best BM25 documents: every hit's
  score is at least the score (the sum over the query tokens of the BM25
  term) of every document of the corpus that is not among the hits. *)
Theorem search_bm25_best (A : argsort_impl Qle) bm corpus query_tokens top_k hits h j :
  wf bm -> length corpus = corpus_size bm ->
  search_bm25 A bm corpus query_tokens top_k = Some hits -> h ∈ hits ->
  (j < corpus_size bm)%nat -> (forall h', h' ∈ hits -> hit_doc h' <> corpus !!! j) ->
  score_at bm query_tokens j <= hit_score h.
Proof.
  intros Hwf Hlen Hs Hh Hj Hnot. rewrite search_bm25_ok in Hs by done. injection Hs as <-.
  apply list_elem_of_fmap_1 in Hh as [i [-> Hi]]. cbn [hit_score].
  destruct (top_k_positions Qle A (get_scores bm query_tokens) top_k) as [_ Hin].
  pose proof (Hin i Hi) as Hi'. rewrite length_get_scores in Hi' by done.
  assert (Hj' : j ∉ top_k_indices (A (get_scores bm query_tokens)) top_k).
  { intros Hjk. apply (Hnot (mkHit (corpus !!! j) (get_scores bm query_tokens !!! j) "BM25")); [|done].
    by apply (list_elem_of_fmap_2 (fun i => mkHit (corpus !!! i) (get_scores bm query_tokens !!! i) "BM25")). }
  rewrite <- (get_scores_lookup bm Hwf _ j) by done.
  apply (top_k_kept_above Qle A _ top_k); [done| |done]. by rewrite length_get_scores.
Qed.

(** ** A three-document index *)

Definition ex_doc_freqs : list (gmap string nat) :=
[ <["game" := 2%nat]> (<["review" := 1%nat]> ∅);
  <["news" := 1%nat]> (<["game" := 1%nat]> ∅);
  <["review" := 3%nat]> (<["hardware" := 1%nat]> ∅) ].

Definition ex_bm : BM25Okapi :=
{| corpus_size := 3; avgdl := 3; doc_freqs := ex_doc_freqs;
   idf := <["game" := 1 # 5]> (<["review" := 1 # 5]> (<["news" := 1]> (<["hardware" := 1]> ∅)));
   doc_len := [3; 2; 4]%nat; k1 := BM25_K1; b := BM25_B |}.

Lemma ex_bm_wf : wf ex_bm.
Proof. unfold wf; simpl; repeat split; vm_compute; try reflexivity; discriminate. Qed.

(** End-to-end scenario of the spec: k1 = 1.2, b = 0.75, query
  ["game"; "review"] on three documents; the values are the hand
  computation 0.475, 0.2315..., 0.2933... . *)
Example bm25_scenario :
  get_scores ex_bm ["game"; "review"] =v= [19 # 40; 22 # 95; 22 # 75].
Proof. qvec_compute. Qed.

(** ** Witnesses *)

Lemma bm25_term_mono_witness :
  bm25_term (1 # 5) BM25_K1 BM25_B 3 1 3 <= bm25_term (1 # 5) BM25_K1 BM25_B 3 2 3.
Proof.
  apply bm25_term_mono; unfold BM25_K1, BM25_B; qconst.
Defined.

Lemma bm25_term_bound_witness :
  bm25_term (1 # 5) BM25_K1 BM25_B 3 7 2 <= (1 # 5) * (BM25_K1 + 1).
Proof.
  apply bm25_term_bound; unfold BM25_K1, BM25_B; qconst.
Defined.

Lemma get_scores_no_vocab_witness :
  get_scores ex_bm ["zelda"; "nintendo"] =v= replicate 3 0.
Proof.
  apply (get_scores_no_vocab ex_bm ["zelda"; "nintendo"] ex_bm_wf).
  intros t Ht. list_elem_cases Ht; reflexivity.
Defined.

Lemma get_scores_app_witness :
  get_scores ex_bm (["game"] ++ ["review"; "game"]) =v=
  vadd (get_scores ex_bm ["game"]) (get_scores ex_bm ["review"; "game"]).
Proof. exact (get_scores_app ex_bm ["game"] ["review"; "game"] ex_bm_wf). Defined.

Lemma get_scores_permutation_witness :
  get_scores ex_bm ["game"; "review"] =v= get_scores ex_bm ["review"; "game"].
Proof.
  apply (get_scores_permutation ex_bm _ _ ex_bm_wf). apply Permutation_swap.
Defined.

Lemma get_scores_tf_mono_witness :
  get_scores ex_bm ["game"; "review"] !!! 1%nat <=
  get_scores (set_tf ex_bm 1 "game" 4) ["game"; "review"] !!! 1%nat.
Proof.
  apply (get_scores_tf_mono ex_bm 1 "game" 4 _ ex_bm_wf); [simpl; lia|vm_compute; lia|].
  intros q Hq. list_elem_cases Hq; qconst.
Defined.

Lemma search_bm25_ok_witness :
  search_bm25 (argsort_stable_impl Qle) ex_bm (take 3 corpus3) ["game"; "review"] 2 =
  Some ((fun i => mkHit (take 3 corpus3 !!! i) (get_scores ex_bm ["game"; "review"] !!! i) "BM25")
  <$> top_k_indices (argsort_stable_impl Qle (get_scores ex_bm ["game"; "review"])) 2).
Proof. apply search_bm25_ok; [exact ex_bm_wf | reflexivity]. Defined.


Lemma search_bm25_best_witness :
  score_at ex_bm ["game"; "review"] 1%nat <=
  hit_score (mkHit (corpus3 !!! 0%nat) (get_scores ex_bm ["game"; "review"] !!! 0%nat) "BM25").
Proof.
  apply (search_bm25_best (argsort_stable_impl Qle) ex_bm corpus3 ["game"; "review"] 2
    (default [] (search_bm25 (argsort_stable_impl Qle) ex_bm corpus3 ["game"; "review"] 2)));
    [exact ex_bm_wf | reflexivity | vm_compute; reflexivity | vm_compute; left | simpl; lia |].
  intros h' Hh'. vm_compute in Hh'. list_elem_cases Hh'; vm_compute; discriminate.
Defined.

End Bm25.
