(* ===== verification/Semantic.v ===== *)
(** * Semantic index: [search_sbert] and [cosine_similarity]

    [search_sbert(query, top_k)] (src/app.py:59-70):
    {v
      query_embedding = ASSETS['sbert_model'].encode(query, ...)
      similarities = cosine_similarity(query_embedding.reshape(1, -1),
                                       ASSETS['sbert_embeddings'])[0]
      ranked_indices = np.argsort(similarities)[::-1]
      ... iloc, score, algorithm = 'S-BERT' ...
    v}
    The encoder is a pretrained external artifact: it is the parameter
    [encode : string -> option V], [None] standing for the error it raises.
    [search_sbert] is generic in the similarity function and its score
    type, and ranks with [Ranking.search_rows] exactly as [search_bm25].

    [cosine_similarity] is sklearn's, over the reals: both arguments are
    L2-normalised row by row, a zero norm being replaced by 1
    ([_handle_zeros_in_scale]), so that a zero vector has similarity 0 with
    everything; rows of another dimension than the query raise
    [ValueError] ([None]).  Theorems: the two properties the spec asks of
    the similarity (zero vector, self-similarity 1), the bound [-1, 1]
    (Cauchy-Schwarz on unit vectors), invariance under scaling the query,
    and its consequence that [search_sbert] does not depend on the norm of
    the query embedding. *)

From stdpp Require Import base list strings.
From Stdlib Require Import ZArith QArith Reals Lra Psatz.
From S2P Require Import Prelude Corpus Ranking.

Module Semantic.

Section Search.
Context {V S : Type} `{Inhabited S} {le : relation S}
  (A : argsort_impl le) (encode : string -> option V)
  (similarities_of : V -> option (list S)).

(** [search_sbert] (lines 59-70). *)
Definition search_sbert (corpus : list Document) (query : string) (top_k : Z) : option (list (Hit S)) :=
  query_embedding ← encode query;
  similarities ← similarities_of query_embedding;
  search_rows corpus similarities (A similarities) top_k "S-BERT".

End Search.

(** ** sklearn's [cosine_similarity] over the reals *)

Local Open Scope R_scope.

Definition dot (u v : list R) : R := foldr Rplus 0 (zip_with Rmult u v).

(** [row_norms]: the Euclidean norm of a row. *)
Definition row_norm (v : list R) : R := sqrt (dot v v).

(** [_handle_zeros_in_scale]: a zero norm is replaced by 1. *)
Definition handle_zero (n : R) : R := if Req_EM_T n 0 then 1 else n.

(** [normalize(X, norm='l2')] on one row. *)
Definition normalize (v : list R) : list R := map (fun x => x / handle_zero (row_norm v)) v.

Definition cosine (q d : list R) : R := dot (normalize q) (normalize d).

(** [cosine_similarity(q.reshape(1, -1), embeddings)[0]]; a row whose
    dimension differs from the query's raises [ValueError]. *)
Definition cosine_similarity (embeddings : list (list R)) (q : list R) : option (list R) :=
  if forallb (fun d => Nat.eqb (length d) (length q)) embeddings
  then Some (cosine q <$> embeddings) else None.

#[export] Instance Rle_rel_dec : RelDecision Rle := fun x y => Rle_dec x y.
#[export] Instance Rle_total : Total Rle.
Proof. intros x y. destruct (Rle_lt_dec x y); [left|right]; lra. Qed.
#[export] Instance Rle_transitive : Transitive Rle.
Proof. intros x y z. apply Rle_trans. Qed.
#[export] Instance R_inhabited : Inhabited R := populate 0.

(** ** The dot product *)

Lemma dot_scale_l k u v : dot (map (Rmult k) u) v = k * dot u v.
Proof.
  unfold dot. revert v. induction u as [|x u IH]; intros [|y v]; simpl; try ring.
  rewrite IH. ring.
Qed.

Lemma dot_comm u v : dot u v = dot v u.
Proof.
  unfold dot. revert v. induction u as [|x u IH]; intros [|y v]; try done.
  simpl. rewrite IH. ring.
Qed.

Lemma dot_scale_r k u v : dot u (map (Rmult k) v) = k * dot u v.
Proof. by rewrite dot_comm, dot_scale_l, dot_comm. Qed.

Lemma dot_self_nonneg u : 0 <= dot u u.
Proof. induction u as [|x u IH]; unfold dot in *; simpl; nra. Qed.

(** A vector of zero norm is orthogonal to every vector. *)
Lemma dot_self_zero u v : dot u u = 0 -> dot u v = 0.
Proof.
  revert v. induction u as [|x u IH]; intros [|y v]; unfold dot in *; simpl; try lra.
  intros Hz. pose proof (dot_self_nonneg u) as Hn. unfold dot in Hn.
  assert (x = 0) as -> by nra. rewrite IH; [ring|nra].
Qed.

(** [|u - t v|^2], expanded. *)
Lemma dot_diff u v t :
  length u = length v ->
  dot (zip_with (fun x y => x - t * y) u v) (zip_with (fun x y => x - t * y) u v) =
    dot u u - 2 * t * dot u v + t * t * dot v v.
Proof.
  revert v. induction u as [|x u IH]; intros [|y v] Hl; simpl in Hl; try done.
  - unfold dot. simpl. ring.
  - unfold dot in *. simpl. rewrite IH by lia. ring.
Qed.

Lemma row_norm_sq v : row_norm v * row_norm v = dot v v.
Proof. apply sqrt_sqrt, dot_self_nonneg. Qed.

Lemma normalize_scale v : normalize v = map (Rmult (/ handle_zero (row_norm v))) v.
Proof. apply map_ext. intros x. unfold Rdiv. ring. Qed.

Lemma row_norm_nonzero v : dot v v <> 0 -> row_norm v <> 0.
Proof. intros Hv Hn. apply Hv, sqrt_eq_0; [apply dot_self_nonneg|done]. Qed.

Lemma handle_zero_nonzero n : n <> 0 -> handle_zero n = n.
Proof. intros Hn. unfold handle_zero. by destruct (Req_EM_T n 0). Qed.

(** A row of non-zero norm is normalised to a unit vector. *)
Lemma normalize_unit v : dot v v <> 0 -> dot (normalize v) (normalize v) = 1.
Proof.
  intros Hv. pose proof (row_norm_nonzero v Hv) as Hn. pose proof (row_norm_sq v) as Hs.
  rewrite normalize_scale, handle_zero_nonzero, dot_scale_l, dot_scale_r by done.
  rewrite <- Hs. field. done.
Qed.

(** A row of zero norm has similarity 0 on both sides. *)
Lemma cosine_zero_norm q d : dot d d = 0 -> cosine q d = 0 /\ cosine d q = 0.
Proof.
  intros Hd. unfold cosine. rewrite !normalize_scale, dot_scale_l, !dot_scale_r, dot_scale_l.
  rewrite (dot_comm q d), !dot_self_zero by done. lra.
Qed.

Lemma length_normalize v : length (normalize v) = length v.
Proof. apply length_map. Qed.

(** Cauchy-Schwarz for unit vectors. *)
Lemma unit_dot_bound u v :
  length u = length v -> dot u u = 1 -> dot v v = 1 -> -1 <= dot u v <= 1.
Proof.
  intros Hl Hu Hv. pose proof (dot_diff u v 1 Hl) as H1. pose proof (dot_diff u v (-1) Hl) as H2.
  pose proof (dot_self_nonneg (zip_with (fun x y => x - 1 * y) u v)).
  pose proof (dot_self_nonneg (zip_with (fun x y => x - -1 * y) u v)). nra.
Qed.

Lemma dot_self_scale c v : dot (map (Rmult c) v) (map (Rmult c) v) = c * c * dot v v.
Proof. rewrite dot_scale_l, dot_scale_r. ring. Qed.

(** Scaling a row by a positive factor does not change its normalisation. *)
Lemma normalize_pos_scale c v : 0 < c -> dot v v <> 0 -> normalize (map (Rmult c) v) = normalize v.
Proof.
  intros Hc Hv. pose proof (row_norm_nonzero v Hv) as Hn.
  assert (Hcv : dot (map (Rmult c) v) (map (Rmult c) v) <> 0)
    by (rewrite dot_self_scale; apply Rmult_integral_contrapositive; split; [nra|done]).
  assert (Hr : row_norm (map (Rmult c) v) = c * row_norm v).
  { unfold row_norm. rewrite dot_self_scale, sqrt_mult_alt, sqrt_square by nra. done. }
  rewrite !normalize_scale, !handle_zero_nonzero, Hr by (try rewrite Hr; auto using row_norm_nonzero; nra).
  rewrite map_map. apply map_ext. intros x. field. split; [done|lra].
Qed.

(** ** Theorems *)

(** The similarity against a zero vector is 0, on either side. *)
Lemma cosine_zero_vector q n : cosine q (replicate n 0) = 0 /\ cosine (replicate n 0) q = 0.
Proof.
  apply cosine_zero_norm. unfold dot. induction n as [|n IH]; simpl; [done|]. rewrite IH. ring.
Qed.

(** A row of non-zero norm has similarity 1 with itself. *)
Lemma cosine_self d : dot d d <> 0 -> cosine d d = 1.
Proof. apply normalize_unit. Qed.

(** Similarities of rows of the query's dimension lie in [-1, 1]. *)
Lemma cosine_bound q d : length q = length d -> -1 <= cosine q d <= 1.
Proof.
  intros Hl. destruct (Req_EM_T (dot q q) 0) as [Hq|Hq].
  { rewrite (proj2 (cosine_zero_norm d q Hq)). lra. }
  destruct (Req_EM_T (dot d d) 0) as [Hd|Hd].
  { rewrite (proj1 (cosine_zero_norm q d Hd)). lra. }
  apply unit_dot_bound; [by rewrite !length_normalize|by apply normalize_unit..].
Qed.

(** Scaling the query by a positive factor leaves every similarity
    unchanged. *)
Lemma cosine_scale c q d : 0 < c -> cosine (map (Rmult c) q) d = cosine q d.
Proof.
  intros Hc. destruct (Req_EM_T (dot q q) 0) as [Hq|Hq].
  - assert (Hcq : dot (map (Rmult c) q) (map (Rmult c) q) = 0) by (rewrite dot_self_scale, Hq; ring).
    rewrite (proj2 (cosine_zero_norm d _ Hcq)), (proj2 (cosine_zero_norm d _ Hq)). done.
  - unfold cosine. by rewrite normalize_pos_scale.
Qed.

Lemma cosine_similarity_some embeddings q sims :
  cosine_similarity embeddings q = Some sims ->
  sims = cosine q <$> embeddings /\ Forall (fun d => length d = length q) embeddings.
Proof.
  unfold cosine_similarity. destruct (forallb _ _) eqn:F; [|done]. intros [= <-]. split; [done|].
  apply Forall_forall. intros d Hd. apply Nat.eqb_eq.
  apply (proj1 (forallb_forall _ embeddings) F d). by apply list_elem_of_In.
Qed.

(** Every similarity [cosine_similarity] returns lies in [-1, 1]. *)
Theorem similarities_bounded embeddings q sims :
  cosine_similarity embeddings q = Some sims -> Forall (fun s => -1 <= s <= 1) sims.
Proof.
  intros H. destruct (cosine_similarity_some _ _ _ H) as [-> Hd].
  apply Forall_fmap. eapply Forall_impl; [exact Hd|]. intros d Hl. apply cosine_bound. done.
Qed.

(** The spec's self-similarity: when the query embedding is the
    embedding of document [i] (of non-zero norm), document [i] gets
    similarity 1. *)
Theorem similarity_self embeddings q sims i :
  cosine_similarity embeddings q = Some sims -> embeddings !! i = Some q -> dot q q <> 0 ->
  sims !! i = Some 1.
Proof.
  intros H Hi Hq. destruct (cosine_similarity_some _ _ _ H) as [-> _].
  rewrite list_lookup_fmap, Hi. simpl. by rewrite cosine_self.
Qed.

(** The spec's zero-vector convention: a zero row gets similarity 0,
    and a zero query gives 0 for every document. *)
Theorem similarity_zero embeddings q sims :
  cosine_similarity embeddings q = Some sims ->
  (forall i n, embeddings !! i = Some (replicate n 0) -> sims !! i = Some 0) /\
  (q = replicate (length q) 0 -> Forall (fun s => s = 0) sims).
Proof.
  intros H. destruct (cosine_similarity_some _ _ _ H) as [-> _]. split.
  - intros i n Hi. rewrite list_lookup_fmap, Hi. simpl. by rewrite (proj1 (cosine_zero_vector q n)).
  - intros Hq. apply Forall_fmap, Forall_forall. intros d _. simpl.
    rewrite Hq. apply (proj2 (cosine_zero_vector d _)).
Qed.

(** [search_sbert] with sklearn's similarity does not depend on the
    norm of the query embedding: an encoder scaled by a positive factor
    gives the same results, for every argsort implementation. *)
Theorem search_sbert_scale (A : argsort_impl Rle) encode embeddings corpus query top_k c :
  0 < c ->
  search_sbert A (fun q => map (Rmult c) <$> encode q) (cosine_similarity embeddings) corpus query top_k =
    search_sbert A encode (cosine_similarity embeddings) corpus query top_k.
Proof.
  intros Hc. unfold search_sbert. destruct (encode query) as [q|]; simpl; [|done].
  unfold cosine_similarity. rewrite length_map.
  erewrite list_fmap_ext; [done|]. intros i d _. by apply cosine_scale.
Qed.

(** A row of the embedding matrix whose dimension differs from the
    query embedding's makes [cosine_similarity], hence the search, fail. *)
Theorem search_sbert_dim_error (A : argsort_impl Rle) encode embeddings corpus query top_k q d :
  encode query = Some q -> d ∈ embeddings -> length d <> length q ->
  search_sbert A encode (cosine_similarity embeddings) corpus query top_k = None.
Proof.
  intros He Hd Hl. unfold search_sbert. rewrite He. simpl. unfold cosine_similarity.
  destruct (forallb _ embeddings) eqn:F; [|done].
  apply forallb_forall with (x := d) in F; [|by apply list_elem_of_In].
  by apply Nat.eqb_eq in F.
Qed.

(** ** Witnesses *)

Definition ex_embeddings : list (list R) := [[3; 4]; [0; 0]; [4; 3]].

Lemma similarity_self_witness : (cosine [3; 4] <$> ex_embeddings) !! 0%nat = Some 1.
Proof. apply (similarity_self ex_embeddings [3; 4]); [reflexivity|reflexivity|unfold dot; simpl; lra]. Defined.

Lemma similarity_zero_witness :
  (forall i n, ex_embeddings !! i = Some (replicate n 0) -> (cosine [3; 4] <$> ex_embeddings) !! i = Some 0) /\
  ([3; 4] = replicate (length [3; 4]) 0 -> Forall (fun s => s = 0) (cosine [3; 4] <$> ex_embeddings)).
Proof. apply similarity_zero. reflexivity. Defined.

Lemma search_sbert_dim_error_witness :
  search_sbert (argsort_stable_impl Rle) (fun _ => Some [3; 4])
    (cosine_similarity (ex_embeddings ++ [[1; 0; 0]])) corpus3 "game" 2 = None.
Proof.
  apply (search_sbert_dim_error _ _ _ _ _ _ [3; 4] [1; 0; 0]); [reflexivity| |discriminate].
  repeat (first [apply list_elem_of_here | apply list_elem_of_further]).
Defined.

End Semantic.
