(* ===== verification/Assets.v ===== *)
(** * Startup: [load_assets] and the [__main__] block of [app.py]

    [load_assets()] (src/app.py:27-47) fills the global dict [ASSETS]
    (line 23) in four steps: the pickled BM25 model, the corpus DataFrame,
    the embedding matrix, then the model name and the [SentenceTransformer]
    built from it, and prints a success line.  Any exception stops the
    sequence; a [FileNotFoundError] is printed (with its message, which
    names the file) and re-raised as [FileNotFoundError("Gagal memuat
    aset: ...")], any other exception is printed and re-raised as
    [Exception("Gagal memuat model: ...")].  The entries already stored
    stay in [ASSETS].  The [__main__] block (lines 171-178) runs
    [app.run(debug=True)] when [load_assets] returns; an exception of
    either is caught and a fixed message printed.

    The loaders (file reads, unpickling, the encoder's constructor) are
    the fields of a record [Loaders], each returning a value or raising;
    whether [app.run] starts serving or raises is a parameter [app_run].
    The effects of [load_assets] (the mutation of [ASSETS], the printed
    lines, the exception) are a small state and exception monad [M] over
    [AState] with its own notation.  The life of the process is a step
    relation [server_step] (booting, serving, stopped, with the printed
    output); the safety theorem says that every reachable serving state
    holds the four assets the request handlers read.  Flask's debug
    reloader, which runs the module a second time in a child process, is
    not modelled. *)

From stdpp Require Import base gmap strings.
From Stdlib Require Import Ascii String.
From S2P Require Import Prelude.

Module Assets.

(** The exceptions that reach the handlers of [load_assets], with their
    [str(e)]. *)
Inductive Exn :=
| FileNotFoundError (msg : string)
| OtherException (msg : string).

Inductive res (A : Type) :=
| Ok (a : A)
| Raise (e : Exn).
Arguments Ok {A} _.
Arguments Raise {A} _.

Section Load.
Context {Bm Df Emb Mdl : Type}.

(** A value of [ASSETS]. *)
Inductive Asset :=
| ABm25 (b : Bm)
| ACorpus (d : Df)
| AEmbeddings (e : Emb)
| AModel (m : Mdl).


(** What the file system and the libraries answer. *)
Record Loaders := mkLoaders {
  pickle_load_bm25 : res Bm;                  (* lines 30-31 *)
  read_pickle_corpus : res Df;                (* line 33 *)
  np_load_embeddings : res Emb;               (* line 34 *)
  pickle_load_model_name : res string;        (* lines 36-37 *)
  sentence_transformer : string -> res Mdl    (* line 39 *)
}.

(** The state [load_assets] acts on: the global [ASSETS] and the lines
    the process has printed so far. *)
Record AState := mkAState {
  assets : gmap string Asset;
  out : list string
}.

(** The state and exception monad of [load_assets]. *)
Definition M (A : Type) := AState -> res A * AState.

Definition ret {A} (a : A) : M A := fun s => (Ok a, s).

Definition bind {A B} (m : M A) (k : A -> M B) : M B :=
  fun s => match m s with (Ok a, s') => k a s' | (Raise e, s') => (Raise e, s') end.

Definition lift {A} (r : res A) : M A := fun s => (r, s).

Definition raise {A} (e : Exn) : M A := fun s => (Raise e, s).

(** [ASSETS[key] = v]. *)
Definition set_asset (key : string) (v : Asset) : M unit :=
  fun s => (Ok tt, mkAState (<[key := v]> (assets s)) (out s)).

(** [print(msg)]. *)
Definition print (msg : string) : M unit := fun s => (Ok tt, mkAState (assets s) (out s ++ [msg])).

(** [try m except ...: handler(e)]: the store keeps the updates [m] made. *)
Definition catch {A} (m : M A) (handler : Exn -> M A) : M A :=
  fun s => match m s with (Raise e, s') => handler e s' | r => r end.

Declare Scope asset_scope.
Delimit Scope asset_scope with asset.
Notation "x <-- m ;; k" := (bind m (fun x => k))
  (at level 100, m at next level, right associativity) : asset_scope.
Notation "m ;;; k" := (bind m (fun _ => k))
  (at level 100, right associativity) : asset_scope.
Local Open Scope asset_scope.

(** The two [except] clauses of lines 42-47: print the error, then raise
    the wrapped exception. *)
Definition reraise (e : Exn) : M unit :=
  match e with
  | FileNotFoundError msg =>
      print ("ERROR: File aset tidak ditemukan: " ++ msg) ;;;
      raise (FileNotFoundError ("Gagal memuat aset: " ++ msg))
  | OtherException msg =>
      print ("ERROR saat memuat aset: " ++ msg) ;;;
      raise (OtherException ("Gagal memuat model: " ++ msg))
  end.

Definition MSG_LOADED : string := "Semua aset Indexing (BM25 & SBERT) berhasil dimuat".

(** [load_assets] (lines 27-47). *)
Definition load_assets (L : Loaders) : M unit :=
  catch (
    b <-- lift (pickle_load_bm25 L) ;;
    set_asset "bm25_model" (ABm25 b) ;;;
    d <-- lift (read_pickle_corpus L) ;;
    set_asset "corpus_df" (ACorpus d) ;;;
    e <-- lift (np_load_embeddings L) ;;
    set_asset "sbert_embeddings" (AEmbeddings e) ;;;
    model_name <-- lift (pickle_load_model_name L) ;;
    m <-- lift (sentence_transformer L model_name) ;;
    set_asset "sbert_model" (AModel m) ;;;
    print MSG_LOADED) reraise.

(** The state of the process and what it has printed. *)
Inductive Server :=
| Booting
| Serving (assets : gmap string Asset) (printed : list string)
| Stopped (printed : list string).

(** The two messages of lines 176 and 178 (the strings have no [f] prefix). *)
Definition MSG_NOT_FOUND : string :=
  String "010"%char " SERVER GAGAL DIMULAI, model tidak ditemukan: {e}".
Definition MSG_INIT_ERROR : string :=
  String "010"%char " SERVER GAGAL DIMULAI, Terjadi error saat inisialisasi: {e}".

(** The [except] clauses of the [__main__] block. *)
Definition main_message (e : Exn) : string :=
  match e with FileNotFoundError _ => MSG_NOT_FOUND | OtherException _ => MSG_INIT_ERROR end.

(** The [__main__] block (lines 171-178), from the empty [ASSETS]:
    [load_assets()] then [app.run(debug=True)], which serves until the
    process ends or raises when it cannot start ([app_run]); an exception
    of either is caught by the two [except] clauses. *)
Definition startup (L : Loaders) (app_run : res unit) : Server :=
  match load_assets L (mkAState ∅ []) with
  | (Ok _, s) =>
      match app_run with
      | Ok _ => Serving (assets s) (out s)
      | Raise e => Stopped (out s ++ [main_message e])
      end
  | (Raise e, s) => Stopped (out s ++ [main_message e])
  end.

(** The life of the process: it boots with whatever the file system
    holds, then serves requests, which only read [ASSETS]. *)
Inductive server_step : Server -> Server -> Prop :=
| step_boot L app_run : server_step Booting (startup L app_run)
| step_request assets printed : server_step (Serving assets printed) (Serving assets printed).

(** The four entries the request handlers read ([search_bm25],
    [search_sbert], [get_latest_news]). *)
Definition assets_complete (s : gmap string Asset) : Prop :=
  (exists b, s !! "bm25_model" = Some (ABm25 b)) /\
  (exists d, s !! "corpus_df" = Some (ACorpus d)) /\
  (exists e, s !! "sbert_embeddings" = Some (AEmbeddings e)) /\
  (exists m, s !! "sbert_model" = Some (AModel m)).

(** Some loader raised [e]. *)
Definition loader_raised (L : Loaders) (e : Exn) : Prop :=
  pickle_load_bm25 L = Raise e \/ read_pickle_corpus L = Raise e \/ np_load_embeddings L = Raise e \/
  pickle_load_model_name L = Raise e \/ exists name, sentence_transformer L name = Raise e.

(** ** Lemmas *)

(** [load_assets] returns exactly when every loader does, and then holds
    the four assets on top of the store it started from. *)
Lemma load_assets_ok_inv L s u s' :
  load_assets L s = (Ok u, s') ->
  exists b d e name m, pickle_load_bm25 L = Ok b /\ read_pickle_corpus L = Ok d /\
    np_load_embeddings L = Ok e /\ pickle_load_model_name L = Ok name /\
    sentence_transformer L name = Ok m /\
    assets s' = <["sbert_model" := AModel m]> (<["sbert_embeddings" := AEmbeddings e]>
           (<["corpus_df" := ACorpus d]> (<["bm25_model" := ABm25 b]> (assets s)))) /\
    out s' = out s ++ [MSG_LOADED].
Proof.
  unfold load_assets, catch, bind, lift, set_asset, print.
  destruct (pickle_load_bm25 L) as [b|x]; [|by destruct x].
  destruct (read_pickle_corpus L) as [d|x]; [|by destruct x].
  destruct (np_load_embeddings L) as [e|x]; [|by destruct x].
  destruct (pickle_load_model_name L) as [name|x]; [|by destruct x].
  destruct (sentence_transformer L name) as [m|x] eqn:Hm; [|by destruct x].
  intros [= _ <-]. by exists b, d, e, name, m.
Qed.

(** The body of the [try] raises only what a loader raised. *)
Lemma load_body_raise L s e s0 :
  (b <-- lift (pickle_load_bm25 L) ;; set_asset "bm25_model" (ABm25 b) ;;;
   d <-- lift (read_pickle_corpus L) ;; set_asset "corpus_df" (ACorpus d) ;;;
   e <-- lift (np_load_embeddings L) ;; set_asset "sbert_embeddings" (AEmbeddings e) ;;;
   model_name <-- lift (pickle_load_model_name L) ;; m <-- lift (sentence_transformer L model_name) ;;
   set_asset "sbert_model" (AModel m) ;;; print MSG_LOADED) s = (Raise e, s0) ->
  loader_raised L e /\ out s0 = out s.
Proof.
  unfold bind, lift, set_asset, print, loader_raised.
  destruct (pickle_load_bm25 L) as [b|e1] eqn:H1; [|intros [= <- <-]; tauto].
  destruct (read_pickle_corpus L) as [d|e2] eqn:H2; [|intros [= <- <-]; tauto].
  destruct (np_load_embeddings L) as [x|e3] eqn:H3; [|intros [= <- <-]; tauto].
  destruct (pickle_load_model_name L) as [name|e4] eqn:H4; [|intros [= <- <-]; tauto].
  destruct (sentence_transformer L name) as [m|e5] eqn:H5; [done|].
  intros [= <- <-]. split; [eauto 10|done].
Qed.

Lemma assets_complete_inserts s b d e m :
  assets_complete (<["sbert_model" := AModel m]> (<["sbert_embeddings" := AEmbeddings e]>
    (<["corpus_df" := ACorpus d]> (<["bm25_model" := ABm25 b]> s)))).
Proof.
  split_and!; eexists; repeat (rewrite lookup_insert_ne; [|discriminate]); apply lookup_insert_eq.
Qed.

Lemma startup_serving L app_run assets printed :
  startup L app_run = Serving assets printed -> assets_complete assets.
Proof.
  unfold startup. destruct (load_assets L _) as [[u|e] s'] eqn:Hl; [|by destruct e].
  destruct app_run; [|done]. intros [= <- _].
  destruct (load_assets_ok_inv _ _ _ _ Hl) as (b & d & e & n & m & _ & _ & _ & _ & _ & -> & _).
  apply assets_complete_inserts.
Qed.

(** What must hold in each state of the process. *)
Definition server_ok (st : Server) : Prop :=
  match st with Serving assets _ => assets_complete assets | _ => True end.

Lemma server_ok_step x y : server_step x y -> server_ok x -> server_ok y.
Proof.
  destruct 1 as [L app_run|assets printed]; [|done]. intros _.
  destruct (startup L app_run) eqn:Hs; simpl; [done| |done]. by eapply startup_serving.
Qed.

Lemma server_ok_rtc x y : rtc server_step x y -> server_ok x -> server_ok y.
Proof. induction 1; eauto using server_ok_step. Qed.

(** ** Theorems *)

(** (C30) When every loader succeeds, [load_assets] returns, [ASSETS] gains the
    four entries and the success line is printed. *)
Theorem load_assets_ok L s b d e name m :
  pickle_load_bm25 L = Ok b -> read_pickle_corpus L = Ok d -> np_load_embeddings L = Ok e ->
  pickle_load_model_name L = Ok name -> sentence_transformer L name = Ok m ->
  load_assets L s = (Ok tt, mkAState (<["sbert_model" := AModel m]> (<["sbert_embeddings" := AEmbeddings e]>
    (<["corpus_df" := ACorpus d]> (<["bm25_model" := ABm25 b]> (assets s))))) (out s ++ [MSG_LOADED])).
Proof. intros Hb Hd He Hn Hm. unfold load_assets, catch, bind, lift, set_asset, print. by rewrite Hb, Hd, He, Hn, Hm. Qed.

(** (C27) The two [except] clauses of [load_assets]: the exception that
    leaves it wraps one a loader raised, a [FileNotFoundError msg] as
    [FileNotFoundError("Gagal memuat aset: " + msg)] after printing
    ["ERROR: File aset tidak ditemukan: " + msg], any other exception
    [msg] as [Exception("Gagal memuat model: " + msg)] after printing
    ["ERROR saat memuat aset: " + msg]. *)
Theorem load_assets_error L s e' s' :
  load_assets L s = (Raise e', s') ->
  exists msg,
    (loader_raised L (FileNotFoundError msg) /\ e' = FileNotFoundError ("Gagal memuat aset: " ++ msg) /\
     out s' = out s ++ [("ERROR: File aset tidak ditemukan: " ++ msg)%string]) \/
    (loader_raised L (OtherException msg) /\ e' = OtherException ("Gagal memuat model: " ++ msg) /\
     out s' = out s ++ [("ERROR saat memuat aset: " ++ msg)%string]).
Proof.
  unfold load_assets at 1, catch.
  match goal with |- context [match ?x with _ => _ end] => destruct x as [[u|e0] s0] eqn:Hb end; [done|].
  destruct (load_body_raise _ _ _ _ Hb) as [He Hout].
  destruct e0 as [msg|msg]; unfold reraise, bind, print, raise; intros [= <- <-]; exists msg;
    [left|right]; simpl; by rewrite Hout.
Qed.

(** (C31) A failure after the first step leaves the entries already loaded
    in [ASSETS]: a missing corpus leaves the BM25 model stored. *)
Theorem load_assets_partial L s b e :
  pickle_load_bm25 L = Ok b -> read_pickle_corpus L = Raise e ->
  assets (load_assets L s).2 = <["bm25_model" := ABm25 b]> (assets s).
Proof. intros Hb Hd. unfold load_assets, catch, bind, lift, set_asset. rewrite Hb, Hd. by destruct e. Qed.

(** (C7) Safety: in every state the process reaches from boot, whatever the
    file system holds and whether [app.run] starts or not, a serving
    process has the four assets its request handlers read; a failed load
    never serves. *)
Theorem startup_safety st assets printed :
  rtc server_step Booting st -> st = Serving assets printed -> assets_complete assets.
Proof.
  intros Hr ->. change (server_ok (Serving assets printed)). by eapply server_ok_rtc.
Qed.

(** (C28) The output of a start without the BM25 file: [load_assets]
    prints the error, which names the file, then the [__main__] handler
    prints its message with the literal text ["{e}"] (the string has no
    [f] prefix), and the server does not start. *)
Theorem startup_missing_file L app_run msg :
  pickle_load_bm25 L = Raise (FileNotFoundError msg) ->
  startup L app_run = Stopped [("ERROR: File aset tidak ditemukan: " ++ msg)%string; MSG_NOT_FOUND].
Proof. intros Hb. unfold startup, load_assets, catch, bind, lift. by rewrite Hb. Qed.

End Load.

Arguments Asset : clear implicits.
Arguments Loaders : clear implicits.
Arguments Server : clear implicits.
Arguments AState : clear implicits.

(** ** Witnesses *)

(** A file system where every file is present, and one where the pickled
    BM25 model is missing. *)
Definition ex_loaders : Loaders unit unit unit unit :=
  mkLoaders (Ok tt) (Ok tt) (Ok tt) (Ok "paraphrase-multilingual-MiniLM-L12-v2") (fun _ => Ok tt).
Definition ex_missing_bm25 : Loaders unit unit unit unit :=
  mkLoaders (Raise (FileNotFoundError "[Errno 2] No such file or directory: 'models/bm25_model.pkl'"))
    (Ok tt) (Ok tt) (Ok "paraphrase-multilingual-MiniLM-L12-v2") (fun _ => Ok tt).
Definition ex_missing_corpus : Loaders unit unit unit unit :=
  mkLoaders (Ok tt) (Raise (FileNotFoundError "[Errno 2] No such file or directory: 'models/df_corpus.pkl'"))
    (Ok tt) (Ok "paraphrase-multilingual-MiniLM-L12-v2") (fun _ => Ok tt).

Lemma load_assets_ok_witness :
  load_assets ex_loaders (mkAState ∅ []) = (Ok tt, mkAState (<["sbert_model" := AModel tt]> (<["sbert_embeddings" := AEmbeddings tt]>
    (<["corpus_df" := ACorpus tt]> (<["bm25_model" := ABm25 tt]> ∅)))) ([] ++ [MSG_LOADED])).
Proof. apply (load_assets_ok ex_loaders (mkAState ∅ []) tt tt tt "paraphrase-multilingual-MiniLM-L12-v2" tt); reflexivity. Defined.

Lemma load_assets_error_witness :
  exists msg,
    (loader_raised ex_missing_corpus (FileNotFoundError msg) /\
     FileNotFoundError ("Gagal memuat aset: " ++ "[Errno 2] No such file or directory: 'models/df_corpus.pkl'")
       = FileNotFoundError ("Gagal memuat aset: " ++ msg) /\
     out (load_assets ex_missing_corpus (mkAState ∅ [])).2 = [] ++ [("ERROR: File aset tidak ditemukan: " ++ msg)%string]) \/
    (loader_raised ex_missing_corpus (OtherException msg) /\
     FileNotFoundError ("Gagal memuat aset: " ++ "[Errno 2] No such file or directory: 'models/df_corpus.pkl'")
       = OtherException ("Gagal memuat model: " ++ msg) /\
     out (load_assets ex_missing_corpus (mkAState ∅ [])).2 = [] ++ [("ERROR saat memuat aset: " ++ msg)%string]).
Proof. apply (load_assets_error ex_missing_corpus (mkAState ∅ [])). reflexivity. Defined.

Lemma load_assets_partial_witness :
  assets (load_assets ex_missing_corpus (mkAState ∅ [])).2 = <["bm25_model" := ABm25 tt]> ∅.
Proof. apply (load_assets_partial _ (mkAState ∅ []) tt (FileNotFoundError "[Errno 2] No such file or directory: 'models/df_corpus.pkl'")); reflexivity. Defined.

Lemma startup_safety_witness :
  assets_complete (<["sbert_model" := AModel tt]> (<["sbert_embeddings" := AEmbeddings tt]>
    (<["corpus_df" := ACorpus tt]> (<["bm25_model" := @ABm25 unit unit unit unit tt]> ∅)))).
Proof.
  apply (startup_safety (startup ex_loaders (Ok tt)) _ [MSG_LOADED]).
  - apply rtc_once, step_boot.
  - reflexivity.
Defined.

Lemma startup_missing_file_witness :
  startup ex_missing_bm25 (Ok tt) =
  Stopped [("ERROR: File aset tidak ditemukan: " ++ "[Errno 2] No such file or directory: 'models/bm25_model.pkl'")%string; MSG_NOT_FOUND].
Proof. apply startup_missing_file. reflexivity. Defined.

End Assets.
