(* ===== verification/Hybrid.v ===== *)
(** * Hybrid ranker: [run_combined_search]

    [run_combined_search(raw_query, top_k=50)] (src/app.py:72-91):
    {v
      bm25_query_tokens = str(raw_query).lower().split()
      bm25_results = search_bm25(bm25_query_tokens, top_k)
      sbert_results = search_sbert(raw_query, top_k)
      ... reset_index(drop=True) ...
      combined_df = pd.concat([bm25_results, sbert_results])
      combined_df['rank'] = combined_df.groupby('algorithm').cumcount() + 1
      combined_df = combined_df.sort_values(by='algorithm', ascending=False)
      return combined_df[[...8 columns...]].to_dict('records')
    v}
    The two searches are parameters of the section (any functions of the
    right type, [None] standing for an exception they raise), so the
    theorems hold for [Bm25.search_bm25] and for any semantic search.
    [groupby('algorithm').cumcount()] is [cumcount_go] with a counter per
    label (a [gmap string nat]).  [sort_values] with the default quicksort
    is not stable: its contract [SortValues.is_sort_desc] (a permutation sorted by
    label, descending) is all the theorems assume; [sort_desc_stable] (an
    insertion sort keeping the order of equal labels, pandas' kind='stable')
    is one implementation, [sort_desc_unstable] (equal labels reversed)
    another. *)

From stdpp Require Import base list gmap strings sorting.
From Stdlib Require Import ZArith QArith String Lia.
From S2P Require Import Prelude Corpus SortValues Tokenize Ranking Bm25 Semantic.
Local Open Scope nat_scope.

Module Hybrid.

(** The labels written by [search_bm25] and [search_sbert]. *)
Definition BM25_LABEL : string := "BM25".
Definition SBERT_LABEL : string := "S-BERT".

(** A row of [combined_df] after the [rank] column is added. *)
Record Ranked (S : Type) := mkRanked { rk_hit : Hit S; rk_rank : nat }.
Arguments mkRanked {S} _ _.
Arguments rk_hit {S} _.
Arguments rk_rank {S} _.

(** One record of [to_dict('records')] over the eight selected columns. *)
Record SearchRecord (S : Type) := mkSearchRecord {
sr_judul : string; sr_url : string; sr_score : S; sr_algorithm : string;
sr_sumber : string; sr_tanggal_terbit : string; sr_rank : nat; sr_url_thumbnail : string
}.
Arguments mkSearchRecord {S} _ _ _ _ _ _ _ _.
Arguments sr_algorithm {S} _.
Arguments sr_rank {S} _.
Arguments sr_score {S} _.

Section Rows.
Context {S : Type}.

Definition rk_label (r : Ranked S) : string := hit_algorithm (rk_hit r).

(** [groupby('algorithm').cumcount() + 1]: the number of earlier rows with
the same label, plus one. *)
Fixpoint cumcount_go (seen : gmap string nat) (rows : list (Hit S)) : list (Ranked S) :=
match rows with
| [] => []
| h :: rs =>
  let c := default 0 (seen !! hit_algorithm h) in
  mkRanked h (c + 1) :: cumcount_go (<[hit_algorithm h := Nat.succ c]> seen) rs
end.

Definition assign_rank (rows : list (Hit S)) : list (Ranked S) := cumcount_go ∅ rows.

(** The projection on the eight columns of app.py:89-91. *)
Definition project (r : Ranked S) : SearchRecord S :=
let d := hit_doc (rk_hit r) in
mkSearchRecord (judul d) (url d) (hit_score (rk_hit r)) (rk_label r)
(sumber d) (tanggal_terbit d) (rk_rank r) (url_thumbnail d).


(** ** [groupby('algorithm').cumcount()] *)

(** The counters after a run of rows. *)
Definition count_after (seen : gmap string nat) (rows : list (Hit S)) : gmap string nat :=
foldl (fun m h => <[hit_algorithm h := Nat.succ (default 0 (m !! hit_algorithm h))]> m) seen rows.

Lemma cumcount_go_hits seen rows : rk_hit <$> cumcount_go seen rows = rows.
Proof. revert seen. induction rows; intros; simpl; [done|]. by f_equal. Qed.

Lemma cumcount_go_app seen l1 l2 :
  cumcount_go seen (l1 ++ l2) = cumcount_go seen l1 ++ cumcount_go (count_after seen l1) l2.
Proof. revert seen. induction l1; intros; simpl; [done|]. by f_equal. Qed.

Lemma count_after_other seen rows a :
  Forall (fun h => hit_algorithm h <> a) rows -> count_after seen rows !! a = seen !! a.
Proof.
  revert seen. induction rows as [|h rows IH]; intros seen Hr; simpl; [done|].
  apply Forall_cons in Hr as [Hh Hr]. rewrite IH by done. by rewrite lookup_insert_ne.
Qed.

(** A run of rows with one label is numbered on from its counter. *)
Lemma cumcount_single seen rows a :
  Forall (fun h => hit_algorithm h = a) rows ->
  rk_rank <$> cumcount_go seen rows = seq (default 0 (seen !! a) + 1) (List.length rows).
Proof.
  revert seen. induction rows as [|h rows IH]; intros seen Hr; simpl; [done|].
  apply Forall_cons in Hr as [Hh Hr]. rewrite Hh. f_equal.
  rewrite IH by done. by rewrite lookup_insert_eq.
Qed.

(** The numbering of a run only reads the counters of its own labels. *)
Lemma cumcount_go_ext seen seen' rows :
  (forall h, h ∈ rows -> seen !! hit_algorithm h = seen' !! hit_algorithm h) ->
  cumcount_go seen rows = cumcount_go seen' rows.
Proof.
  revert seen seen'. induction rows as [|h rows IH]; intros seen seen' Hs; simpl; [done|].
  rewrite (Hs h) by constructor. f_equal. apply IH. intros h' Hh'.
  destruct (decide (hit_algorithm h = hit_algorithm h')) as [E|E].
  - by rewrite E, !lookup_insert_eq.
  - rewrite !lookup_insert_ne by done. apply Hs. by constructor.
Qed.

Lemma assign_rank_blocks bm sb a b :
  a <> b -> Forall (fun h => hit_algorithm h = a) bm -> Forall (fun h => hit_algorithm h = b) sb ->
  assign_rank (bm ++ sb) = assign_rank bm ++ assign_rank sb.
Proof.
  intros Hab Hbm Hsb. unfold assign_rank. rewrite cumcount_go_app. f_equal.
  apply cumcount_go_ext. intros h Hh. rewrite Forall_forall in Hsb. rewrite (Hsb h Hh).
  apply count_after_other. eapply Forall_impl; [exact Hbm|]. intros h' ->. done.
Qed.

Lemma assign_rank_labels rows : rk_label <$> assign_rank rows = hit_algorithm <$> rows.
Proof.
  unfold rk_label. rewrite <- (cumcount_go_hits ∅ rows) at 2. unfold assign_rank.
  by rewrite <- list_fmap_compose.
Qed.

Lemma assign_rank_ranks rows a :
  Forall (fun h => hit_algorithm h = a) rows ->
  rk_rank <$> assign_rank rows = seq 1 (List.length rows).
Proof. intros. unfold assign_rank. by rewrite (cumcount_single _ _ a). Qed.

(** Every row of a result carries label [a]. *)
Definition labelled (a : string) (rows : list (Hit S)) : Prop :=
Forall (fun h => hit_algorithm h = a) rows.

Lemma assign_rank_labelled a rows :
  labelled a rows -> Forall (fun r => rk_label r = a) (assign_rank rows).
Proof.
  intros H. unfold labelled in H. rewrite <- (cumcount_go_hits ∅ rows) in H.
  apply Forall_fmap in H. exact H.
Qed.

Lemma cumcount_go_rank_pos seen rows : Forall (fun r => 1 <= rk_rank r) (cumcount_go seen rows).
Proof. revert seen. induction rows; intros; simpl; constructor; [simpl; lia|done]. Qed.

Lemma SBERT_above_BM25 : String.leb SBERT_LABEL BM25_LABEL = false.
Proof. reflexivity. Qed.

Lemma filter_blocks bm sb :
  labelled BM25_LABEL bm -> labelled SBERT_LABEL sb ->
  List.filter (has_key rk_label SBERT_LABEL) (assign_rank bm ++ assign_rank sb) = assign_rank sb /\
  List.filter (has_key rk_label BM25_LABEL) (assign_rank bm ++ assign_rank sb) = assign_rank bm.
Proof.
  intros Hbm Hsb. apply assign_rank_labelled in Hbm, Hsb.
  rewrite !list_filter_app.
  rewrite (list_filter_all_false _ (assign_rank bm)), (list_filter_all_true _ (assign_rank sb)),
    (list_filter_all_true _ (assign_rank bm)), (list_filter_all_false _ (assign_rank sb));
    rewrite ?app_nil_r; try done.
  all: eapply Forall_impl; [eassumption|]; intros r Hr; unfold has_key; rewrite Hr; done.
Qed.

End Rows.

Section Combined.
Context {S : Type}.
Context (search_bm25 : list string -> Z -> option (list (Hit S)))
    (search_sbert : string -> Z -> option (list (Hit S)))
    (sort_values : sort_values_impl (@rk_label S)).

Definition run_combined_search (raw_query : string) (top_k : Z) : option (list (SearchRecord S)) :=
bm25_results ← search_bm25 (Tokenize.tokenize raw_query) top_k;
sbert_results ← search_sbert raw_query top_k;
let combined_df := assign_rank (bm25_results ++ sbert_results) in
Some (project <$> sort_values combined_df).

(** The two searches of one query succeed with correctly labelled rows. *)
Definition searches_ok (raw_query : string) (top_k : Z) (bm sb : list (Hit S)) : Prop :=
search_bm25 (Tokenize.tokenize raw_query) top_k = Some bm /\ labelled BM25_LABEL bm /\
search_sbert raw_query top_k = Some sb /\ labelled SBERT_LABEL sb.

Lemma run_combined_search_eq raw_query top_k bm sb :
  searches_ok raw_query top_k bm sb ->
  run_combined_search raw_query top_k = Some (project <$> sort_values (assign_rank bm ++ assign_rank sb)).
Proof.
  intros (Hb & Hbl & Hs & Hsl). unfold run_combined_search. rewrite Hb, Hs. simpl.
  by rewrite (assign_rank_blocks bm sb BM25_LABEL SBERT_LABEL).
Qed.

(** (C1) Grouping, for any [sort_values] meeting its contract: the result is
the S-BERT block followed by the BM25 block, each block holding exactly
the rows of its search with their per-algorithm ranks. *)
Theorem combined_blocks raw_query top_k bm sb :
  searches_ok raw_query top_k bm sb ->
  exists sbert_block bm25_block,
  run_combined_search raw_query top_k = Some (project <$> (sbert_block ++ bm25_block)) /\
  sbert_block ≡ₚ assign_rank sb /\ bm25_block ≡ₚ assign_rank bm.
Proof.
  intros Hok. rewrite (run_combined_search_eq _ _ _ _ Hok).
  destruct Hok as (_ & Hbl & _ & Hsl).
  set (ranked := assign_rank bm ++ assign_rank sb).
  destruct (sort_values_ok _ sort_values ranked) as [Hp Hs].
  assert (Hk : Forall (fun r => rk_label r = SBERT_LABEL \/ rk_label r = BM25_LABEL) (sort_values ranked)).
  { rewrite Hp. apply Forall_app. split.
  - eapply Forall_impl; [by apply assign_rank_labelled|]. intros; by right.
  - eapply Forall_impl; [by apply assign_rank_labelled|]. intros; by left. }
      rewrite (sorted_two_labels rk_label _ _ SBERT_above_BM25 _ Hk Hs).
    eexists _, _. split; [reflexivity|].
    destruct (filter_blocks bm sb Hbl Hsl) as [E1 E2].
    split; [rewrite <- E1 | rewrite <- E2]; by apply list_filter_Permutation.
Qed.

(** The number of records is the sum of the two searches' rows (no
deduplication). *)
Theorem combined_length raw_query top_k bm sb :
  searches_ok raw_query top_k bm sb ->
  exists out, run_combined_search raw_query top_k = Some out /\
  List.length out = List.length bm + List.length sb.
Proof.
  intros Hok. rewrite (run_combined_search_eq _ _ _ _ Hok). eexists; split; [reflexivity|].
  destruct (sort_values_ok _ sort_values (assign_rank bm ++ assign_rank sb)) as [Hp _].
  rewrite length_fmap, Hp, length_app. unfold assign_rank.
  rewrite <- (length_fmap rk_hit (cumcount_go ∅ bm)), <- (length_fmap rk_hit (cumcount_go ∅ sb)).
  by rewrite !cumcount_go_hits.
Qed.

(** The records of one algorithm are the projections of its ranked rows. *)
Lemma filter_project (a : string) (xs : list (Ranked S)) :
  List.filter (fun r => String.eqb (sr_algorithm r) a) (project <$> xs) =
  project <$> List.filter (has_key rk_label a) xs.
Proof.
  induction xs as [|x xs IH]; [done|]. cbn [fmap list_fmap List.filter]. unfold has_key.
  change (sr_algorithm (project x)) with (rk_label x).
  destruct (String.eqb (rk_label x) a); [cbn [fmap list_fmap]; f_equal|]; exact IH.
Qed.

(** (C4) The records have the type of the spec's Candidate Result, for any
[sort_values] meeting its contract: the algorithm is one of the two labels,
and the ranks of each algorithm's records are [1..k] for its [k] rows, in
some order. *)
Theorem combined_records_typed raw_query top_k bm sb :
  searches_ok raw_query top_k bm sb ->
  exists out, run_combined_search raw_query top_k = Some out /\
  Forall (fun r => sr_algorithm r = SBERT_LABEL \/ sr_algorithm r = BM25_LABEL) out /\
  sr_rank <$> List.filter (fun r => String.eqb (sr_algorithm r) SBERT_LABEL) out ≡ₚ seq 1 (List.length sb) /\
  sr_rank <$> List.filter (fun r => String.eqb (sr_algorithm r) BM25_LABEL) out ≡ₚ seq 1 (List.length bm).
Proof.
  intros Hok. rewrite (run_combined_search_eq _ _ _ _ Hok). eexists; split; [reflexivity|].
  destruct Hok as (_ & Hbl & _ & Hsl).
  destruct (sort_values_ok _ sort_values (assign_rank bm ++ assign_rank sb)) as [Hp _].
  destruct (filter_blocks bm sb Hbl Hsl) as [E1 E2].
  rewrite !filter_project, <- !list_fmap_compose. change (sr_rank ∘ project) with (@rk_rank S).
  split_and!.
  - apply Forall_fmap. rewrite Hp. apply Forall_app. split.
    + eapply Forall_impl; [by apply assign_rank_labelled|]. intros r Hr. right. exact Hr.
    + eapply Forall_impl; [by apply assign_rank_labelled|]. intros r Hr. left. exact Hr.
  - rewrite (list_filter_Permutation (has_key rk_label SBERT_LABEL) _ _ Hp).
    by rewrite E1, (assign_rank_ranks sb SBERT_LABEL Hsl).
  - rewrite (list_filter_Permutation (has_key rk_label BM25_LABEL) _ _ Hp).
    by rewrite E2, (assign_rank_ranks bm BM25_LABEL Hbl).
Qed.

(** A failing semantic search (the encoder's error) fails the whole
search: there is no lexical-only fallback. *)
Theorem combined_sbert_error raw_query top_k :
  search_sbert raw_query top_k = None -> run_combined_search raw_query top_k = None.
Proof.
  intros Hs. unfold run_combined_search.
  destruct (search_bm25 _ _); simpl; [by rewrite Hs | done].
Qed.

End Combined.

(** (C2) With pandas' stable sort the records are the S-BERT rows ranked
  1..k in order, then the BM25 rows ranked 1..k in order. *)
Theorem combined_stable {S} search_bm25 search_sbert raw_query top_k (bm sb : list (Hit S)) :
  searches_ok search_bm25 search_sbert raw_query top_k bm sb ->
  run_combined_search search_bm25 search_sbert (sort_values_stable rk_label) raw_query top_k =
  Some (project <$> (assign_rank sb ++ assign_rank bm)) /\
  (sr_rank <$> (project <$> (assign_rank sb ++ assign_rank bm))) =
  seq 1 (List.length sb) ++ seq 1 (List.length bm).
Proof.
  intros Hok. pose proof Hok as (_ & Hbl & _ & Hsl).
  rewrite (run_combined_search_eq _ _ _ _ _ _ _ Hok). simpl. split.
  - rewrite (sort_desc_stable_blocks rk_label SBERT_LABEL BM25_LABEL SBERT_above_BM25); [done| |];
      by apply assign_rank_labelled.
  - rewrite !fmap_app, <- !list_fmap_compose.
    change (sr_rank ∘ project) with (@rk_rank S).
    rewrite (assign_rank_ranks sb SBERT_LABEL), (assign_rank_ranks bm BM25_LABEL) by done.
    done.
Qed.

(** (C3) Divergence from the spec: [sort_values] with pandas' default
  quicksort kind promises only the sort contract, and the implementation
  [sort_values_unstable], which meets it, lists each block in descending
  rank order: the S-BERT ranks k..1, then the BM25 ranks k..1. *)
Theorem combined_unstable_ranks {S} search_bm25 search_sbert raw_query top_k (bm sb : list (Hit S)) :
  searches_ok search_bm25 search_sbert raw_query top_k bm sb ->
  run_combined_search search_bm25 search_sbert (sort_values_unstable rk_label) raw_query top_k =
  Some (project <$> (reverse (assign_rank sb) ++ reverse (assign_rank bm))) /\
  (sr_rank <$> (project <$> (reverse (assign_rank sb) ++ reverse (assign_rank bm)))) =
  reverse (seq 1 (List.length sb)) ++ reverse (seq 1 (List.length bm)).
Proof.
  intros Hok. pose proof Hok as (_ & Hbl & _ & Hsl).
  rewrite (run_combined_search_eq _ _ _ _ _ _ _ Hok). simpl. split.
  - rewrite (sort_desc_unstable_blocks rk_label SBERT_LABEL BM25_LABEL SBERT_above_BM25); [done| |];
      by apply assign_rank_labelled.
  - rewrite !fmap_app, <- !list_fmap_compose, !fmap_reverse.
    change (sr_rank ∘ project) with (@rk_rank S).
    by rewrite (assign_rank_ranks sb SBERT_LABEL), (assign_rank_ranks bm BM25_LABEL).
Qed.

(** ** The engine on the three-document corpus *)

(** An encoder that cannot embed the empty text, giving the similarity
    vector of the query directly. *)
Definition ex_similarities (q : string) : option (list Q) :=
if String.eqb q "" then None else Some [1 # 2; 1 # 4; 3 # 4]%Q.

Definition ex_search_bm25 := Bm25.search_bm25 (argsort_stable_impl Qle) Bm25.ex_bm corpus3.
Definition ex_search_sbert :=
  Semantic.search_sbert (argsort_stable_impl Qle) ex_similarities (fun sims => Some sims) corpus3.

Definition ex_query : string := "Game REVIEW".

Definition ex_bm25_hits : list (Hit Q) :=
Eval vm_compute in default [] (ex_search_bm25 (Tokenize.tokenize ex_query) 2).
Definition ex_sbert_hits : list (Hit Q) :=
Eval vm_compute in default [] (ex_search_sbert ex_query 2).

Lemma ex_searches_ok : searches_ok ex_search_bm25 ex_search_sbert ex_query 2 ex_bm25_hits ex_sbert_hits.
Proof. repeat split; try reflexivity; repeat constructor. Qed.

Lemma combined_unstable_ranks_witness :
  run_combined_search ex_search_bm25 ex_search_sbert (sort_values_unstable rk_label) ex_query 2 =
  Some (project <$> (reverse (assign_rank ex_sbert_hits) ++ reverse (assign_rank ex_bm25_hits))) /\
  (sr_rank <$> (project <$> (reverse (assign_rank ex_sbert_hits) ++ reverse (assign_rank ex_bm25_hits)))) =
  reverse (seq 1 (List.length ex_sbert_hits)) ++ reverse (seq 1 (List.length ex_bm25_hits)).
Proof. exact (combined_unstable_ranks _ _ _ _ _ _ ex_searches_ok). Defined.

Lemma combined_blocks_witness :
  exists sbert_block bm25_block,
  run_combined_search ex_search_bm25 ex_search_sbert (sort_values_unstable rk_label) ex_query 2
  = Some (project <$> (sbert_block ++ bm25_block)) /\
  sbert_block ≡ₚ assign_rank ex_sbert_hits /\ bm25_block ≡ₚ assign_rank ex_bm25_hits.
Proof. exact (combined_blocks _ _ (sort_values_unstable rk_label) _ _ _ _ ex_searches_ok). Defined.

Lemma combined_length_witness :
  exists out, run_combined_search ex_search_bm25 ex_search_sbert (sort_values_stable rk_label) ex_query 2 = Some out /\
  List.length out = List.length ex_bm25_hits + List.length ex_sbert_hits.
Proof. exact (combined_length _ _ (sort_values_stable rk_label) _ _ _ _ ex_searches_ok). Defined.

Lemma combined_sbert_error_witness :
  run_combined_search ex_search_bm25 ex_search_sbert (sort_values_stable rk_label) "" 2 = None.
Proof. apply combined_sbert_error. reflexivity. Defined.

Lemma combined_records_typed_witness :
  exists out, run_combined_search ex_search_bm25 ex_search_sbert (sort_values_unstable rk_label) ex_query 2 = Some out /\
  Forall (fun r => sr_algorithm r = SBERT_LABEL \/ sr_algorithm r = BM25_LABEL) out /\
  sr_rank <$> List.filter (fun r => String.eqb (sr_algorithm r) SBERT_LABEL) out ≡ₚ seq 1 (List.length ex_sbert_hits) /\
  sr_rank <$> List.filter (fun r => String.eqb (sr_algorithm r) BM25_LABEL) out ≡ₚ seq 1 (List.length ex_bm25_hits).
Proof. exact (combined_records_typed _ _ (sort_values_unstable rk_label) _ _ _ _ ex_searches_ok). Defined.

Lemma combined_stable_witness :
  run_combined_search ex_search_bm25 ex_search_sbert (sort_values_stable rk_label) ex_query 2 =
  Some (project <$> (assign_rank ex_sbert_hits ++ assign_rank ex_bm25_hits)) /\
  (sr_rank <$> (project <$> (assign_rank ex_sbert_hits ++ assign_rank ex_bm25_hits))) =
  seq 1 (List.length ex_sbert_hits) ++ seq 1 (List.length ex_bm25_hits).
Proof. exact (combined_stable _ _ _ _ _ _ ex_searches_ok). Defined.

End Hybrid.
