(* ===== verification/Paginate.v ===== *)
(** * Pagination: the [/search] handler [search_results]

    [search_results] (src/app.py:131-163) reads [query] and
    [page = request.args.get('page', 1, type=int)], runs
    [run_combined_search(query, top_k=50)], computes
    [total_pages = math.ceil(total_results / RESULTS_PER_PAGE)] and returns
    the slice [all_results[(page-1)*10 : (page-1)*10 + 10]].  An exception
    of the search is caught and leaves the page empty with zero totals; a
    missing or empty query redirects to the index.

    The search is a parameter ([None] for an exception).  The page argument
    is the raw query-string value ([option string]); [get_page] is
    werkzeug's [type=int] conversion: [int(value)] ([PyInt.py_int]), with
    the default 1 when the argument is missing or [int] raises
    [ValueError].  The slice is Python's ([Prelude.py_slice]), so a
    negative page counts from the end of the list. *)

From Stdlib Require Import ZArith QArith Qround String Lia.
From stdpp Require Import base list.
From S2P Require Import Prelude SortValues Ranking Hybrid PyInt.
Local Open Scope Z_scope.

Module Paginate.

(** [RESULTS_PER_PAGE] (src/app.py:21). *)
Definition RESULTS_PER_PAGE : Z := 10.

(** [math.ceil(a / b)] on integers (exact for the sizes at hand). *)
Definition ceil_div (a b : Z) : Z := Qceiling (inject_Z a / inject_Z b).

(** [all_results[start_idx:end_idx]] for a page number. *)
Definition page_slice {R} (all_results : list R) (page : Z) : list R :=
let start_idx := (page - 1) * RESULTS_PER_PAGE in
let end_idx := start_idx + RESULTS_PER_PAGE in
py_slice all_results start_idx end_idx.

(** The handler's answer: the rendered template with its arguments, or
  the redirect to [index]. *)
Inductive Response (R : Type) :=
| Render (results : list R) (query : string) (page total_results total_pages results_per_page : Z)
| RedirectIndex.
Arguments Render {R} _ _ _ _ _ _.
Arguments RedirectIndex {R}.

(** [request.args.get('page', 1, type=int)]: werkzeug's [get] converts
  with [int] and returns the default when the key is missing or the
  conversion raises [ValueError]. *)
Definition get_page (page_arg : option string) : Z :=
match page_arg with
| None => 1
| Some v => default 1 (PyInt.py_int v)
end.

Section Handler.
Context {R : Type} (run_combined_search : string -> option (list R)).

Definition search_results (query : option string) (page_arg : option string) : Response R :=
let page := get_page page_arg in
match query with
| Some q =>
  if String.eqb q "" then RedirectIndex
  else
    match run_combined_search q with
    | Some all_results =>
        let total_results := Z.of_nat (List.length all_results) in
        let total_pages := ceil_div total_results RESULTS_PER_PAGE in
        Render (page_slice all_results page) q page total_results total_pages RESULTS_PER_PAGE
    | None => Render [] q page 0 0 RESULTS_PER_PAGE
    end
| None => RedirectIndex
end.

End Handler.

(** ** Slice arithmetic *)

Lemma py_index_lipschitz n i j :
  0 <= n -> i <= j -> py_index n j - py_index n i <= j - i.
Proof. intros. unfold py_index. destruct (Z.ltb_spec i 0), (Z.ltb_spec j 0); lia. Qed.

Lemma length_py_slice_le {A} (l : list A) i j :
  i <= j -> (length (py_slice l i j) <= Z.to_nat (j - i))%nat.
Proof.
  intros Hij. unfold py_slice. rewrite length_take.
  pose proof (py_index_lipschitz (Z.of_nat (length l)) i j ltac:(lia) Hij). lia.
Qed.

Lemma ceil_div_10 a : ceil_div a 10 = (a + 9) / 10.
Proof.
  unfold ceil_div, Qceiling, Qfloor. simpl. change (Z.pos (1 * 10)) with 10.
  rewrite Z.mul_1_r. pose proof (Z.div_mod (- a) 10). pose proof (Z.mod_pos_bound (- a) 10).
  pose proof (Z.div_mod (a + 9) 10). pose proof (Z.mod_pos_bound (a + 9) 10). lia.
Qed.

Lemma ceil10_bounds a : a <= 10 * ((a + 9) / 10) < a + 10.
Proof. pose proof (Z.div_mod (a + 9) 10). pose proof (Z.mod_pos_bound (a + 9) 10). lia. Qed.

(** Pages [1..m] together are the first [10 m] items. *)
Lemma pages_prefix {A} (l : list A) m :
  mjoin ((fun p => page_slice l (Z.of_nat p)) <$> seq 1 m) = py_slice l 0 (10 * Z.of_nat m).
Proof.
  induction m as [|m IH].
  - simpl. by rewrite py_slice_prefix.
  - rewrite seq_S, fmap_app, join_app, IH. simpl. rewrite app_nil_r.
    unfold page_slice, RESULTS_PER_PAGE.
    replace ((Z.of_nat (S m) - 1) * 10) with (10 * Z.of_nat m) by lia.
    rewrite py_slice_app by lia. f_equal; lia.
Qed.

(** From page 1 on, a page is the ten items from offset [(page-1)*10]. *)
Lemma page_slice_pos {A} (l : list A) page :
  1 <= page -> page_slice l page = take 10 (drop (Z.to_nat ((page - 1) * 10)) l).
Proof.
  intros Hp. unfold page_slice, RESULTS_PER_PAGE. rewrite py_slice_nonneg by lia.
  by replace (Z.to_nat ((page - 1) * 10 + 10) - Z.to_nat ((page - 1) * 10))%nat with 10%nat by lia.
Qed.

(** The rendered [total_pages] is the least number of 10-item pages. *)
Lemma ceil_div_pages (len : nat) :
  Z.of_nat len <= 10 * ceil_div (Z.of_nat len) RESULTS_PER_PAGE < Z.of_nat len + 10.
Proof. unfold RESULTS_PER_PAGE. rewrite ceil_div_10. apply ceil10_bounds. Qed.

(** ** Theorems *)

(** [total_pages] is the least number of 10-item pages holding every
  result. *)
Theorem total_pages_least total :
  0 <= total ->
  total <= RESULTS_PER_PAGE * ceil_div total RESULTS_PER_PAGE /\
  forall p, total <= RESULTS_PER_PAGE * p -> ceil_div total RESULTS_PER_PAGE <= p.
Proof.
  intros. unfold RESULTS_PER_PAGE. rewrite ceil_div_10. pose proof (ceil10_bounds total).
  split; [lia|]. intros; lia.
Qed.

(** (C12) Pages [1..total_pages], concatenated in order, are exactly the
  result list. *)
Theorem pages_concat {A} (all_results : list A) :
  mjoin ((fun p => page_slice all_results (Z.of_nat p))
  <$> seq 1 (Z.to_nat (ceil_div (Z.of_nat (length all_results)) RESULTS_PER_PAGE)))
  = all_results.
Proof.
  rewrite pages_prefix, py_slice_prefix by lia. apply take_ge.
  unfold RESULTS_PER_PAGE. rewrite ceil_div_10.
  pose proof (ceil10_bounds (Z.of_nat (length all_results))). lia.
Qed.

(** A page never holds more than [RESULTS_PER_PAGE] items, whatever the
  page number. *)
Theorem page_slice_length {A} (all_results : list A) page :
  (length (page_slice all_results page) <= 10)%nat.
Proof. unfold page_slice, RESULTS_PER_PAGE. etrans; [apply length_py_slice_le|]; lia. Qed.

(** (C32) A page after the last one is empty. *)
Theorem page_past_last_empty {A} (all_results : list A) page :
  ceil_div (Z.of_nat (length all_results)) RESULTS_PER_PAGE < page ->
  page_slice all_results page = [].
Proof.
  unfold RESULTS_PER_PAGE. rewrite ceil_div_10. intros Hp. unfold page_slice, RESULTS_PER_PAGE.
  pose proof (ceil10_bounds (Z.of_nat (length all_results))). apply py_slice_past_end; lia.
Qed.

(** Page 0 is empty. *)
Theorem page_zero_empty {A} (all_results : list A) : page_slice all_results 0 = [].
Proof.
  unfold page_slice, RESULTS_PER_PAGE. replace ((0 - 1) * 10 + 10) with 0 by lia.
  unfold py_slice. rewrite (py_index_nonneg _ 0) by lia.
  pose proof (py_index_bounds (Z.of_nat (length all_results)) ((0 - 1) * 10)).
  by replace (Z.to_nat _) with 0%nat by lia.
Qed.

(** (C18) Divergence from the spec: page [-1] is not empty.  With at least 20
  results it is the ten items that precede the last ten. *)
Theorem page_minus_one {A} (all_results : list A) :
  (20 <= length all_results)%nat ->
  page_slice all_results (-1) = take 10 (drop (length all_results - 20) all_results) /\
  length (page_slice all_results (-1)) = 10%nat.
Proof.
  intros Hl. unfold page_slice, RESULTS_PER_PAGE, py_slice.
  change ((-1 - 1) * 10) with (-20). change (-20 + 10) with (-10).
  unfold py_index. simpl.
  replace (Z.max 0 (-20 + Z.of_nat (length all_results))) with (Z.of_nat (length all_results) - 20) by lia.
  replace (Z.max 0 (-10 + Z.of_nat (length all_results))) with (Z.of_nat (length all_results) - 10) by lia.
  replace (Z.to_nat (Z.of_nat (length all_results) - 10 - (Z.of_nat (length all_results) - 20))) with 10%nat by lia.
  replace (Z.to_nat (Z.of_nat (length all_results) - 20)) with (length all_results - 20)%nat by lia.
  split; [done|]. rewrite length_take, length_drop. lia.
Qed.

Section HandlerTheorems.
Context {R : Type} (run_combined_search : string -> option (list R)).

(** A successful search renders the requested page with the totals. *)
Theorem search_results_render q page_arg all_results :
  q <> ""%string -> run_combined_search q = Some all_results ->
  search_results run_combined_search (Some q) page_arg =
  Render (page_slice all_results (get_page page_arg)) q (get_page page_arg)
  (Z.of_nat (length all_results)) (ceil_div (Z.of_nat (length all_results)) RESULTS_PER_PAGE)
  RESULTS_PER_PAGE.
Proof.
  intros Hq Hs. unfold search_results. rewrite Hs.
  destruct (String.eqb_spec q ""); [done|]. reflexivity.
Qed.

(** (C29) A failing search is caught: the page renders empty with zero
totals. *)
Theorem search_results_error q page_arg :
  q <> ""%string -> run_combined_search q = None ->
  search_results run_combined_search (Some q) page_arg = Render [] q (get_page page_arg) 0 0 RESULTS_PER_PAGE.
Proof.
  intros Hq Hs. unfold search_results. rewrite Hs.
  destruct (String.eqb_spec q ""); [done|]. reflexivity.
Qed.

(** (C10) A page link [?page=<str(n)>] with [n >= 1] renders page [n]: the
  ten results from offset [(n-1)*10], the result count, and as
  [total_pages] the least number of 10-item pages holding them all. *)
Theorem search_results_page_link q n all_results :
  q <> ""%string -> run_combined_search q = Some all_results -> 1 <= n ->
  exists total_pages,
  search_results run_combined_search (Some q) (Some (PyInt.py_str n)) =
  Render (take 10 (drop (Z.to_nat ((n - 1) * 10)) all_results)) q n
    (Z.of_nat (length all_results)) total_pages 10 /\
  Z.of_nat (length all_results) <= 10 * total_pages < Z.of_nat (length all_results) + 10.
Proof.
  intros Hq Hs Hn. exists (ceil_div (Z.of_nat (length all_results)) RESULTS_PER_PAGE).
  split; [|apply ceil_div_pages].
  unfold search_results, get_page. rewrite PyInt.py_int_py_str, Hs, <- page_slice_pos by done.
  destruct (String.eqb_spec q ""); [done|]. reflexivity.
Qed.

(** (C11) A page argument that [int] rejects is served as page 1: the
  first ten results, with page number 1. *)
Theorem search_results_bad_page q v all_results :
  PyInt.py_int v = None -> q <> ""%string -> run_combined_search q = Some all_results ->
  search_results run_combined_search (Some q) (Some v) =
  Render (take 10 all_results) q 1 (Z.of_nat (length all_results))
    (ceil_div (Z.of_nat (length all_results)) RESULTS_PER_PAGE) 10.
Proof.
  intros Hv Hq Hs. unfold search_results, get_page. rewrite Hv, Hs. simpl default.
  rewrite page_slice_pos by lia. destruct (String.eqb_spec q ""); [done|]. reflexivity.
Qed.

End HandlerTheorems.

(** A missing or empty query redirects to the index, whatever the
  search would do. *)
Theorem search_results_redirect {R} (run_combined_search : string -> option (list R)) page_arg :
  search_results run_combined_search None page_arg = RedirectIndex /\
  search_results run_combined_search (Some ""%string) page_arg = RedirectIndex.
Proof. split; reflexivity. Qed.

(** The spec's scenario: 23 results, page 3 holds offsets 20..22 of
  3 pages; page 10 is empty. *)
Example paginate_scenario :
  page_slice (seq 0 23) 3 = [20; 21; 22]%nat /\ ceil_div 23 RESULTS_PER_PAGE = 3 /\
  page_slice (seq 0 23) 10 = [].
Proof. vm_compute. repeat split. Qed.

(** ** The handler over the example engine *)

(** [run_combined_search(query, top_k=50)] over the example indices. *)
Definition ex_engine (q : string) : option (list (Hybrid.SearchRecord Q)) :=
Hybrid.run_combined_search Hybrid.ex_search_bm25 Hybrid.ex_search_sbert (SortValues.sort_values_stable Hybrid.rk_label) q 50.

Lemma total_pages_least_witness :
  23 <= RESULTS_PER_PAGE * ceil_div 23 RESULTS_PER_PAGE /\
  forall p, 23 <= RESULTS_PER_PAGE * p -> ceil_div 23 RESULTS_PER_PAGE <= p.
Proof. apply total_pages_least. lia. Defined.

Lemma page_past_last_empty_witness : page_slice (seq 0 23) 4 = [].
Proof. apply page_past_last_empty. vm_compute. reflexivity. Defined.

Lemma page_minus_one_witness :
  page_slice (seq 0 23) (-1) = take 10 (drop (length (seq 0 23) - 20) (seq 0 23)) /\
  length (page_slice (seq 0 23) (-1)) = 10%nat.
Proof. apply page_minus_one. rewrite length_seq. lia. Defined.

Lemma search_results_render_witness :
  exists all_results, ex_engine "game"%string = Some all_results /\
  search_results ex_engine (Some "game"%string) (Some "1"%string) =
  Render (page_slice all_results 1) "game" 1 (Z.of_nat (length all_results))
  (ceil_div (Z.of_nat (length all_results)) RESULTS_PER_PAGE) RESULTS_PER_PAGE.
Proof.
  destruct (ex_engine "game"%string) as [all_results|] eqn:E; [|discriminate].
  exists all_results. split; [done|].
  exact (search_results_render ex_engine "game" (Some "1"%string) all_results ltac:(discriminate) E).
Defined.

Lemma search_results_error_witness :
  search_results (fun _ => @None (list nat)) (Some "game"%string) None = Render [] "game" 1 0 0 RESULTS_PER_PAGE.
Proof. apply search_results_error; [discriminate | reflexivity]. Defined.

Lemma search_results_page_link_witness :
  exists all_results, ex_engine "game"%string = Some all_results /\
  exists total_pages,
  search_results ex_engine (Some "game"%string) (Some (PyInt.py_str 2)) =
  Render (take 10 (drop (Z.to_nat ((2 - 1) * 10)) all_results)) "game" 2
    (Z.of_nat (length all_results)) total_pages 10 /\
  Z.of_nat (length all_results) <= 10 * total_pages < Z.of_nat (length all_results) + 10.
Proof.
  destruct (ex_engine "game"%string) as [all_results|] eqn:E; [|discriminate].
  exists all_results. split; [done|].
  exact (search_results_page_link ex_engine "game" 2 all_results ltac:(discriminate) E ltac:(lia)).
Defined.

Lemma search_results_bad_page_witness :
  exists all_results, ex_engine "game"%string = Some all_results /\
  search_results ex_engine (Some "game"%string) (Some "two"%string) =
  Render (take 10 all_results) "game" 1 (Z.of_nat (length all_results))
    (ceil_div (Z.of_nat (length all_results)) RESULTS_PER_PAGE) 10.
Proof.
  destruct (ex_engine "game"%string) as [all_results|] eqn:E; [|discriminate].
  exists all_results. split; [done|].
  apply search_results_bad_page; [vm_compute; reflexivity|discriminate|exact E].
Defined.

End Paginate.
