(* ===== verification/Latest.v ===== *)
(** * Home-page feed: [get_latest_news]

    [get_latest_news(num_items=9)] (src/app.py:93-106) sorts the corpus by
    ['timestamp'] when the DataFrame has that column and by ['id_dokumen']
    otherwise, newest first, then keeps [latest_df.iloc[11:11 + num_items]]
    and projects five columns.  The comment above that line says the feed
    starts at index 4, skipping 3 broken items; the code skips 11.

    The scraper writes no ['timestamp'] column (its header is
    [Corpus.Document]); a corpus that has one is modelled by the column as
    a function [timestamp : Document -> string].  [sort_values] is a family
    of implementations meeting the contract of [SortValues].  The two
    other routes that only render a template are here too: [index] (the
    feed) and [about]. *)

From Stdlib Require Import ZArith String Lia.
From stdpp Require Import base list sorting.
From S2P Require Import Prelude Corpus SortValues.
Local Open Scope Z_scope.

Module Latest.

(** One record of [to_dict('records')] over the five selected columns. *)
Record LatestItem := mkLatestItem {
  li_judul : string; li_url : string; li_url_thumbnail : string;
  li_tanggal_terbit : string; li_sumber : string
}.

Definition project_latest (d : Document) : LatestItem :=
  mkLatestItem (judul d) (url d) (url_thumbnail d) (tanggal_terbit d) (sumber d).

(** The start of the [iloc] slice. *)
Definition FEED_START : Z := 11.

Section Feed.
Context (sort_values : forall key : Document -> string, sort_values_impl key).

(** The sort column: ['timestamp'] when present, else ['id_dokumen']. *)
Definition feed_key (timestamp : option (Document -> string)) : Document -> string :=
  match timestamp with Some ts => ts | None => id_dokumen end.

Definition get_latest_news (timestamp : option (Document -> string)) (corpus : list Document)
    (num_items : Z) : list LatestItem :=
  let latest_df := sort_values (feed_key timestamp) corpus in
  project_latest <$> py_slice latest_df FEED_START (FEED_START + num_items).

(** The [/] route [index()] (lines 109-112): the nine-item feed handed to
    [index.html]. *)
Definition index (timestamp : option (Document -> string)) (corpus : list Document) : list LatestItem :=
  get_latest_news timestamp corpus 9.

(** The [/about] route [about()] (lines 165-167): the template it
    renders, with no argument. *)
Definition about : string := "about.html".

Lemma length_get_latest_news timestamp corpus num_items :
  0 <= num_items ->
  length (get_latest_news timestamp corpus num_items) =
    Nat.min (Z.to_nat num_items) (length corpus - 11).
Proof.
  intros Hn. unfold get_latest_news, FEED_START.
  destruct (sort_values_ok _ (sort_values (feed_key timestamp)) corpus) as [Hp _].
  rewrite length_fmap, length_py_slice_nonneg, Hp by lia. lia.
Qed.

(** The feed has [min(num_items, n - 11)] items: the first 11 rows of
    the sorted corpus are always skipped. *)
Theorem latest_length timestamp corpus num_items :
  0 <= num_items ->
  length (get_latest_news timestamp corpus num_items) =
    Nat.min (Z.to_nat num_items) (length corpus - 11).
Proof. apply length_get_latest_news. Qed.

(** A corpus of at most 11 documents gives an empty feed. *)
Theorem latest_small_corpus_empty timestamp corpus num_items :
  (length corpus <= 11)%nat -> get_latest_news timestamp corpus num_items = [].
Proof.
  intros Hl. unfold get_latest_news, FEED_START.
  destruct (sort_values_ok _ (sort_values (feed_key timestamp)) corpus) as [Hp _].
  rewrite py_slice_past_end; [done|lia|]. rewrite Hp. lia.
Qed.

(** The eleven newest documents never appear: every document shown
    sorts at or below each of the first eleven. *)
Theorem latest_skips_newest timestamp corpus num_items d e :
  d ∈ take 11 (sort_values (feed_key timestamp) corpus) ->
  e ∈ py_slice (sort_values (feed_key timestamp) corpus) FEED_START (FEED_START + num_items) ->
  String.leb (feed_key timestamp e) (feed_key timestamp d) = true.
Proof.
  intros Hd He. pose proof (sort_values_ok _ (sort_values (feed_key timestamp)) corpus) as Hs.
  apply (StronglySorted_take_drop (key_ge (feed_key timestamp)) (sort_values (feed_key timestamp) corpus) 11);
    [by eapply is_sort_desc_strongly|done|].
  eapply elem_of_sublist; [exact He|]. apply (py_slice_sublist_drop _ 11). unfold FEED_START; lia.
Qed.

(** (C22) The feed is the rows at positions [11 .. 10 + num_items] of the
    sorted corpus, for any [sort_values] meeting its contract: the eleven
    newest rows are always skipped (the comment above line 102 says three). *)
Theorem latest_feed_window timestamp corpus num_items :
  0 <= num_items ->
  get_latest_news timestamp corpus num_items =
    project_latest <$> take (Z.to_nat num_items) (drop 11 (sort_values (feed_key timestamp) corpus)).
Proof.
  intros Hn. unfold get_latest_news, FEED_START. rewrite py_slice_nonneg by lia.
  by replace (Z.to_nat (11 + num_items) - Z.to_nat 11)%nat with (Z.to_nat num_items) by lia.
Qed.

End Feed.

(** ** A fifteen-document corpus *)

Definition ex_doc (n : string) : Document :=
  mkDocument ("doc_000" ++ n) "Jagatplay" ("https://jagatplay.com/" ++ n) ("judul " ++ n)
    "konten" "N/A" "N/A".

Definition corpus15 : list Document :=
  ex_doc <$> ["01"; "02"; "03"; "04"; "05"; "06"; "07"; "08"; "09"; "10"; "11"; "12"; "13"; "14"; "15"]%string.

(** pandas' sort, one implementation per column. *)
Definition sort_values_stable_all (key : Document -> string) : sort_values_impl key :=
  sort_values_stable key.

(** Divergence from the comment ("skip 3 broken items"): on fifteen
    documents the feed of nine holds only the four OLDEST ones. *)
Example latest_feed_example :
  li_url <$> get_latest_news sort_values_stable_all None corpus15 9 =
    ["https://jagatplay.com/04"; "https://jagatplay.com/03"; "https://jagatplay.com/02";
     "https://jagatplay.com/01"]%string.
Proof. vm_compute. reflexivity. Qed.

Lemma latest_feed_window_witness :
  0 <= 9 /\ get_latest_news sort_values_stable_all None corpus15 9 =
    project_latest <$> take 9 (drop 11 (sort_values_stable_all (feed_key None) corpus15)).
Proof. split; [lia|]. exact (latest_feed_window sort_values_stable_all None corpus15 9 ltac:(lia)). Defined.

Lemma latest_length_witness :
  length (get_latest_news sort_values_stable_all None corpus15 9) = Nat.min 9 (15 - 11).
Proof. exact (latest_length sort_values_stable_all None corpus15 9 ltac:(lia)). Defined.

Lemma latest_small_corpus_empty_witness :
  get_latest_news sort_values_stable_all None (take 11 corpus15) 9 = [].
Proof. apply latest_small_corpus_empty. simpl. lia. Defined.

Lemma latest_skips_newest_witness :
  String.leb (id_dokumen (ex_doc "04")) (id_dokumen (ex_doc "15")) = true.
Proof.
  apply (latest_skips_newest sort_values_stable_all None corpus15 9 (ex_doc "15") (ex_doc "04")).
  - vm_compute. apply list_elem_of_here.
  - vm_compute. repeat (first [apply list_elem_of_here | apply list_elem_of_further]).
Defined.

End Latest.
