(* ===== verification/Scraper.v ===== *)
(** * Corpus acquisition: the resume loop of [scrape_url.py]

    [main] (src/notebooks/scrape_url.py:190-251) reads the task list with
    [read_all_urls_to_scrape] (lines 38-52), the URLs already in the output
    CSV with [get_already_scraped_urls] (lines 54-70), starts the id counter
    at [len(already_scraped_urls) + 1] (or 1, rewriting the CSV with its
    header only, when the file is missing or no URL was read), and for each
    task skips a URL already seen, fetches it, and on status 200 appends a
    row whose [id_dokumen] is [f"doc_{doc_id_counter:05d}"].

    Modelled: the parsing of the task file ([strip], [split(';', 1)], the
    portal filter), the four outcomes of reading the CSV, the counter and
    the appended rows.  The network and the page are an oracle
    [fetch : string -> FetchOutcome] giving, for each URL, the status code
    and, for each portal, the fields its scraper returns or [None] when the
    scraper raised (caught by the [except] of line 247); [Portals] builds
    this oracle from parsed pages with the five scrapers.  Logging and
    [time.sleep] are not modelled.

    The loop is an executable fold ([scrape_loop]) and a step relation
    ([scrape_step]) over (remaining tasks, state); [scrape_loop_run]
    shows the fold is a run of the relation, and the invariant of
    appended rows is proved by rule induction over stdpp's [rtc].  From it: after
    [main] the URLs of the CSV are unique when the old CSV and the task
    file list each URL once, and the ids are unique when the old CSV was
    numbered [doc_00001..] in order with distinct URLs (with repeated URLs
    they collide, [main_id_collision]); a new URL listed twice in the
    task file is appended twice ([main_duplicate_task]); from
    [doc_100000] on the string order of ids departs from the counter
    order ([format_id_overflow]).  The decimal digits of the id come from
    [PyInt]. *)

From Stdlib Require Import ZArith String Ascii Lia.
From stdpp Require Import base list gmap strings.
From S2P Require Import Prelude Corpus Tokenize PyInt.
Import PyInt.

Module Scraper.

(** [PORTALS_TO_SCRAPE] (lines 18-24). *)
Definition PORTALS_TO_SCRAPE : list string :=
  ["Detik-Inet"; "Gamebrott"; "Kotakgame"; "Indogamers"; "Jagatplay"].

(** ** [read_all_urls_to_scrape] *)

Fixpoint has_semicolon (s : string) : bool :=
  match s with
  | EmptyString => false
  | String c s' => Ascii.eqb c ";" || has_semicolon s'
  end.

(** [s.split(';', 1)] on a string holding a [';']: the text before the
    first [';'] and the text after it. *)
Fixpoint split_once (s : string) : string * string :=
  match s with
  | EmptyString => (EmptyString, EmptyString)
  | String c s' =>
      if Ascii.eqb c ";" then (EmptyString, s')
      else let '(a, b) := split_once s' in (String c a, b)
  end.

Definition mem_string (x : string) (l : list string) : bool := existsb (String.eqb x) l.

(** One line of the crawled-URL file. *)
Definition parse_line (portal_names : list string) (line : string) : option (string * string) :=
  if has_semicolon line then
    let '(portal, u) := split_once (Tokenize.strip line) in
    if mem_string portal portal_names then Some (portal, u) else None
  else None.

(** The task list; [None] is [FileNotFoundError], which gives []. *)
Definition read_all_urls_to_scrape (file : option (list string)) (portal_names : list string)
    : list (string * string) :=
  match file with
  | None => []
  | Some lines => omap (parse_line portal_names) lines
  end.

(** ** The output CSV and [get_already_scraped_urls] *)

(** What [pd.read_csv] finds: no file, an empty file ([EmptyDataError]),
    an unreadable one (any other exception), or a table with or without a
    [url] column. *)
Inductive CsvFile :=
| NoFile
| EmptyFile
| Unreadable
| Table (has_url_column : bool) (rows : list Document).

Definition file_exists (f : CsvFile) : bool :=
  match f with NoFile => false | _ => true end.

Definition get_already_scraped_urls (f : CsvFile) : gset string :=
  match f with
  | Table true rows => list_to_set (url <$> rows)
  | _ => ∅
  end.

Definition csv_rows (f : CsvFile) : list Document :=
  match f with Table _ rows => rows | _ => [] end.

(** ** Ids: [f"doc_{n:05d}"] *)

Fixpoint zeros (k : nat) : string :=
  match k with 0 => EmptyString | S k' => String "0" (zeros k') end.

(** [format(n, '05d')]: zero-padded to at least five digits. *)
Definition pad5 (n : N) : string := (zeros (5 - String.length (decimal n)) ++ decimal n)%string.

Definition format_id (n : N) : string := ("doc_" ++ pad5 n)%string.

(** ** One task *)

(** The fields returned by the portal's [scrape_*_article]. *)
Record ArticleData := mkArticleData {
  a_judul : string; a_konten : string; a_tanggal_terbit : string; a_url_thumbnail : string
}.

(** The oracle's answer for a URL: the response status and the fields the
    portal's scraper extracts from it, or an exception inside [try]. *)
Inductive FetchOutcome :=
| Response (status_code : Z) (data : string -> option ArticleData)
| RequestError.

Record ScrapeState := mkScrapeState {
  csv : list Document;
  doc_id_counter : N;
  newly_scraped_count : nat
}.

(** [data] after the dispatch of lines 224-230: [None] for an unknown
  portal, and [None] when the portal's scraper raised (the exception is
  caught at line 247 and the task skipped, as for [data = None]). *)
Definition dispatch (portal : string) (data : string -> option ArticleData) : option ArticleData :=
  if mem_string portal PORTALS_TO_SCRAPE then data portal else None.

(** The row appended by lines 232-243. *)
Definition new_row (counter : N) (portal u : string) (d : ArticleData) : Document :=
  mkDocument (format_id counter) portal u (a_judul d) (a_konten d) (a_tanggal_terbit d)
    (a_url_thumbnail d).

Definition append_row (st : ScrapeState) (portal u : string) (d : ArticleData) : ScrapeState :=
  mkScrapeState (csv st ++ [new_row (doc_id_counter st) portal u d])
    (doc_id_counter st + 1) (S (newly_scraped_count st)).

(** The body of the [for] loop (lines 211-248). *)
Definition scrape_task (already : gset string) (fetch : string -> FetchOutcome)
    (st : ScrapeState) (task : string * string) : ScrapeState :=
  let '(portal, u) := task in
  if bool_decide (u ∈ already) then st
  else
    match fetch u with
    | RequestError => st
    | Response code data =>
        if negb (code =? 200)%Z then st
        else
          match dispatch portal data with
          | Some d => append_row st portal u d
          | None => st
          end
    end.

Definition scrape_loop (already : gset string) (fetch : string -> FetchOutcome)
    (st : ScrapeState) (tasks : list (string * string)) : ScrapeState :=
  foldl (scrape_task already fetch) st tasks.

(** ** [main] *)

(** The state before the loop (lines 197-206) and the CSV it starts from. *)
Definition init_state (f : CsvFile) : ScrapeState :=
  let already := get_already_scraped_urls f in
  if negb (file_exists f) || bool_decide (already = ∅) then mkScrapeState [] 1 0
  else mkScrapeState (csv_rows f) (N.of_nat (size already) + 1) 0.

Definition main (crawled : option (list string)) (f : CsvFile) (fetch : string -> FetchOutcome)
    : ScrapeState :=
  let all_tasks := read_all_urls_to_scrape crawled PORTALS_TO_SCRAPE in
  scrape_loop (get_already_scraped_urls f) fetch (init_state f) all_tasks.

(** ** The loop as a step relation *)

Section Loop.
Context (already : gset string) (fetch : string -> FetchOutcome).

(** One iteration of the [for] loop, one rule per way out of its body:
    [continue] on a seen URL, an exception, a status other than 200, an
    no data (an unknown portal, or an exception in the portal's scraper),
    and the append. *)
Inductive scrape_step : list (string * string) * ScrapeState -> list (string * string) * ScrapeState -> Prop :=
| step_seen portal u ts st :
    u ∈ already -> scrape_step ((portal, u) :: ts, st) (ts, st)
| step_error portal u ts st :
    u ∉ already -> fetch u = RequestError -> scrape_step ((portal, u) :: ts, st) (ts, st)
| step_status portal u ts st code data :
    u ∉ already -> fetch u = Response code data -> code <> 200%Z ->
    scrape_step ((portal, u) :: ts, st) (ts, st)
| step_no_data portal u ts st data :
    u ∉ already -> fetch u = Response 200 data -> dispatch portal data = None ->
    scrape_step ((portal, u) :: ts, st) (ts, st)
| step_append portal u ts st data d :
    u ∉ already -> fetch u = Response 200 data -> dispatch portal data = Some d ->
    scrape_step ((portal, u) :: ts, st) (ts, append_row st portal u d).

(** The ids [format_id c], ..., [format_id (c + k - 1)]. *)
Fixpoint ids_from (c : N) (k : nat) : list string :=
  match k with 0 => [] | S k' => format_id c :: ids_from (c + 1) k' end.

(** The task a row was scraped from. *)
Definition task_of (d : Document) : string * string := (sumber d, url d).

(** What holds of every state the loop reaches from [(tasks, st0)]: the
    remaining tasks follow the tasks [done] so far; the new rows come from
    distinct positions of [done], in order; the CSV is the initial one
    followed by the new rows, whose ids are consecutive from the initial
    counter, whose URLs were not in the CSV, and which come from a task with
    a known portal; the counter has moved by the number of new rows. *)
Definition loop_inv (tasks : list (string * string)) (st0 : ScrapeState)
    (x : list (string * string) * ScrapeState) : Prop :=
  exists done fresh, tasks = done ++ x.1 /\ task_of <$> fresh `sublist_of` done /\
    csv x.2 = csv st0 ++ fresh /\
    id_dokumen <$> fresh = ids_from (doc_id_counter st0) (newly_scraped_count x.2 - newly_scraped_count st0) /\
    newly_scraped_count st0 <= newly_scraped_count x.2 /\
    doc_id_counter x.2 = (doc_id_counter st0 + N.of_nat (newly_scraped_count x.2 - newly_scraped_count st0))%N /\
    Forall (fun d => (url d ∉ already) /\ (sumber d ∈ PORTALS_TO_SCRAPE) /\ ((sumber d, url d) ∈ tasks)) fresh.

End Loop.

(** ** Lemmas *)

(** Only a known portal yields data. *)
Lemma dispatch_known portal data d :
  dispatch portal data = Some d -> mem_string portal PORTALS_TO_SCRAPE = true.
Proof. unfold dispatch. by destruct (mem_string portal PORTALS_TO_SCRAPE). Qed.

Lemma mem_string_spec x l : mem_string x l = true <-> x ∈ l.
Proof.
  unfold mem_string. rewrite existsb_exists, list_elem_of_In. split.
  - intros (y & Hy & E). apply String.eqb_eq in E. by subst.
  - intros Hx. exists x. split; [done|]. apply String.eqb_refl.
Qed.

Lemma ids_from_snoc c k : ids_from c (S k) = ids_from c k ++ [format_id (c + N.of_nat k)].
Proof.
  revert c. induction k as [|k IH]; intros c.
  - simpl. by rewrite N.add_0_r.
  - change (ids_from c (S (S k))) with (format_id c :: ids_from (c + 1) (S k)).
    rewrite (IH (c + 1)%N). cbn [ids_from app]. rewrite Nat2N.inj_succ.
    by replace (c + N.succ (N.of_nat k))%N with (c + 1 + N.of_nat k)%N by lia.
Qed.

Section LoopLemmas.
Context (already : gset string) (fetch : string -> FetchOutcome).

Lemma scrape_task_step t ts st :
  scrape_step already fetch (t :: ts, st) (ts, scrape_task already fetch st t).
Proof.
  destruct t as [portal u]. unfold scrape_task.
  case_bool_decide as Hu; [by constructor|].
  destruct (fetch u) as [code data|] eqn:Hf; [|by eapply step_error].
  destruct (code =? 200)%Z eqn:Hc; simpl; [apply Z.eqb_eq in Hc; subst|].
  - destruct (dispatch portal data) eqn:Hd.
    + by eapply step_append.
    + by eapply step_no_data.
  - eapply step_status; [done|done|]. by apply Z.eqb_neq.
Qed.

(** The relation is deterministic: it is the fold's body. *)
Lemma scrape_step_fn x y :
  scrape_step already fetch x y -> exists t, x.1 = t :: y.1 /\ y.2 = scrape_task already fetch x.2 t.
Proof.
  destruct 1 as [p u ts st Hu|p u ts st Hu Hf|p u ts st c d Hu Hf Hc|p u ts st d Hu Hf Hp
    |p u ts st d a Hu Hf Hp];
    exists (p, u); split; try done; simpl; unfold scrape_task;
    rewrite ?bool_decide_true, ?bool_decide_false by done; try done; rewrite Hf; try done.
  - apply Z.eqb_neq in Hc. by rewrite Hc.
  - simpl. by rewrite Hp.
  - simpl. by rewrite Hp.
Qed.

Lemma loop_inv_step tasks st0 x y :
  scrape_step already fetch x y -> loop_inv already tasks st0 x -> loop_inv already tasks st0 y.
Proof.
  intros Hs (done & fresh & Ht & Hsub & Hcsv & Hids & Hle & Hc & Hf).
  destruct Hs as [p u ts st Hu|p u ts st Hu|p u ts st c d Hu|p u ts st d Hu|p u ts st data d Hu Hfu Hp];
    simpl in *; exists (done ++ [(p, u)]); rewrite <- app_assoc;
    try (exists fresh; split_and!; try done; by apply sublist_inserts_r).
  exists (fresh ++ [new_row (doc_id_counter st) p u d]); simpl. split_and!.
  - done.
  - rewrite fmap_app. by apply sublist_app.
  - by rewrite Hcsv, app_assoc.
  - rewrite fmap_app, Hids, Nat.sub_succ_l, ids_from_snoc by done. simpl. by rewrite Hc.
  - lia.
  - rewrite Hc, Nat.sub_succ_l by done. lia.
  - apply Forall_app. split; [done|]. constructor; [|done]. simpl. split_and!; [done| |].
    + apply mem_string_spec. by eapply dispatch_known.
    + rewrite Ht. apply elem_of_app. right. apply list_elem_of_here.
Qed.

Lemma loop_inv_rtc tasks st0 x y :
  rtc (scrape_step already fetch) x y -> loop_inv already tasks st0 x -> loop_inv already tasks st0 y.
Proof. induction 1; eauto using loop_inv_step. Qed.

Lemma loop_inv_init tasks st0 : loop_inv already tasks st0 (tasks, st0).
Proof. exists [], []. rewrite app_nil_r, Nat.sub_diag, N.add_0_r. by split_and!. Qed.

End LoopLemmas.

Lemma read_tasks_known lines names :
  Forall (fun t => t.1 ∈ names) (read_all_urls_to_scrape lines names).
Proof.
  destruct lines as [lines|]; simpl; [|done]. apply Forall_forall. intros [p u] Hin.
  apply list_elem_of_omap in Hin as (line & _ & Hl). unfold parse_line in Hl.
  destruct (has_semicolon line); [|done]. destruct (split_once (Tokenize.strip line)) as [p' u'].
  destruct (mem_string p' names) eqn:Hm; [|done]. injection Hl as <- <-.
  by apply mem_string_spec.
Qed.

(** ** Digit strings *)

Lemma zeros_app_spec k s :
  is_digits (zeros k ++ s)%string = is_digits s /\ dval (zeros k ++ s)%string = dval s /\
  String.length (zeros k ++ s)%string = k + String.length s.
Proof.
  induction k as [|k IH]; [done|]. simpl zeros. rewrite string_app_cons. simpl.
  destruct IH as (-> & -> & ->). done.
Qed.

Lemma pad5_small n :
  (n < 100000)%N -> is_digits (pad5 n) = true /\ String.length (pad5 n) = 5.
Proof.
  intros Hn. unfold pad5. destruct (zeros_app_spec (5 - String.length (decimal n)) (decimal n))
    as (-> & _ & ->). split; [apply decimal_spec|].
  pose proof (digits_go_length (S (N.to_nat (N.log2 n))) n "" 4 Hn) as H.
  change (String.length "") with 0 in H. unfold decimal. lia.
Qed.

Lemma scrape_task_csv_prefix already fetch st t :
  csv st `prefix_of` csv (scrape_task already fetch st t).
Proof.
  destruct t as [portal u]. unfold scrape_task. case_bool_decide; [done|].
  repeat case_match; try done. simpl. by eexists.
Qed.

Lemma scrape_loop_csv_prefix already fetch st ts :
  csv st `prefix_of` csv (scrape_loop already fetch st ts).
Proof.
  unfold scrape_loop. revert st. induction ts as [|t ts IH]; intros st; simpl; [done|].
  etrans; [apply (scrape_task_csv_prefix already fetch st t)|apply IH].
Qed.

(** The fold runs the step relation to the end of the task list. *)
Lemma scrape_loop_run already fetch tasks st :
  rtc (scrape_step already fetch) (tasks, st) ([], scrape_loop already fetch st tasks).
Proof.
  unfold scrape_loop. revert st. induction tasks as [|t ts IH]; intros st; simpl; [done|].
  eapply rtc_l; [apply scrape_task_step|apply IH].
Qed.

Lemma pad5_spec n : is_digits (pad5 n) = true /\ dval (pad5 n) = n.
Proof.
  unfold pad5. destruct (zeros_app_spec (5 - String.length (decimal n)) (decimal n))
    as (-> & -> & _). apply decimal_spec.
Qed.

(** Distinct counters give distinct ids. *)
Lemma format_id_inj n m : format_id n = format_id m -> n = m.
Proof.
  unfold format_id. intros H. apply string_app_inv_l in H.
  rewrite <- (proj2 (pad5_spec n)), <- (proj2 (pad5_spec m)). by rewrite H.
Qed.

Lemma elem_of_ids_from x c k : x ∈ ids_from c k -> exists i, (c <= i < c + N.of_nat k)%N /\ x = format_id i.
Proof.
  revert c. induction k as [|k IH]; intros c; simpl; [by intros ?%elem_of_nil|].
  intros [->|Hx]%elem_of_cons; [exists c; split; [lia|done]|].
  destruct (IH _ Hx) as (i & Hi & ->). exists i. split; [lia|done].
Qed.

Lemma NoDup_ids_from c k : NoDup (ids_from c k).
Proof.
  revert c. induction k as [|k IH]; intros c; simpl; [constructor|]. constructor; [|apply IH].
  intros (i & Hi & Heq)%elem_of_ids_from. apply format_id_inj in Heq. lia.
Qed.

Lemma ids_from_app c n k : ids_from c n ++ ids_from (c + N.of_nat n) k = ids_from c (n + k).
Proof.
  revert c. induction n as [|n IH]; intros c; simpl; [by rewrite N.add_0_r|]. f_equal.
  rewrite <- IH. do 2 f_equal. lia.
Qed.

(** The two ways [main] can start: from an empty CSV numbered from 1, or
    from the rows of a table whose URLs were read, numbered on from the
    number of distinct URLs. *)
Lemma init_cases f :
  init_state f = mkScrapeState [] 1 0 \/
  (get_already_scraped_urls f = list_to_set (url <$> csv_rows f) /\
   init_state f = mkScrapeState (csv_rows f) (N.of_nat (size (get_already_scraped_urls f)) + 1) 0).
Proof.
  unfold init_state. destruct f as [| | |[] rows]; simpl; auto.
  case_bool_decide; simpl; auto.
Qed.

Lemma init_csv_urls f d : d ∈ csv (init_state f) -> url d ∈ get_already_scraped_urls f.
Proof.
  destruct (init_cases f) as [->|[Ha ->]]; simpl; [by intros ?%elem_of_nil|].
  intros Hd. rewrite Ha. apply elem_of_list_to_set. by apply list_elem_of_fmap_2.
Qed.

(** What [main] leaves, with the tasks the new rows come from. *)
Lemma main_inv crawled f fetch :
  let tasks := read_all_urls_to_scrape crawled PORTALS_TO_SCRAPE in
  let st0 := init_state f in
  let st := main crawled f fetch in
  exists fresh, csv st = csv st0 ++ fresh /\ task_of <$> fresh `sublist_of` tasks /\
    id_dokumen <$> fresh = ids_from (doc_id_counter st0) (newly_scraped_count st) /\
    Forall (fun d => url d ∉ get_already_scraped_urls f) fresh.
Proof.
  intros tasks st0 st.
  destruct (loop_inv_rtc _ _ _ _ _ _ (scrape_loop_run (get_already_scraped_urls f) fetch tasks st0)
    (loop_inv_init _ _ _)) as (done & fresh & Ht & Hsub & H1 & H2 & _ & _ & H4).
  assert (Hn : newly_scraped_count st0 = 0) by (unfold st0, init_state; by case_match).
  simpl in *. rewrite app_nil_r in Ht. subst done. rewrite Hn, Nat.sub_0_r in *.
  exists fresh. split_and!; try done. eapply Forall_impl; [exact H4|]. by intros d [? _].
Qed.

(** A task whose URL is new, whose page answers 200 and whose portal's
    scraper returns [ad] leaves the row [new_row c portal u ad] in the CSV,
    for some counter [c]. *)
Lemma main_task_row crawled f fetch portal u data ad :
  (portal, u) ∈ read_all_urls_to_scrape crawled PORTALS_TO_SCRAPE ->
  u ∉ get_already_scraped_urls f -> fetch u = Response 200 data -> data portal = Some ad ->
  exists c, new_row c portal u ad ∈ csv (main crawled f fetch).
Proof.
  intros Hin Hu Hf Hd.
  assert (Hp : portal ∈ PORTALS_TO_SCRAPE).
  { pose proof (read_tasks_known crawled PORTALS_TO_SCRAPE) as Hk.
    rewrite Forall_forall in Hk. exact (Hk _ Hin). }
  apply list_elem_of_split in Hin as (ts1 & ts2 & Hts).
  unfold main, scrape_loop. rewrite Hts, foldl_app. cbn [foldl].
  set (st1 := foldl (scrape_task _ fetch) (init_state f) ts1).
  destruct (scrape_loop_csv_prefix (get_already_scraped_urls f) fetch
    (scrape_task (get_already_scraped_urls f) fetch st1 (portal, u)) ts2) as [rest Hrest].
  unfold scrape_loop in Hrest. rewrite Hrest.
  unfold scrape_task in *. rewrite bool_decide_false, Hf in * by done. simpl in *.
  unfold dispatch. apply mem_string_spec in Hp. rewrite Hp, Hd. simpl.
  exists (doc_id_counter st1).
  apply elem_of_app. left. apply elem_of_app. right. by apply list_elem_of_singleton.
Qed.


(** A new URL of a known portal whose page answers 200 and whose scraper
    returns [ad] is appended, whatever the state. *)
Lemma scrape_task_new already fetch st portal u data ad :
  portal ∈ PORTALS_TO_SCRAPE -> u ∉ already -> fetch u = Response 200 data -> data portal = Some ad ->
  scrape_task already fetch st (portal, u) = append_row st portal u ad.
Proof.
  intros Hp Hu Hf Hd. unfold scrape_task. rewrite bool_decide_false, Hf by done. simpl.
  unfold dispatch. apply mem_string_spec in Hp. by rewrite Hp, Hd.
Qed.

Lemma ids_from_elem c k i : (c <= i < c + N.of_nat k)%N -> format_id i ∈ ids_from c k.
Proof.
  revert c. induction k as [|k IH]; intros c Hi; simpl; [lia|].
  destruct (decide (i = c)) as [->|Hne]; [apply list_elem_of_here|].
  apply elem_of_cons. right. apply IH. lia.
Qed.

(** Strings with a common prefix compare as their rests. *)
Lemma compare_app_l p a b : String.compare (p ++ a) (p ++ b) = String.compare a b.
Proof.
  induction p as [|c p IH]; [done|]. rewrite !string_app_cons. simpl.
  replace (Ascii.compare c c) with Eq by (unfold Ascii.compare; by rewrite N.compare_refl). exact IH.
Qed.

(** The leading digit of a digit string and the bound on the rest. *)
Lemma digits_head c s :
  is_digits (String c s) = true ->
  (48 <= N_of_ascii c <= 57)%N /\ (dval s < 10 ^ N.of_nat (String.length s))%N.
Proof.
  simpl. intros [[H1 H2]%andb_prop Hs]%andb_prop. apply N.leb_le in H1, H2.
  split; [lia|]. by apply dval_bound.
Qed.

(** [str(n)] of a six-digit number has six characters. *)
Lemma decimal_length6 n : (100000 <= n < 1000000)%N -> String.length (decimal n) = 6.
Proof.
  intros Hn. destruct (decimal_spec n) as [Dn Vn].
  assert (H6 : (n < 10 ^ N.of_nat (S 5))%N) by (change (10 ^ N.of_nat (S 5))%N with 1000000%N; lia).
  pose proof (digits_go_length (S (N.to_nat (N.log2 n))) n "" 5 H6) as H1.
  change (String.length "") with 0 in H1. fold (decimal n) in H1.
  pose proof (dval_bound _ Dn) as H2. rewrite Vn in H2.
  destruct (decide (String.length (decimal n) <= 5)) as [Hle|]; [|lia].
  assert (10 ^ N.of_nat (String.length (decimal n)) <= 100000)%N; [|lia].
  change 100000%N with (10 ^ N.of_nat 5)%N. apply N.pow_le_mono_r; lia.
Qed.

(** ** Theorems *)

(** (C5) What [main] leaves in the output CSV: the rows it started from
    followed by the new rows, whose ids are [doc_c], [doc_(c+1)], ... from
    the initial counter [c], whose URLs were not in the CSV before, and
    whose (portal, URL) is a task of the crawled-URL file with a known
    portal; the final counter is [c] plus the number of new rows. *)
Theorem main_appends crawled f fetch :
  let st0 := init_state f in
  let st := main crawled f fetch in
  exists fresh, csv st = csv st0 ++ fresh /\
    id_dokumen <$> fresh = ids_from (doc_id_counter st0) (newly_scraped_count st) /\
    doc_id_counter st = (doc_id_counter st0 + N.of_nat (newly_scraped_count st))%N /\
    Forall (fun d => (url d ∉ get_already_scraped_urls f) /\ (sumber d ∈ PORTALS_TO_SCRAPE) /\
      ((sumber d, url d) ∈ read_all_urls_to_scrape crawled PORTALS_TO_SCRAPE)) fresh.
Proof.
  intros st0 st.
  destruct (loop_inv_rtc _ _ _ _ _ _ (scrape_loop_run (get_already_scraped_urls f) fetch
    (read_all_urls_to_scrape crawled PORTALS_TO_SCRAPE) st0) (loop_inv_init _ _ _))
    as (done & fresh & _ & _ & H1 & H2 & _ & H3 & H4).
  assert (Hn : newly_scraped_count st0 = 0) by (unfold st0, init_state; by case_match).
  simpl in *. rewrite Hn, Nat.sub_0_r in *. by exists fresh.
Qed.

(** (C23) When the CSV yields no URL (missing, empty, unreadable, or without
    a [url] column), [main] rewrites it with its header only: the rows it
    held are gone and the new rows are numbered from [doc_00001]. *)
Theorem main_restart crawled f fetch :
  get_already_scraped_urls f = ∅ ->
  id_dokumen <$> csv (main crawled f fetch) = ids_from 1 (newly_scraped_count (main crawled f fetch)).
Proof.
  intros He. destruct (main_inv crawled f fetch) as (fresh & Hc & _ & Hids & _).
  assert (Hi : init_state f = mkScrapeState [] 1 0)
    by (unfold init_state; rewrite He, bool_decide_true, orb_true_r; done).
  rewrite Hc, Hi. simpl. rewrite Hids, Hi. done.
Qed.

(** A fetch that answers 200 for every URL. *)
Definition fetch_ok : string -> FetchOutcome :=
  fun _ => Response 200 (fun _ => Some (mkArticleData "Judul" "Isi" "2024-01-01" "")).

Definition old_row (i u : string) : Document := mkDocument i "Gamebrott" u "" "" "" "".

Lemma main_restart_witness :
  get_already_scraped_urls (Table false [old_row "doc_00001" "https://g/old"]) = ∅ /\
  id_dokumen <$> csv (main (Some ["Gamebrott;https://g/a"]) (Table false [old_row "doc_00001" "https://g/old"]) fetch_ok)
    = ids_from 1 (newly_scraped_count
        (main (Some ["Gamebrott;https://g/a"]) (Table false [old_row "doc_00001" "https://g/old"]) fetch_ok)).
Proof. split; [done|]. apply main_restart. done. Defined.

(** (C25) [already_scraped_urls] is not updated inside the loop: a new
    URL listed twice in the task file, whose page answers 200, is scraped
    and appended twice, so the output CSV no longer has distinct URLs. *)
Theorem main_duplicate_task crawled f fetch portal u data ad ts1 ts2 ts3 :
  read_all_urls_to_scrape crawled PORTALS_TO_SCRAPE = ts1 ++ (portal, u) :: ts2 ++ (portal, u) :: ts3 ->
  u ∉ get_already_scraped_urls f -> fetch u = Response 200 data -> data portal = Some ad ->
  ~ urls_unique (csv (main crawled f fetch)).
Proof.
  intros Hts Hu Hf Hd.
  assert (Hp : portal ∈ PORTALS_TO_SCRAPE).
  { pose proof (read_tasks_known crawled PORTALS_TO_SCRAPE) as Hk. rewrite Hts, Forall_forall in Hk.
    apply (Hk (portal, u)). apply elem_of_app. right. apply list_elem_of_here. }
  unfold main, scrape_loop. rewrite Hts, foldl_app. cbn [foldl]. rewrite foldl_app. cbn [foldl].
  set (already := get_already_scraped_urls f).
  set (st1 := foldl (scrape_task already fetch) (init_state f) ts1).
  rewrite (scrape_task_new already fetch st1 portal u data ad) by done.
  set (st2 := foldl (scrape_task already fetch) (append_row st1 portal u ad) ts2).
  rewrite (scrape_task_new already fetch st2 portal u data ad) by done.
  destruct (scrape_loop_csv_prefix already fetch (append_row st2 portal u ad) ts3) as [r2 E2].
  destruct (scrape_loop_csv_prefix already fetch (append_row st1 portal u ad) ts2) as [r1 E1].
  unfold scrape_loop in E1, E2. rewrite E2. cbn [csv append_row]. unfold st2. rewrite E1.
  cbn [csv append_row]. unfold urls_unique. rewrite <- !app_assoc, !fmap_app. cbn [fmap list_fmap url new_row].
  intros H. apply NoDup_app in H as (_ & _ & H). apply NoDup_app in H as (_ & H & _).
  apply (H u); set_solver.
Qed.

(** (C24) The counter restarts at [len(already_scraped_urls) + 1], the
    number of distinct URLs, not of rows: when the CSV was numbered
    [doc_00001 .. doc_n] but holds fewer distinct URLs than rows, the
    first new row takes the id of an existing row. *)
Theorem main_id_collision crawled f fetch portal u data ad :
  file_exists f = true -> id_dokumen <$> csv_rows f = ids_from 1 (length (csv_rows f)) ->
  (0 < size (get_already_scraped_urls f) < length (csv_rows f))%nat ->
  (portal, u) ∈ read_all_urls_to_scrape crawled PORTALS_TO_SCRAPE ->
  u ∉ get_already_scraped_urls f -> fetch u = Response 200 data -> data portal = Some ad ->
  ~ NoDup (id_dokumen <$> csv (main crawled f fetch)).
Proof.
  intros Hex Hids Hk Hin Hu Hf Hd.
  assert (Hinit : init_state f =
    mkScrapeState (csv_rows f) (N.of_nat (size (get_already_scraped_urls f)) + 1) 0).
  { unfold init_state. rewrite Hex. rewrite bool_decide_false; [done|].
    intros E. rewrite E, size_empty in Hk. lia. }
  destruct (main_task_row _ _ _ _ _ _ _ Hin Hu Hf Hd) as [c Hc].
  destruct (main_inv crawled f fetch) as (fresh & Hcsv & _ & Hfids & _). cbv zeta in Hcsv, Hfids.
  rewrite Hinit in Hcsv, Hfids. cbn [csv doc_id_counter] in Hcsv, Hfids.
  destruct fresh as [|d0 fresh'].
  { rewrite Hcsv, app_nil_r in Hc. exfalso. apply Hu.
    assert (Hr : new_row c portal u ad ∈ csv (init_state f)) by (by rewrite Hinit).
    exact (init_csv_urls f _ Hr). }
  destruct (newly_scraped_count (main crawled f fetch)) as [|cnt]; [discriminate|].
  cbn [fmap list_fmap ids_from] in Hfids. injection Hfids as Hd0 _.
  rewrite Hcsv, fmap_app. intros Hnd. apply NoDup_app in Hnd as (_ & Hdis & _).
  apply (Hdis (id_dokumen d0)); [|apply list_elem_of_here].
  rewrite Hids, Hd0. apply ids_from_elem. lia.
Qed.

(** Every task read from the crawled-URL file names a portal of the list. *)
Theorem read_tasks_portals lines :
  Forall (fun t => t.1 ∈ PORTALS_TO_SCRAPE) (read_all_urls_to_scrape lines PORTALS_TO_SCRAPE).
Proof. apply read_tasks_known. Qed.

(** Round trip: the digits of an id read back give the counter, for
    every counter. *)
Theorem format_id_roundtrip n : format_id n = ("doc_" ++ pad5 n)%string /\ is_digits (pad5 n) = true /\ dval (pad5 n) = n.
Proof. split; [done|]. apply pad5_spec. Qed.

(** Below 100000 documents the ids have five digits and sort as
    strings in the order of their counters. *)
Theorem format_id_order n m :
  (n < 100000)%N -> (m < 100000)%N -> String.leb (format_id n) (format_id m) = (n <=? m)%N.
Proof.
  intros Hn Hm. destruct (pad5_small n Hn) as [Dn Ln]. destruct (pad5_small m Hm) as [Dm Lm].
  change (String.leb (format_id n) (format_id m))
    with (if String.compare (pad5 n) (pad5 m) is Gt then false else true).
  rewrite compare_digits by congruence.
  rewrite (proj2 (pad5_spec n)), (proj2 (pad5_spec m)).
  destruct (N.compare_spec n m); symmetry; [apply N.leb_le|apply N.leb_le|apply N.leb_gt]; lia.
Qed.

Lemma format_id_order_witness :
  (99 < 100000)%N /\ (1234 < 100000)%N /\ String.leb (format_id 99) (format_id 1234) = (99 <=? 1234)%N.
Proof. split_and!; [lia|lia|]. apply format_id_order; lia. Defined.

(** (C26) From the 100000th document on, the ids have six digits and the
    string order of [id_dokumen] (the sort key of [get_latest_news] without
    a [timestamp] column) no longer follows the counters: every id from
    [doc_100000] to [doc_199999] sorts below every id from [doc_20000] to
    [doc_99999]. *)
Theorem format_id_overflow n m :
  (100000 <= n < 200000)%N -> (20000 <= m < 100000)%N ->
  String.compare (format_id n) (format_id m) = Lt.
Proof.
  intros Hn Hm.
  destruct (pad5_small m) as [Dm Lm]; [lia|]. pose proof (proj2 (pad5_spec m)) as Vm.
  pose proof (decimal_length6 n ltac:(lia)) as Ln. pose proof (decimal_spec n) as [Dn Vn].
  assert (Pn : pad5 n = decimal n) by (unfold pad5; rewrite Ln; reflexivity).
  unfold format_id. rewrite Pn, compare_app_l.
  revert Dn Vn Ln. destruct (decimal n) as [|c s]; [discriminate 3|intros Dn Vn Ln].
  revert Dm Lm Vm. destruct (pad5 m) as [|c' s']; [discriminate 2|intros Dm Lm Vm].
  destruct (digits_head c s Dn) as [Hc Hs]. destruct (digits_head c' s' Dm) as [Hc' Hs'].
  cbn [String.length] in Ln, Lm. injection Ln as Ln. injection Lm as Lm.
  cbn [dval] in Vn, Vm. unfold digit_val in Vn, Vm. rewrite Ln in Vn, Hs. rewrite Lm in Vm, Hs'.
  change (10 ^ N.of_nat 5)%N with 100000%N in Vn, Hs. change (10 ^ N.of_nat 4)%N with 10000%N in Vm, Hs'.
  simpl. unfold Ascii.compare. replace (N.compare (N_of_ascii c) (N_of_ascii c')) with Lt; [done|].
  symmetry. apply N.compare_lt_iff. lia.
Qed.

(** (C6) Liveness of the resume loop: every task of the crawled-URL file
    whose URL is not in the CSV, whose page answers 200 and whose portal's
    scraper does not raise ends up as a row of the CSV, with its portal,
    URL and the four fields the scraper extracted. *)
Theorem main_scrapes_ok_tasks crawled f fetch portal u data ad :
  (portal, u) ∈ read_all_urls_to_scrape crawled PORTALS_TO_SCRAPE ->
  u ∉ get_already_scraped_urls f -> fetch u = Response 200 data -> data portal = Some ad ->
  exists d, d ∈ csv (main crawled f fetch) /\ url d = u /\ sumber d = portal /\
    judul d = a_judul ad /\ konten d = a_konten ad /\ tanggal_terbit d = a_tanggal_terbit ad /\
    url_thumbnail d = a_url_thumbnail ad.
Proof.
  intros Hin Hu Hf Hd. destruct (main_task_row _ _ _ _ _ _ _ Hin Hu Hf Hd) as [c Hc].
  by exists (new_row c portal u ad).
Qed.

Lemma main_scrapes_ok_tasks_witness :
  exists d, d ∈ csv (main (Some ["Gamebrott;https://g/a"]) NoFile fetch_ok) /\ url d = "https://g/a" /\
    sumber d = "Gamebrott" /\ judul d = "Judul" /\ konten d = "Isi" /\ tanggal_terbit d = "2024-01-01" /\
    url_thumbnail d = "".
Proof.
  apply (main_scrapes_ok_tasks _ _ _ _ _ (fun _ => Some (mkArticleData "Judul" "Isi" "2024-01-01" ""))
           (mkArticleData "Judul" "Isi" "2024-01-01" ""));
    [vm_compute; apply list_elem_of_here|set_solver|reflexivity|reflexivity].
Defined.

(** (C8) The corpus invariant of URLs: when the CSV [main] starts from has
    distinct URLs and the task file lists each URL once, the output CSV has
    distinct URLs. *)
Theorem main_urls_unique crawled f fetch :
  urls_unique (csv_rows f) -> NoDup (snd <$> read_all_urls_to_scrape crawled PORTALS_TO_SCRAPE) ->
  urls_unique (csv (main crawled f fetch)).
Proof.
  intros Hrows Htasks. destruct (main_inv crawled f fetch) as (fresh & Hcsv & Hsub & _ & Hf).
  unfold urls_unique. rewrite Hcsv, fmap_app. apply NoDup_app. split_and!.
  - destruct (init_cases f) as [->|[_ ->]]; [constructor|done].
  - intros x (d & -> & Hd)%list_elem_of_fmap (d' & Hx & Hd')%list_elem_of_fmap.
    rewrite Forall_forall in Hf. apply (Hf d' Hd'). rewrite <- Hx. by apply init_csv_urls.
  - eapply sublist_NoDup; [exact Htasks|].
    replace (url <$> fresh) with (snd <$> (task_of <$> fresh)) by (rewrite <- list_fmap_compose; done).
    by apply fmap_sublist.
Qed.

(** (C9) The corpus invariant of ids: resuming from a CSV written by earlier
    runs (ids [doc_00001] ... [doc_n] in order, distinct URLs), every id of
    the output CSV is distinct. *)
Theorem main_ids_unique crawled f fetch :
  id_dokumen <$> csv_rows f = ids_from 1 (length (csv_rows f)) -> urls_unique (csv_rows f) ->
  NoDup (id_dokumen <$> csv (main crawled f fetch)).
Proof.
  intros Hids Hu. destruct (main_inv crawled f fetch) as (fresh & Hcsv & _ & Hfr & _).
  rewrite Hcsv, fmap_app, Hfr. destruct (init_cases f) as [->|[Ha ->]]; simpl; [apply NoDup_ids_from|].
  rewrite Hids, Ha, size_list_to_set, length_fmap by done.
  replace (N.of_nat (length (csv_rows f)) + 1)%N with (1 + N.of_nat (length (csv_rows f)))%N by lia.
  rewrite ids_from_app. apply NoDup_ids_from.
Qed.

Definition ex_resume_csv : CsvFile :=
  Table true [old_row "doc_00001" "https://g/a"; old_row "doc_00002" "https://g/b"].

Lemma main_urls_unique_witness :
  urls_unique (csv (main (Some ["Gamebrott;https://g/a"; "Gamebrott;https://g/c"]) ex_resume_csv fetch_ok)).
Proof. apply main_urls_unique; vm_compute; repeat constructor; set_solver. Defined.

Lemma main_ids_unique_witness :
  NoDup (id_dokumen <$> csv (main (Some ["Gamebrott;https://g/c"; "Gamebrott;https://g/d"]) ex_resume_csv fetch_ok)).
Proof. apply main_ids_unique; [reflexivity|vm_compute; repeat constructor; set_solver]. Defined.

Definition ex_dup_csv : CsvFile :=
  Table true [old_row "doc_00001" "https://g/a"; old_row "doc_00002" "https://g/b";
              old_row "doc_00003" "https://g/a"].

Lemma main_id_collision_witness :
  ~ NoDup (id_dokumen <$> csv (main (Some ["Gamebrott;https://g/c"]) ex_dup_csv fetch_ok)).
Proof.
  apply (main_id_collision _ _ _ "Gamebrott" "https://g/c" (fun _ => Some (mkArticleData "Judul" "Isi" "2024-01-01" ""))
           (mkArticleData "Judul" "Isi" "2024-01-01" ""));
    [reflexivity|vm_compute; reflexivity|vm_compute; lia|vm_compute; apply list_elem_of_here
    |apply (bool_decide_unpack ("https://g/c" ∉ get_already_scraped_urls ex_dup_csv)); vm_compute; exact I
    |reflexivity|reflexivity].
Defined.

Lemma main_duplicate_task_witness :
  ~ urls_unique (csv (main (Some ["Gamebrott;https://g/a"; "Gamebrott;https://g/a"]) NoFile fetch_ok)).
Proof.
  apply (main_duplicate_task _ _ _ "Gamebrott" "https://g/a" (fun _ => Some (mkArticleData "Judul" "Isi" "2024-01-01" ""))
           (mkArticleData "Judul" "Isi" "2024-01-01" "") [] [] []);
    [vm_compute; reflexivity|set_solver|reflexivity|reflexivity].
Defined.

Lemma format_id_overflow_witness : String.compare (format_id 150000) (format_id 99999) = Lt.
Proof. apply format_id_overflow; lia. Defined.

End Scraper.
