(* ===== verification/Portals.v ===== *)
(** * The portal scrapers [scrape_*_article]

    Each of the five functions of src/notebooks/scrape_url.py:73-188 reads
    the title, the thumbnail URL, the publication date and the text of an
    article from its parsed page ([Soup.Node]) and returns the four fields
    of [Scraper.ArticleData], with ['N/A'] for what it does not find.  The
    [url] argument is unused by all of them, as in the source.

    The regular expressions of the source are written out as the
    functions that decide them on ASCII text (a word character is a
    letter, a digit or [_]; whitespace is what [str.isspace] accepts):
    - Kotakgame's date pattern, a bar, whitespace, then the rest of the
      line as group 1 ([after_bar]);
    - Indogamers' day pattern, one of the seven day names between word
      boundaries ([has_day_name]);
    - Jagatplay's thumbnail pattern, [url(], an optional quote, the
      shortest group up to an optional quote and a closing parenthesis
      ([css_url]);
    - Detik's credit pattern, matched at the start: an opening
      parenthesis, word characters, a slash, word characters, a closing
      parenthesis ([is_credit]).

    The Kotakgame scraper decomposes the parent of each string holding
    "View this post on Instagram"; the list of strings is computed first,
    and a string inside a tag decomposed before has lost its parent:
    [insta_block.parent] raises [AttributeError], which [main] catches.  Its
    result is therefore an [option]; the four others cannot fail. *)

From Stdlib Require Import Ascii String Lia.
From stdpp Require Import base list gmap.
From S2P Require Import Prelude Corpus Tokenize PyStr Soup Scraper.
Local Open Scope string_scope.

Module Portals.
Import Soup Scraper.

Definition NA : string := "N/A".

(** Selector shorthands: [t.c1.c2], [.c1.c2], [t] and [t[a*=v]]. *)
Definition tag_cls (t : string) (cs : list string) : Compound := mkCompound (Some t) None cs [].
Definition cls (cs : list string) : Compound := mkCompound None None cs [].
Definition tag (t : string) : Compound := mkCompound (Some t) None [] [].
Definition tag_attr_contains (t a v : string) : Compound := mkCompound (Some t) None [] [(a, v)].

(** [tag[k]] after [tag.has_attr(k)]. *)
Definition node_attr (n : Node) (k : string) : option string :=
  match n with Tag _ attrs _ => get_attr k attrs | _ => None end.

Definition node_classes (n : Node) : list string :=
  match n with Tag _ attrs _ => tag_classes attrs | _ => [] end.

(** [isinstance(n, Tag)]. *)
Definition is_tag (n : Node) : bool := match n with Tag _ _ _ => true | _ => false end.

(** [t.get_text(strip=True) if t else 'N/A']. *)
Definition text_or_na (t : option Node) : string :=
  match t with Some n => get_text "" n | None => NA end.

(** The text up to the first newline ([.] does not match ["\n"]). *)
Fixpoint until_newline (s : string) : string :=
  match s with
  | EmptyString => EmptyString
  | String c s' => if Ascii.eqb c "010"%char then EmptyString else String c (until_newline s')
  end.

(** Group 1 of Kotakgame's [re.search] (line 98): the text after the
  first bar and the whitespace that follows it, to the end of the line. *)
Fixpoint after_bar (s : string) : option string :=
  match s with
  | EmptyString => None
  | String c s' => if Ascii.eqb c "|" then Some (until_newline (Tokenize.lstrip s')) else after_bar s'
  end.

(** [\w] on ASCII. *)
Definition is_word (c : ascii) : bool :=
  let n := nat_of_ascii c in
  ((48 <=? n) && (n <=? 57))%nat || ((65 <=? n) && (n <=? 90))%nat ||
  ((97 <=? n) && (n <=? 122))%nat || Ascii.eqb c "_".

Fixpoint drop_chars (k : nat) (s : string) : string :=
  match k, s with
  | S k', String _ s' => drop_chars k' s'
  | _, _ => s
  end.

Definition starts_word (s : string) : bool :=
  match s with String c _ => is_word c | EmptyString => false end.

Definition DAYS : list string := ["Senin"; "Selasa"; "Rabu"; "Kamis"; "Jumat"; "Sabtu"; "Minggu"].

(** Indogamers' [re.search] (line 131) finds a day name between word
  boundaries; [prev_word] tells whether the character before [s] is a
  word character. *)
Fixpoint day_from (prev_word : bool) (s : string) : bool :=
  (negb prev_word &&
   existsb (fun d => PyStr.startswith s d && negb (starts_word (drop_chars (String.length d) s))) DAYS) ||
  match s with EmptyString => false | String c s' => day_from (is_word c) s' end.

Definition has_day_name (s : string) : bool := day_from false s.

Definition is_quote (c : ascii) : bool := Ascii.eqb c "039"%char || Ascii.eqb c "034"%char.

(** The lazy group of Jagatplay's pattern: the shortest prefix of the
  line after which comes a closing parenthesis, or a quote and one. *)
Fixpoint lazy_until_paren (s : string) : option string :=
  match s with
  | EmptyString => None
  | String c s' =>
      if Ascii.eqb c ")" then Some EmptyString
      else if is_quote c && PyStr.startswith s' ")" then Some EmptyString
      else if Ascii.eqb c "010"%char then None
      else String c <$> lazy_until_paren s'
  end.

(** The match of Jagatplay's pattern at the start of [s]: the optional
  opening quote is first taken, then left. *)
Definition css_url_at (s : string) : option string :=
  if PyStr.startswith s "url(" then
    let r := drop_chars 4 s in
    match r with
    | String q r' =>
        if is_quote q then
          match lazy_until_paren r' with Some g => Some g | None => lazy_until_paren r end
        else lazy_until_paren r
    | EmptyString => None
    end
  else None.

(** Group 1 of Jagatplay's [re.search] (line 146), at the first position
  where the pattern matches. *)
Fixpoint css_url (s : string) : option string :=
  match css_url_at s with
  | Some g => Some g
  | None => match s with EmptyString => None | String _ s' => css_url s' end
  end.

Fixpoint word_run (s : string) : nat :=
  match s with String c s' => if is_word c then S (word_run s') else 0 | EmptyString => 0 end.

(** Detik's [re.match] (line 184) succeeds: [s] starts with a
  parenthesised pair of words separated by a slash. *)
Definition is_credit (s : string) : bool :=
  match s with
  | String c s1 =>
      Ascii.eqb c "(" &&
      let k1 := word_run s1 in
      match drop_chars k1 s1 with
      | String sl s2 =>
          (0 <? k1)%nat && Ascii.eqb sl "/" &&
          let k2 := word_run s2 in
          (0 <? k2)%nat && PyStr.startswith (drop_chars k2 s2) ")"
      | EmptyString => false
      end
  | EmptyString => false
  end.

(** [for line in lines: if ...: break; content_lines.append(line)]. *)
Fixpoint take_until (stop : string -> bool) (lines : list string) : list string :=
  match lines with
  | [] => []
  | l :: ls => if stop l then [] else l :: take_until stop ls
  end.

(** ** Gamebrott (lines 73-85) *)

Definition scrape_gamebrott_article (url : string) (soup : Node) : ArticleData :=
  let title := text_or_na (select_one [tag_cls "h1" ["jeg_post_title"]] soup) in
  let thumbnail_url :=
    match select_one [cls ["jeg_featured"; "featured_image"]; cls ["thumbnail-container"]; tag "img"] soup with
    | Some t => default NA (node_attr t "src")
    | None => NA
    end in
  let publish_date := text_or_na (select_one [cls ["jeg_meta_date"]; tag "a"] soup) in
  let content :=
    match select_one [cls ["content-inner"]] soup with
    | Some content_div => PyStr.join (String "010" EmptyString) (get_text "" <$> find_all "p" content_div)
    | None => NA
    end in
  mkArticleData title content publish_date thumbnail_url.

(** ** Kotakgame (lines 86-115) *)

(** The tags whose decomposition line 107 performs. *)
Definition decomposable (name : string) : bool := existsb (String.eqb name) ["div"; "p"; "span"].

Definition INSTAGRAM : string := "View this post on Instagram".

(** [content_div.find_all(text=re.compile(INSTAGRAM))]: the strings (of
  any kind) holding the phrase, each with the position and name of its
  parent tag, in document order. *)
Definition strings_containing (phrase : string) (n : Node) : list (list nat * string) :=
  List.flat_map (fun '(p, parent, c) =>
    match c, parent with
    | NavigableString s, Tag name _ _ | Comment s, Tag name _ _ =>
        if PyStr.contains phrase s then [(removelast p, name)] else []
    | _, _ => []
    end) (descendants_at [] n).

(** [for insta_block in ...: if insta_block.parent.name in [...]:
  insta_block.parent.decompose()]: the positions decomposed, or [None]
  when a string lies inside a tag decomposed before ([AttributeError]). *)
Fixpoint insta_decompose (R : list (list nat)) (ms : list (list nat * string)) : option (list (list nat)) :=
  match ms with
  | [] => Some R
  | (p, name) :: ms' =>
      if existsb (fun r => bool_decide (r `prefix_of` p)) R then None
      else insta_decompose (if decomposable name then p :: R else R) ms'
  end.

Definition kotakgame_stop (line : string) : bool :=
  PyStr.contains "Baca ini juga" line || PyStr.contains "Selain berita utama di atas" line.

(** Lines 104-113 on [content_div]. *)
Definition kotakgame_content (content_div : Node) : option string :=
  let d1 := prune (fun _ m => is_tag_named "blockquote" m) [] content_div in
  R ← insta_decompose [] (strings_containing INSTAGRAM d1);
  let content_full := get_text (String "010" EmptyString) (remove_paths R d1) in
  let content_lines := take_until kotakgame_stop (PyStr.split_sep (String "010" EmptyString) content_full) in
  Some (PyStr.join (String "010" EmptyString) content_lines).

Definition scrape_kotakgame_article (url : string) (soup : Node) : option ArticleData :=
  let title := text_or_na (select_one [tag_cls "h3" ["judulh3"]; tag_cls "span" ["txt9"]] soup) in
  let thumbnail_url :=
    match select_one [tag_cls "div" ["wrapimg"]; tag "img"] soup ≫= (fun t => node_attr t "src") with
    | Some relative_url =>
        if PyStr.startswith relative_url "/" then "https://www.kotakgame.com" ++ relative_url else relative_url
    | None => NA
    end in
  let publish_date :=
    match select_one [cls ["boxcreate"]; cls ["txtcreate2"]] soup with
    | Some date_span =>
        match after_bar (get_text "" date_span) with Some g => Tokenize.strip g | None => NA end
    | None => NA
    end in
  content ← match select_one [tag_cls "div" ["isinewsp"]] soup with
            | Some content_div => kotakgame_content content_div
            | None => Some ""
            end;
  let content := if String.eqb content "" then NA else content in
  Some (mkArticleData title (Tokenize.strip content) publish_date thumbnail_url).

(** ** Indogamers (lines 116-139) *)

Definition not_caption (p : Node) : bool :=
  match p with
  | Tag _ attrs _ => negb (has_attr "class" attrs) || negb (PyStr.contains "caption" (String.concat "" (tag_classes attrs)))
  | _ => true
  end.

(** [span_text.split(',')[0].strip()] (line 132). *)
Definition indogamers_date (span_text : string) : string :=
  Tokenize.strip (default "" (head (PyStr.split_sep "," span_text))).

Definition scrape_indogamers_article (url : string) (soup : Node) : ArticleData :=
  let title := text_or_na (select_one [tag_attr_contains "h1" "class" "style_article__title__"] soup) in
  let thumbnail_url :=
    match select_one [tag_attr_contains "div" "class" "style_image__article__"; tag "img"] soup
            ≫= (fun t => node_attr t "srcset") with
    | Some srcset =>
        let last_url_part := Tokenize.strip (default "" (last (PyStr.split_sep "," srcset))) in
        let relative_url := default "" (head (PyStr.split_sep " " last_url_part)) in
        "https://indogamers.com" ++ relative_url
    | None => NA
    end in
  let publish_date :=
    match select_one [tag_attr_contains "div" "class" "style_author__box__"] soup with
    | Some date_container =>
        match List.find has_day_name (get_text "" <$> find_all "span" date_container) with
        | Some span_text => indogamers_date span_text
        | None => NA
        end
    | None => NA
    end in
  let content :=
    match find "article" soup with
    | Some content_div =>
        PyStr.join (String "010" EmptyString) (get_text "" <$> List.filter not_caption (find_all "p" content_div))
    | None => NA
    end in
  mkArticleData title content publish_date thumbnail_url.

(** ** Jagatplay (lines 140-164) *)

(** [post_content_comment.find_next_siblings()] for the first comment
  holding [phrase]: the tags after it among its parent's children. *)
Fixpoint comment_siblings (phrase : string) (n : Node) : option (list Node) :=
  match n with
  | Tag _ _ children =>
      (fix go (l : list Node) : option (list Node) :=
         match l with
         | [] => None
         | c :: l' =>
             match c with
             | Comment s => if PyStr.contains phrase s then Some (List.filter is_tag l') else go l'
             | Tag _ _ _ => match comment_siblings phrase c with Some r => Some r | None => go l' end
             | NavigableString _ => go l'
             end
         end) children
  | _ => None
  end.

(** The [break] condition of line 161: an advertising or sharing [div]. *)
Definition jagatplay_break (sib : Node) : bool :=
  match sib with
  | Tag name attrs _ =>
      String.eqb name "div" &&
      (existsb (String.eqb "iklan-inline1") (tag_classes attrs) ||
       existsb (String.eqb "heateor_sss_sharing_container") (tag_classes attrs))
  | _ => false
  end.

(** The loop of lines 160-162: the texts of the [p] siblings up to the
  first advertising or sharing [div]. *)
Fixpoint jagatplay_paragraphs (sibs : list Node) : list string :=
  match sibs with
  | [] => []
  | sib :: rest =>
      if jagatplay_break sib then []
      else (if is_tag_named "p" sib then [get_text "" sib] else []) ++ jagatplay_paragraphs rest
  end.

Definition scrape_jagatplay_article (url : string) (soup : Node) : ArticleData :=
  let title := text_or_na (select_one [tag_cls "div" ["jgpost__header"]; tag "h1"] soup) in
  let thumbnail_url :=
    match (select_one [tag_cls "div" ["jgpost__feat-img"]] soup ≫= (fun t => node_attr t "style")) ≫= css_url with
    | Some g => g
    | None => NA
    end in
  let publish_date :=
    match select_one [tag_cls "div" ["jgauthor__posted"]] soup with
    | Some date_container =>
        match List.find (fun d => match find "a" d with None => true | Some _ => false end)
                (find_all_children "div" date_container) with
        | Some d => get_text "" d
        | None => NA
        end
    | None => NA
    end in
  let content :=
    match select_one [tag_cls "div" ["jgpost__content"]] soup ≫= comment_siblings "Post Content" with
    | Some sibs =>
        match jagatplay_paragraphs sibs with
        | [] => NA
        | content_list => PyStr.join (String "010" EmptyString) (List.filter nonempty content_list)
        end
    | None => NA
    end in
  mkArticleData title (Tokenize.strip content) publish_date thumbnail_url.

(** ** Detik-Inet (lines 165-188) *)

(** [elements_to_remove_selectors] (line 180). *)
Definition DETIK_REMOVE : list Selector :=
  [[cls ["collapsible"]]; [cls ["parallaxindetail"]]; [cls ["noncontent"]]; [cls ["staticdetail_container"]];
   [cls ["aevp"]]; [tag "script"]; [tag "style"]; [tag_cls "table" ["pic_artikel_sisip_table"]]].

(** Lines 179-187 on [content_div]: the listed elements decomposed, then
  the last [strong] if it is a credit, then the non-empty paragraphs. *)
Definition detik_content (content_div : Node) : string :=
  let d1 := foldl (fun d sel => decompose_select sel d) content_div DETIK_REMOVE in
  let d2 :=
    match last (List.filter (fun x => is_tag_named "strong" x.2) (descendants_at [] d1)) with
    | Some (p, _, last_strong) => if is_credit (get_text "" last_strong) then remove_paths [p] d1 else d1
    | None => d1
    end in
  match List.filter nonempty (get_text "" <$> find_all "p" d2) with
  | [] => NA
  | content_list => PyStr.join (String "010" EmptyString) content_list
  end.

(** Lines 171-175: the text between the first [", "] and [" WIB"], or the
  whole text when there is no [", "] ([IndexError]). *)
Definition detik_date (full_date_text : string) : string :=
  match PyStr.split_sep ", " full_date_text !! 1 with
  | Some date_part => Tokenize.strip (default "" (head (PyStr.split_sep " WIB" date_part)))
  | None => full_date_text
  end.

Definition scrape_detikinet_article (url : string) (soup : Node) : ArticleData :=
  let title := text_or_na (select_one [tag_cls "h1" ["detail__title"]] soup) in
  let publish_date :=
    match select_one [tag_cls "div" ["detail__date"]] soup with
    | Some date_tag => detik_date (get_text "" date_tag)
    | None => NA
    end in
  let thumbnail_url :=
    default NA (select_one [tag_cls "figure" ["detail__media-image"]; tag "img"] soup ≫= (fun t => node_attr t "src")) in
  let content :=
    match select_one [mkCompound (Some "div") (Some "detikdetailtext") [] []] soup with
    | Some content_div => detik_content content_div
    | None => NA
    end in
  mkArticleData title content publish_date thumbnail_url.

(** ** The dispatch of [main] (lines 225-230) *)

(** [data] after the [if/elif] chain: [None] for another portal, [Some
  None] when the portal's scraper raised. *)
Definition scrape_article (portal url : string) (soup : Node) : option (option ArticleData) :=
  if String.eqb portal "Gamebrott" then Some (Some (scrape_gamebrott_article url soup))
  else if String.eqb portal "Kotakgame" then Some (scrape_kotakgame_article url soup)
  else if String.eqb portal "Indogamers" then Some (Some (scrape_indogamers_article url soup))
  else if String.eqb portal "Jagatplay" then Some (Some (scrape_jagatplay_article url soup))
  else if String.eqb portal "Detik-Inet" then Some (Some (scrape_detikinet_article url soup))
  else None.

(** ** The pages as [main]'s fetch *)

(** [requests.get(url, ...)] followed by [BeautifulSoup(...)] and the
  dispatch: the parsed page with its status, or [None] when the request
  raised. *)
Definition fetch_pages (pages : string -> option (Z * Node)) : string -> FetchOutcome :=
  fun u =>
    match pages u with
    | None => RequestError
    | Some (code, soup) => Response code (fun portal => default None (scrape_article portal u soup))
    end.

(** ** Lemmas *)

Lemma NA_stripped : Tokenize.strip NA = NA.
Proof. reflexivity. Qed.

Lemma text_or_na_stripped t : Tokenize.strip (text_or_na t) = text_or_na t.
Proof. destruct t; [apply get_text_stripped|apply NA_stripped]. Qed.

(** The title field is [text_or_na] of the portal's title selector. *)
Lemma kotakgame_title url soup ad :
  scrape_kotakgame_article url soup = Some ad ->
  a_judul ad = text_or_na (select_one [tag_cls "h3" ["judulh3"]; tag_cls "span" ["txt9"]] soup).
Proof.
  unfold scrape_kotakgame_article.
  destruct (match select_one [tag_cls "div" ["isinewsp"]] soup with
            | Some content_div => kotakgame_content content_div | None => Some "" end); simpl; [|done].
  by intros [= <-].
Qed.

Lemma existsb_prefix_spec (R : list (list nat)) (p : list nat) :
  existsb (fun r => bool_decide (r `prefix_of` p)) R = true <-> exists r, r ∈ R /\ r `prefix_of` p.
Proof.
  rewrite existsb_exists. split.
  - intros (r & Hr & Hp). apply bool_decide_eq_true in Hp. exists r. by rewrite list_elem_of_In.
  - intros (r & Hr & Hp). exists r. rewrite <- list_elem_of_In. by rewrite bool_decide_eq_true.
Qed.

(** When the decomposition loop raises, for any set [R] of positions
  already decomposed: some string lies below a position of [R] or below
  the parent decomposed for an earlier string. *)
Lemma insta_decompose_none R ms :
  insta_decompose R ms = None <->
  exists ms1 p n ms2, ms = (ms1 ++ (p, n) :: ms2)%list /\
    exists q, (q ∈ R \/ exists qn, (q, qn) ∈ ms1 /\ decomposable qn = true) /\ q `prefix_of` p.
Proof.
  revert R; induction ms as [|[p n] ms IH]; intros R; simpl.
  - split; [done|]. intros (ms1 & ? & ? & ? & H & _). by destruct ms1.
  - destruct (existsb _ R) eqn:E.
    + split; [|done]. intros _. apply existsb_prefix_spec in E as (r & Hr & Hp).
      exists [], p, n, ms. split; [done|]. exists r. by split; [left|].
    + rewrite IH. split.
      * intros (ms1 & p' & n' & ms2 & -> & q & Hq & Hqp).
        exists ((p, n) :: ms1), p', n', ms2. split; [done|]. exists q. split; [|done].
        destruct Hq as [Hq|(qn & Hq & Hqn)].
        -- destruct (decomposable n) eqn:Hn; [|by left].
           apply elem_of_cons in Hq as [->|Hq]; [|by left].
           right. exists n. split; [apply list_elem_of_here|done].
        -- right. exists qn. split; [by apply elem_of_cons; right|done].
      * intros (ms1 & p' & n' & ms2 & Hms & q & Hq & Hqp).
        destruct ms1 as [|[p1 n1] ms1]; simpl in Hms; injection Hms as <- <- Hms.
        -- exfalso. destruct Hq as [Hq|(? & Hq & _)]; [|by apply not_elem_of_nil in Hq].
           assert (existsb (fun r => bool_decide (r `prefix_of` p)) R = true) by
             (apply existsb_prefix_spec; eauto). congruence.
        -- exists ms1, p', n', ms2. split; [done|]. exists q. split; [|done].
           destruct Hq as [Hq|(qn & Hq & Hqn)].
           ++ left. destruct (decomposable n); [by apply elem_of_cons; right|done].
           ++ apply elem_of_cons in Hq as [[= -> ->]|Hq].
              ** left. rewrite Hqn. apply list_elem_of_here.
              ** right. eauto.
Qed.

(** Splitting on one character: the piece before its first occurrence. *)
Lemma split_go_char_head c0 a s cur :
  PyStr.contains (String c0 EmptyString) a = false -> PyStr.startswith s (String c0 EmptyString) = true ->
  head (PyStr.split_go (String c0 EmptyString) (a ++ s) 0 cur) = Some (cur ++ a).
Proof.
  revert cur; induction a as [|c a IH]; intros cur Ha Hs.
  - change (EmptyString ++ s) with s. destruct s as [|d s]; [done|]. cbn [PyStr.split_go].
    rewrite Hs. simpl. by rewrite string_app_nil_r.
  - simpl in Ha. apply orb_false_iff in Ha as [Hc Ha]. simpl in Hc.
    rewrite string_app_cons. cbn [PyStr.split_go PyStr.startswith]. rewrite Hc, IH by done.
    by rewrite <- string_app_assoc.
Qed.

(** ** Theorems *)

(** Every title a portal's scraper returns has no whitespace at either
  end: it is [get_text(strip=True)] of the title tag, or ['N/A']. *)
Theorem scrape_article_title_stripped portal url soup ad :
  scrape_article portal url soup = Some (Some ad) -> Tokenize.strip (a_judul ad) = a_judul ad.
Proof.
  unfold scrape_article.
  repeat match goal with |- context [if String.eqb ?a ?b then _ else _] => destruct (String.eqb a b) end;
    intros H; try discriminate; injection H as H; try (subst; apply text_or_na_stripped).
  rewrite (kotakgame_title _ _ _ H). apply text_or_na_stripped.
Qed.

(** (C14) The Kotakgame scraper raises exactly when two strings holding the
  Instagram phrase are such that the second lies inside the [div], [p]
  or [span] decomposed for the first (its [parent] is gone). *)
Theorem kotakgame_content_error content_div :
  kotakgame_content content_div = None <->
  exists ms1 p n ms2,
    strings_containing INSTAGRAM (prune (fun _ m => is_tag_named "blockquote" m) [] content_div) =
      (ms1 ++ (p, n) :: ms2)%list /\
    exists q qn, (q, qn) ∈ ms1 /\ decomposable qn = true /\ q `prefix_of` p.
Proof.
  unfold kotakgame_content.
  destruct (insta_decompose [] _) eqn:E; simpl.
  - split; [done|]. intros (ms1 & p & n & ms2 & Hms & q & qn & Hq & Hqn & Hqp).
    assert (insta_decompose [] (ms1 ++ (p, n) :: ms2)%list = None) as E'.
    { apply insta_decompose_none. exists ms1, p, n, ms2. split; [done|]. exists q. split; [right; eauto|done]. }
    rewrite <- Hms in E'. congruence.
  - split; [intros _|done]. apply insta_decompose_none in E as (ms1 & p & n & ms2 & Hms & q & Hq & Hqp).
    exists ms1, p, n, ms2. split; [done|]. destruct Hq as [Hq|(qn & Hq & Hqn)].
    + by apply not_elem_of_nil in Hq.
    + by exists q, qn.
Qed.

(** (C17) A Detik date without [", "] is kept whole: [split(', ')[1]] raises
  [IndexError] and the handler stores the full text. *)
Theorem detik_date_no_comma full_date_text :
  PyStr.contains ", " full_date_text = false -> detik_date full_date_text = full_date_text.
Proof.
  intros H. unfold detik_date, PyStr.split_sep. rewrite PyStr.split_go_no_sep by done. reflexivity.
Qed.

(** (C15) Nothing after the first advertising or sharing [div] enters the
  Jagatplay content. *)
Theorem jagatplay_stops_at_ad sibs1 ad sibs2 :
  jagatplay_break ad = true -> jagatplay_paragraphs (sibs1 ++ ad :: sibs2)%list = jagatplay_paragraphs sibs1.
Proof.
  intros Had. induction sibs1 as [|sib sibs1 IH]; simpl; [by rewrite Had|].
  destruct (jagatplay_break sib); [done|]. by rewrite IH.
Qed.

(** (C16) The Indogamers date keeps only the part before the first comma: for a
  span reading ["<day>, <date>"] it is the day name alone. *)
Theorem indogamers_date_weekday day rest :
  day ∈ DAYS -> indogamers_date (day ++ ", " ++ rest) = day.
Proof.
  intros Hd.
  assert (PyStr.contains "," day = false /\ Tokenize.strip day = day) as [Hc Hs].
  { repeat (apply elem_of_cons in Hd as [->|Hd]; [by vm_compute|]). by apply not_elem_of_nil in Hd. }
  unfold indogamers_date, PyStr.split_sep. rewrite split_go_char_head by done.
  change (EmptyString ++ day) with day. simpl. exact Hs.
Qed.

(** (C13) End to end: a Gamebrott task whose URL is new and whose page answers
  200 ends in the CSV with the text of its [h1.jeg_post_title] as title. *)
Theorem main_gamebrott_page crawled f pages u soup h1 :
  ("Gamebrott", u) ∈ read_all_urls_to_scrape crawled PORTALS_TO_SCRAPE ->
  u ∉ get_already_scraped_urls f -> pages u = Some (200%Z, soup) ->
  select_one [tag_cls "h1" ["jeg_post_title"]] soup = Some h1 ->
  exists d, d ∈ csv (main crawled f (fetch_pages pages)) /\ url d = u /\ sumber d = "Gamebrott" /\
    judul d = get_text "" h1.
Proof.
  intros Hin Hu Hp Hh.
  destruct (main_task_row crawled f (fetch_pages pages) "Gamebrott" u
              (fun portal => default None (scrape_article portal u soup)) (scrape_gamebrott_article u soup)
              Hin Hu) as [c Hc].
  - unfold fetch_pages. by rewrite Hp.
  - reflexivity.
  - eexists. split; [exact Hc|]. split_and!; [done|done|]. simpl.
    change (a_judul (scrape_gamebrott_article u soup))
      with (text_or_na (select_one [tag_cls "h1" ["jeg_post_title"]] soup)).
    by rewrite Hh.
Qed.

(** ** Example pages *)

Definition ex_title : Node := Tag "h1" [("class", "jeg_post_title")] [NavigableString "  Elden Ring DLC  "].

Definition ex_gamebrott_page : Node :=
  Tag "[document]" [] [Tag "html" [] [Tag "body" [] [
    ex_title;
    Tag "div" [("class", "jeg_featured featured_image")]
      [Tag "div" [("class", "thumbnail-container")] [Tag "img" [("src", "a.jpg")] []]];
    Tag "div" [("class", "jeg_meta_date")] [Tag "a" [] [NavigableString " 1 Mei 2024 "]];
    Tag "div" [("class", "content-inner")]
      [Tag "p" [] [NavigableString " Para 1 "; Comment "x"]; Tag "p" [] [Tag "script" [] [NavigableString "js"]];
       Tag "p" [] [NavigableString "Para "; Tag "b" [] [NavigableString " 2"]]]]]].

(** Two Instagram strings, the second inside the [div] decomposed for the
  first. *)
Definition ex_kotakgame_content : Node :=
  Tag "div" [("class", "isinewsp")]
    [Tag "div" [] [NavigableString INSTAGRAM; Tag "p" [] [NavigableString INSTAGRAM]]].

Definition ex_ad : Node := Tag "div" [("class", "iklan-inline1")] [].

Definition ex_pages (u : string) : option (Z * Node) :=
  if String.eqb u "https://g/a" then Some (200%Z, ex_gamebrott_page) else None.

Example gamebrott_example :
  scrape_gamebrott_article "https://g/a" ex_gamebrott_page =
  mkArticleData "Elden Ring DLC" ("Para 1" ++ String "010" (String "010" "Para2")) "1 Mei 2024" "a.jpg".
Proof. vm_compute. reflexivity. Qed.

Example detik_date_example : detik_date "Senin, 03 Jun 2024 10:00 WIB" = "03 Jun 2024 10:00".
Proof. vm_compute. reflexivity. Qed.

Lemma kotakgame_content_error_witness : kotakgame_content ex_kotakgame_content = None.
Proof.
  apply kotakgame_content_error. exists [([0%nat], "div")], [0%nat; 1%nat], "p", []. split; [vm_compute; reflexivity|].
  exists [0%nat], "div". split_and!; [apply list_elem_of_here|reflexivity|vm_compute; exists [1%nat]; reflexivity].
Defined.

Lemma detik_date_no_comma_witness :
  PyStr.contains ", " "3 Juni 2024" = false /\ detik_date "3 Juni 2024" = "3 Juni 2024".
Proof. split; [reflexivity|]. apply detik_date_no_comma. reflexivity. Defined.

Lemma jagatplay_stops_at_ad_witness :
  jagatplay_break ex_ad = true /\
  jagatplay_paragraphs [Tag "p" [] [NavigableString "P1"]; ex_ad; Tag "p" [] [NavigableString "P2"]] = ["P1"].
Proof.
  split; [reflexivity|].
  transitivity (jagatplay_paragraphs [Tag "p" [] [NavigableString "P1"]]); [|vm_compute; reflexivity].
  apply (jagatplay_stops_at_ad [Tag "p" [] [NavigableString "P1"]] ex_ad [Tag "p" [] [NavigableString "P2"]]).
  reflexivity.
Defined.

Lemma indogamers_date_weekday_witness : "Senin" ∈ DAYS /\ indogamers_date "Senin, 3 Juni 2024" = "Senin".
Proof. split; [apply list_elem_of_here|]. apply (indogamers_date_weekday "Senin" "3 Juni 2024"). apply list_elem_of_here. Defined.

Lemma main_gamebrott_page_witness :
  exists d, d ∈ csv (main (Some ["Gamebrott;https://g/a"]) NoFile (fetch_pages ex_pages)) /\
    url d = "https://g/a" /\ sumber d = "Gamebrott" /\ judul d = "Elden Ring DLC".
Proof.
  destruct (main_gamebrott_page (Some ["Gamebrott;https://g/a"]) NoFile ex_pages "https://g/a" ex_gamebrott_page ex_title)
    as (d & H1 & H2 & H3 & H4); [vm_compute; apply list_elem_of_here|set_solver|reflexivity|vm_compute; reflexivity|].
  exists d. split_and!; [done|done|done|]. rewrite H4. vm_compute. reflexivity.
Defined.

End Portals.
